(** * crib_dragger.py: the partial-text buffer, the line wrapper, the cursor
      validators and the edit engine, embedded in Rocq.

    Python values are modelled as follows.
    - [str] is a list of Unicode code points ([N]); a buffer cell is
      [option char] ([None] is the unknown cell).
    - [int] is [Z]; list indices and slice bounds follow Python (negative
      indices count from the end, an index outside [-n, n) raises).
    - Exceptions are an error result; the widget methods run in a state and
      error monad over [World].
    - [PartialString] objects live in an object store, so that
      [deepcopy] and the live reference of a [Changed] message can be told
      apart.
    - Textual's [reactive] attributes call [validate_<name>] on every
      assignment and store the validated value when it differs from the value
      read before validation; the validators assign to each other's
      attribute, so the two setters are mutually recursive. Python's
      recursion limit is the [fuel] of the setters. *)

From Stdlib Require Import ZArith Lia String Ascii.
From stdpp Require Import base list.

Local Open Scope Z_scope.

(** ** Python values and exceptions *)

Abbreviation char := N (only parsing).
Abbreviation str := (list N) (only parsing).

Definition str_of (s : string) : str :=
  map N_of_ascii (list_ascii_of_string s).

Definition LF : char := 10%N.
Definition CR : char := 13%N.

Definition len {A} (l : list A) : Z := Z.of_nat (length l).

Inductive exn := IndexError | ValueError | RecursionError | TypeError.

Inductive result (A : Type) :=
| Ok (a : A)
| Raise (e : exn).
Arguments Ok {A} a.
Arguments Raise {A} e.

Definition result_bind {A B} (r : result A) (f : A -> result B) : result B :=
  match r with
  | Ok a => f a
  | Raise e => Raise e
  end.

(** ** Python list primitives *)

Module Py.

(** [l[i]]: the position an index denotes, or IndexError. *)
Definition index (n i : Z) : result nat :=
  if (0 <=? i) && (i <? n) then Ok (Z.to_nat i)
  else if (- n <=? i) && (i <? 0) then Ok (Z.to_nat (n + i))
  else Raise IndexError.

Definition getitem {A} (l : list A) (i : Z) : result A :=
  result_bind (index (len l) i) (fun k =>
  match l !! k with
  | Some x => Ok x
  | None => Raise IndexError
  end).

Definition setitem {A} (l : list A) (i : Z) (v : A) : result (list A) :=
  result_bind (index (len l) i) (fun k => Ok (<[k := v]> l)).

(** A slice bound, clamped as [l[lo:hi]] does. *)
Definition bound (n k : Z) : Z :=
  if k <? 0 then Z.max 0 (n + k) else Z.min k n.

Definition slice {A} (l : list A) (lo hi : Z) : list A :=
  let a := bound (len l) lo in
  let b := bound (len l) hi in
  take (Z.to_nat (b - a)) (drop (Z.to_nat a) l).

(** [l[:hi]] *)
Definition slice_to {A} (l : list A) (hi : Z) : list A := slice l 0 hi.

(** [range(start, stop, step)]; a zero step raises ValueError. *)
Definition range (start stop step : Z) : result (list Z) :=
  if step =? 0 then Raise ValueError
  else if 0 <? step then
    Ok (map (fun k => start + Z.of_nat k * step)
            (seq 0 (Z.to_nat ((stop - start + step - 1) / step))))
  else
    Ok (map (fun k => start + Z.of_nat k * step)
            (seq 0 (Z.to_nat ((start - stop - step - 1) / (- step))))).

Definition sum (l : list Z) : Z := foldr Z.add 0 l.

(** [max(l)]; an empty argument raises ValueError. *)
Definition max (l : list Z) : result Z :=
  match l with
  | [] => Raise ValueError
  | x :: r => Ok (foldl Z.max x r)
  end.

(** The characters [str.splitlines] treats as line boundaries. *)
Definition is_linebreak (c : char) : bool :=
  bool_decide (c ∈ [10; 11; 12; 13; 28; 29; 30; 133; 8232; 8233]%N).

(** [str.splitlines()] without keepends: [cur] is the line being read.
    CR LF is one boundary; the empty rest after a boundary gives no line. *)
Fixpoint splitlines_from (cur s : str) {struct s} : list str :=
  match s with
  | [] => match cur with [] => [] | _ => [cur] end
  | c :: rest =>
      if is_linebreak c then
        if (c =? CR)%N then
          match rest with
          | c' :: rest' =>
              if (c' =? LF)%N then cur :: splitlines_from [] rest'
              else cur :: splitlines_from [] rest
          | [] => cur :: splitlines_from [] rest
          end
        else cur :: splitlines_from [] rest
      else splitlines_from (cur ++ [c]) rest
  end.

Definition splitlines (s : str) : list str := splitlines_from [] s.

(** [sep.join(ls)] *)
Fixpoint join (sep : str) (ls : list str) : str :=
  match ls with
  | [] => []
  | [x] => x
  | x :: r => x ++ sep ++ join sep r
  end.

End Py.

(** ** PartialString *)

Abbreviation cell := (option N) (only parsing).

Definition UNKNOWN_CHARACTER : char := 95%N.

Record PartialString := mkPartialString {
  replacement : char;
  length_ : Z;
  _value : list cell
}.

Module PartialString.

(** [__init__] *)
Definition init (length : Z) : PartialString :=
  {| replacement := UNKNOWN_CHARACTER;
     length_ := length;
     _value := replicate (Z.to_nat length) None |}.

(** [__eq__] against another PartialString *)
Definition eq (a b : PartialString) : bool :=
  bool_decide (_value b = _value a).

(** [__len__] *)
Definition len_ (p : PartialString) : Z := length_ p.

(** [__getitem__] with an integer subscript *)
Definition getitem (p : PartialString) (subscript : Z) : result cell :=
  Py.getitem (_value p) subscript.

(** [__setitem__] *)
Definition setitem (p : PartialString) (key : Z) (value : cell)
  : result PartialString :=
  result_bind (Py.setitem (_value p) key value) (fun v =>
  Ok {| replacement := replacement p; length_ := length_ p; _value := v |}).

(** [__delitem__] *)
Definition delitem (p : PartialString) (key : Z) : result PartialString :=
  result_bind (Py.setitem (_value p) key None) (fun v =>
  Ok {| replacement := replacement p; length_ := length_ p; _value := v |}).

(** [stringify(value)] with the default substitute *)
Definition stringify (p : PartialString) (value : list cell) : str :=
  map (fun x => match x with Some c => c | None => replacement p end) value.

(** [__repr__] *)
Definition repr (p : PartialString) : str := stringify p (_value p).



End PartialString.

(** ** The object store, the widget and the monad of its methods *)

Abbreviation loc := nat (only parsing).

(** [TextArea.Changed] *)
Record Changed := mkChanged {
  previous : loc;
  current : loc
}.

Record World := mkWorld {
  heap : list PartialString;      (* PartialString objects, by identity *)
  text : str;                     (* TextArea.text *)
  value : loc;                    (* TextArea.value *)
  lines : list str;               (* TextArea.lines *)
  cursor_x : Z;
  cursor_y : Z;
  virtual_size : Z * Z;
  posted : list Changed;          (* messages handed to post_message *)
  callback_log : list (loc * loc) (* calls on_change(previous, current) made *)
}.

Definition with_heap (h : list PartialString) (w : World) : World :=
  mkWorld h (text w) (value w) (lines w) (cursor_x w) (cursor_y w)
          (virtual_size w) (posted w) (callback_log w).
Definition with_value (v : loc) (w : World) : World :=
  mkWorld (heap w) (text w) v (lines w) (cursor_x w) (cursor_y w)
          (virtual_size w) (posted w) (callback_log w).
Definition with_lines (l : list str) (w : World) : World :=
  mkWorld (heap w) (text w) (value w) l (cursor_x w) (cursor_y w)
          (virtual_size w) (posted w) (callback_log w).
Definition with_cursor_x (x : Z) (w : World) : World :=
  mkWorld (heap w) (text w) (value w) (lines w) x (cursor_y w)
          (virtual_size w) (posted w) (callback_log w).
Definition with_cursor_y (y : Z) (w : World) : World :=
  mkWorld (heap w) (text w) (value w) (lines w) (cursor_x w) y
          (virtual_size w) (posted w) (callback_log w).
Definition with_virtual_size (s : Z * Z) (w : World) : World :=
  mkWorld (heap w) (text w) (value w) (lines w) (cursor_x w) (cursor_y w)
          s (posted w) (callback_log w).
Definition with_posted (p : list Changed) (w : World) : World :=
  mkWorld (heap w) (text w) (value w) (lines w) (cursor_x w) (cursor_y w)
          (virtual_size w) p (callback_log w).
Definition with_callback_log (c : list (loc * loc)) (w : World) : World :=
  mkWorld (heap w) (text w) (value w) (lines w) (cursor_x w) (cursor_y w)
          (virtual_size w) (posted w) c.

Definition M (A : Type) : Type := World -> result (A * World).

Definition ret {A} (a : A) : M A := fun w => Ok (a, w).
Definition bind {A B} (m : M A) (f : A -> M B) : M B :=
  fun w => match m w with
           | Ok (a, w') => f a w'
           | Raise e => Raise e
           end.
Definition raise {A} (e : exn) : M A := fun _ => Raise e.
Definition lift {A} (r : result A) : M A :=
  fun w => match r with Ok a => Ok (a, w) | Raise e => Raise e end.
Definition gets {A} (f : World -> A) : M A := fun w => Ok (f w, w).
Definition modify (f : World -> World) : M unit := fun w => Ok (tt, f w).

Declare Scope py_scope.
Delimit Scope py_scope with py.
Notation "x <- c ;; k" := (bind c (fun x => k))
  (at level 100, c at next level, right associativity) : py_scope.
Notation "c ;; k" := (bind c (fun _ => k))
  (at level 100, right associativity) : py_scope.
Local Open Scope py_scope.

(** [for x in l: body x] *)
Fixpoint for_each {A} (l : list A) (body : A -> M unit) : M unit :=
  match l with
  | [] => ret tt
  | x :: r => body x ;; for_each r body
  end.

(** The state an action leaves, when it returns. *)
Definition exec {A} (m : M A) (w : World) : result World :=
  match m w with
  | Ok (_, w') => Ok w'
  | Raise e => Raise e
  end.

Module TextArea.

Definition NUM_LINES : Z := 3.

(** [self.lines[i]] *)
Definition line_at (i : Z) : M str :=
  ls <- gets lines ;; lift (Py.getitem ls i).

(** [deepcopy(self.value)]: a new object with the same contents. *)
Definition deepcopy (l : loc) : M loc :=
  h <- gets heap ;;
  match h !! l with
  | Some p =>
      modify (with_heap
        (h ++ [mkPartialString (replacement p) (length_ p) (_value p)])) ;;
      ret (length h)
  | None => raise IndexError
  end.

(** [obj[key] = v] on the PartialString object at [l] *)
Definition value_setitem (l : loc) (key : Z) (v : cell) : M unit :=
  h <- gets heap ;;
  match h !! l with
  | Some p =>
      p' <- lift (PartialString.setitem p key v) ;;
      modify (with_heap (<[l := p']> h))
  | None => raise IndexError
  end.

Definition post_message (e : Changed) : M unit :=
  modify (fun w => with_posted (posted w ++ [e]) w).

(** [update_lines(window_len)] *)
Definition update_lines (window_len : Z) : M unit :=
  let max_line_length := window_len * 2 in
  t <- gets text ;;
  for_each (Py.splitlines t) (fun x =>
    if len x >=? max_line_length then
      r <- lift (Py.range 0 (len x) max_line_length) ;;
      modify (fun w => with_lines
        (lines w ++ map (fun i => Py.slice x i (i + max_line_length)) r) w)
    else
      modify (fun w => with_lines (lines w ++ [x]) w)) ;;
  ls <- gets lines ;;
  width <- lift (Py.max (map len ls)) ;;
  modify (with_virtual_size (width, len ls * NUM_LINES)).


(** [on_resize]: [refresh] only invalidates the display. *)
Definition on_resize (width : Z) : M unit := update_lines width.

(** [replace_char_at_cursor(char)] *)
Definition replace_char_at_cursor (char : cell) : M unit :=
  ls <- gets lines ;;
  cy <- gets cursor_y ;;
  let start := Py.sum (map (fun x => len x + 1) (Py.slice_to ls cy)) in
  v <- gets value ;;
  prev <- deepcopy v ;;
  v <- gets value ;;
  cx <- gets cursor_x ;;
  value_setitem v (start + cx) char ;;
  v <- gets value ;;
  post_message (mkChanged prev v).

(** Assignment to a [reactive] attribute: read the current value, validate
    the new one, store it when it differs. The watchers of [cursor_x] and
    [cursor_y] only scroll the view. *)
Definition reactive_set (get : World -> Z) (put : Z -> World -> World)
    (validate : Z -> M Z) (v : Z) : M unit :=
  current_value <- gets get ;;
  v' <- validate v ;;
  if current_value =? v' then ret tt else modify (put v').

Section Validators.
(** [self.cursor_x = _] and [self.cursor_y = _] as the validators see
    them. *)
Variable set_cursor_x : Z -> M unit.
Variable set_cursor_y : Z -> M unit.

(** [validate_cursor_y(y)] *)
Definition validate_cursor_y (y : Z) : M Z :=
  let y := if y <? 0 then 0 else y in
  ls <- gets lines ;;
  let y := if y >=? len ls then len ls - 1 else y in
  line <- line_at y ;;
  cy <- gets cursor_y ;;
  let y := if len line =? 0 then y + (y - cy) else y in
  cx <- gets cursor_x ;;
  (if cx >? len line then set_cursor_x (len line - 1) else ret tt) ;;
  ret y.

(** [_line_length()] of [validate_cursor_x] *)
Definition _line_length : M Z :=
  cy <- gets cursor_y ;;
  line <- line_at cy ;;
  ret (len line).

(** [validate_cursor_x(x)] *)
Definition validate_cursor_x (x : Z) : M Z :=
  x <- (if x <? 0 then
          old <- gets cursor_y ;;
          set_cursor_y (old - 1) ;;
          cy <- gets cursor_y ;;
          if old =? cy then ret 0
          else (l <- _line_length ;; ret (l - 1))
        else ret x) ;;
  cy <- gets cursor_y ;;
  ls <- gets lines ;;
  x <- (if cy + 1 =? len ls then
          l <- _line_length ;;
          if x >=? l then ret (x - 1) else ret x
        else ret x) ;;
  l <- _line_length ;;
  if x >? l - 1 then
    cy <- gets cursor_y ;;
    set_cursor_y (cy + 1) ;;
    ret 0
  else ret x.
End Validators.

(** The two reactive setters. A nesting deeper than [fuel] is Python's
    RecursionError. *)
Fixpoint set_cursor_x (fuel : nat) (v : Z) {struct fuel} : M unit :=
  match fuel with
  | O => raise RecursionError
  | S n =>
      reactive_set cursor_x with_cursor_x
        (validate_cursor_x (set_cursor_y n)) v
  end
with set_cursor_y (fuel : nat) (v : Z) {struct fuel} : M unit :=
  match fuel with
  | O => raise RecursionError
  | S n =>
      reactive_set cursor_y with_cursor_y
        (validate_cursor_y (set_cursor_x n)) v
  end.

Section Actions.
Variable fuel : nat.

Definition action_cursor_down : M unit :=
  cy <- gets cursor_y ;; set_cursor_y fuel (cy + 1).

Definition action_cursor_up : M unit :=
  cy <- gets cursor_y ;; set_cursor_y fuel (cy - 1).

Definition action_cursor_left : M unit :=
  cx <- gets cursor_x ;; set_cursor_x fuel (cx - 1).

Definition action_cursor_right : M unit :=
  cx <- gets cursor_x ;; set_cursor_x fuel (cx + 1).

Definition action_delete_left : M unit :=
  cx <- gets cursor_x ;; set_cursor_x fuel (cx - 1) ;;
  replace_char_at_cursor None.

Definition action_delete_right : M unit :=
  cx <- gets cursor_x ;; set_cursor_x fuel (cx + 1) ;;
  replace_char_at_cursor None.

(** The printable branch of [_on_key] *)
Definition on_printable (character : char) : M unit :=
  replace_char_at_cursor (Some character) ;;
  cx <- gets cursor_x ;; set_cursor_x fuel (cx + 1).
End Actions.

(** [_cursor_point] *)
Definition _cursor_point (w : World) : Z * Z :=
  (cursor_x w, cursor_y w * NUM_LINES + 1).

(** [watch_cursor]: the arguments it hands to [scroll_to], from the scroll
    offset and the size of the widget. *)
Definition watch_cursor (scroll_offset size : Z * Z) (w : World) : Z * Z :=
  let scroll_x := fst scroll_offset in
  let scroll_y := snd scroll_offset in
  let x := fst (_cursor_point w) in
  let y := snd (_cursor_point w) in
  let scroll_dx := 0 in
  let scroll_dy := 0 in
  let scroll_dx :=
    if x >=? scroll_x + fst size - 2 then fst size / 2 else scroll_dx in
  let scroll_dx := if x <=? scroll_x then - scroll_x else scroll_dx in
  let scroll_dy :=
    if (y <=? scroll_y) || (y >=? scroll_y + snd size - 2)
    then snd size / 2 else scroll_dy in
  let scroll_dy := if y <=? scroll_y then scroll_dy * -1 else scroll_dy in
  (scroll_x + scroll_dx, scroll_y + scroll_dy).

(** The [for ... else] of [_on_click] over [enumerate(str(self.value))]:
    the index at which the loop breaks, or [None] when it runs to the end. *)
Fixpoint click_scan (cell_size : N -> Z) (click_x cell_offset index : Z)
    (s : str) : option Z :=
  match s with
  | [] => None
  | c :: r =>
      if cell_offset >=? click_x then Some index
      else click_scan cell_size click_x (cell_offset + cell_size c)
             (index + 1) r
  end.

(** [_on_click]. [offset] is what [event.get_content_offset(self)] returns,
    [cell_size] is rich's [get_character_cell_size]. *)
Definition on_click (fuel : nat) (cell_size : N -> Z)
    (scroll_offset : Z * Z) (offset : option (Z * Z)) : M unit :=
  match offset with
  | None => ret tt
  | Some o =>
      let click_x := fst o + fst scroll_offset in
      let click_y := snd o + snd scroll_offset in
      if negb (click_y mod NUM_LINES =? 1) then ret tt
      else
        set_cursor_y fuel (click_y / NUM_LINES) ;;
        v <- gets value ;;
        h <- gets heap ;;
        match h !! v with
        | Some p =>
            match click_scan cell_size click_x 0 0 (PartialString.repr p) with
            | Some index => set_cursor_x fuel index
            | None => set_cursor_x fuel (length_ p)
            end
        | None => raise IndexError
        end
  end.

End TextArea.

(** ** The application: the callback bridge *)

(** The host's [on_change]: called without arguments it gives the initial
    buffer, called with [(previous, current)] it may read and write the
    store and returns the buffer to display. *)
Record Callback := mkCallback {
  initial : PartialString;
  changed : list PartialString -> loc -> loc -> list PartialString * loc
}.

Module CribDragger.

(** [compose]: the widget as constructed, before any layout. *)
Definition compose (text : str) (on_change : option Callback) : World :=
  let value :=
    match on_change with
    | Some f => initial f
    | None => PartialString.init (len text)
    end in
  mkWorld [value] text 0%nat [] 0 0 (0, 0) [] [].

(** [on_text_area_changed(e)] *)
Definition on_text_area_changed (on_change : option Callback) (e : Changed)
  : M unit :=
  match on_change with
  | Some f =>
      h <- gets heap ;;
      modify (fun w =>
        with_callback_log (callback_log w ++ [(previous e, current e)]) w) ;;
      let r := changed f h (previous e) (current e) in
      modify (with_heap (fst r)) ;;
      modify (with_value (snd r))
  | None => ret tt
  end.

(** The message pump: every posted message reaches the handler, in order. *)
Definition dispatch (on_change : option Callback) : M unit :=
  msgs <- gets posted ;;
  modify (with_posted []) ;;
  for_each msgs (on_text_area_changed on_change).

End CribDragger.

(** Key presses, as [_on_key] and the bindings route them. *)
Inductive Key :=
| KLeft | KRight | KUp | KDown | KBackspace | KDelete
| KChar (c : char).

Definition on_key (fuel : nat) (k : Key) : M unit :=
  match k with
  | KLeft => TextArea.action_cursor_left fuel
  | KRight => TextArea.action_cursor_right fuel
  | KUp => TextArea.action_cursor_up fuel
  | KDown => TextArea.action_cursor_down fuel
  | KBackspace => TextArea.action_delete_left fuel
  | KDelete => TextArea.action_delete_right fuel
  | KChar c => TextArea.on_printable fuel c
  end.

Definition on_keys (fuel : nat) (ks : list Key) : M unit :=
  for_each ks (on_key fuel).

(** The text of the module's [__main__]. *)
Definition main_text : str :=
  str_of "Test" ++ [LF] ++ str_of "Test" ++ [LF] ++ str_of "TEsst".

(** ** The cursor on the layout

    The predicates and the closed forms the cursor lemmas are stated with. *)

(** [len(self.lines[y])] for a row [y] of the layout. *)
Definition line_length (w : World) (y : Z) : Z :=
  match lines w !! Z.to_nat y with Some l => len l | None => 0 end.

(** No line of the layout is empty. *)
Definition no_empty_line (w : World) : Prop :=
  Forall (fun l : str => 0 < len l) (lines w).

(** The cursor's row is a row of the layout. *)
Definition row_in_text (w : World) : Prop := 0 <= cursor_y w < len (lines w).

(** The state with the cursor at column [x], row [y]. *)
Definition at_cursor (x y : Z) (w : World) : World :=
  with_cursor_x x (with_cursor_y y w).

(** The two clamps at the head of [validate_cursor_y]. *)
Definition clamp_row (w : World) (y : Z) : Z :=
  let y := if y <? 0 then 0 else y in
  if y >=? len (lines w) then len (lines w) - 1 else y.

(** The column [validate_cursor_y] leaves when the row becomes [c]. *)
Definition column_on_row (w : World) (c : Z) : Z :=
  if cursor_x w >? line_length w c then line_length w c - 1 else cursor_x w.

(** A layout without empty lines, the cursor on one of its rows and not
    beyond the end of that row's line. *)
Definition well_placed (w : World) : Prop :=
  no_empty_line w /\ row_in_text w /\ cursor_x w <= line_length w (cursor_y w).

(** What [validate_cursor_x(x)] returns and the state it leaves, on a
    well placed cursor. *)
Definition column_result (w : World) (x : Z) : Z * World :=
  let cy := cursor_y w in
  let L := line_length w cy in
  if x <? 0 then
    if cy =? 0 then (0, w)
    else (line_length w (cy - 1) - 1,
          at_cursor (column_on_row w (cy - 1)) (cy - 1) w)
  else if cy + 1 =? len (lines w) then
    if x <? L then (x, w) else if x =? L then (L - 1, w) else (0, w)
  else if x <? L then (x, w)
  else (0, at_cursor (column_on_row w (cy + 1)) (cy + 1) w).

(** The state after [self.cursor_x = x], on a well placed cursor. *)
Definition move_column (w : World) (x : Z) : World :=
  let r := column_result w x in at_cursor (fst r) (cursor_y (snd r)) w.

(** The linear index [replace_char_at_cursor] computes for the cursor. *)
Definition linear_index (w : World) : Z :=
  Py.sum (map (fun x => len x + 1) (Py.slice_to (lines w) (cursor_y w)))
  + cursor_x w.

(** The buffer has a cell for every column of the layout and for the
    terminator between two lines. *)
Definition layout_fits (w : World) (p : PartialString) : Prop :=
  Py.sum (map (fun x => len x + 1) (lines w)) <= len (_value p) + 1.


(** The cursor invariant: a row of the layout, a column from 0 to the
    length of that row's line. *)
Definition cursor_invariant (w : World) : Prop :=
  0 <= cursor_y w < len (lines w) /\
  0 <= cursor_x w <= line_length w (cursor_y w).

(** The four navigation keys. *)
Definition navigation (k : Key) : bool :=
  match k with
  | KLeft | KRight | KUp | KDown => true
  | _ => false
  end.

(** ** The wrap in closed form *)

(** The lines one raw line [x] contributes at [max_line_length = m > 0]. *)
Definition chunks (m : Z) (x : str) : list str :=
  if len x >=? m then
    map (fun i => Py.slice x i (i + m))
        (map (fun k => 0 + Z.of_nat k * m)
             (seq 0 (Z.to_nat ((len x - 0 + m - 1) / m))))
  else [x].

(** The lines [update_lines(width)] adds, for a positive width. *)
Definition wrap (t : str) (width : Z) : list str :=
  concat (map (chunks (width * 2)) (Py.splitlines t)).

(** The text ends with a line feed. *)
Definition ends_with_LF (t : str) : bool :=
  match last t with
  | Some c => (c =? LF)%N
  | None => false
  end.

(** Line feed is the only line boundary in the text. *)
Definition only_LF (t : str) : Prop :=
  Forall (fun c => Py.is_linebreak c = true -> c = LF) t.


(** The cursor is on a cell: a layout without empty lines that the buffer
    covers, a row of the layout and a column of that row's line. *)
Definition on_cell (w : World) : Prop :=
  no_empty_line w /\ row_in_text w /\
  0 <= cursor_x w < line_length w (cursor_y w) /\
  exists p, heap w !! value w = Some p /\ layout_fits w p.

(** The keys other than up and down. *)
Definition horizontal (k : Key) : bool :=
  match k with
  | KUp | KDown => false
  | _ => true
  end.

(** The keys that call [replace_char_at_cursor]. *)
Definition is_edit (k : Key) : bool :=
  match k with
  | KChar _ | KBackspace | KDelete => true
  | _ => false
  end.

(** ** Scenarios *)

(** The widget for [t] without a callback, after its first layout. *)
Definition laid_out (t : str) (width : Z) : result World :=
  exec (TextArea.update_lines width) (CribDragger.compose t None).

(** Scenario 1: [main_text], buffer fully unknown, no line chunked. *)
Definition scenario_1 : World :=
  mkWorld [PartialString.init 15] main_text 0%nat
    [str_of "Test"; str_of "Test"; str_of "TEsst"] 0 0 (5, 9) [] [].

(** A host callback that keeps the live buffer on display. *)
Definition keep_current : Callback :=
  mkCallback (PartialString.init 15) (fun h _ cur => (h, cur)).

(** A host callback whose initial buffer of four cells knows the second
    cell, and that keeps the live buffer on display. *)
Definition second_cell_known : Callback :=
  mkCallback
    (mkPartialString UNKNOWN_CHARACTER 4 [None; Some 97%N; None; None])
    (fun h _ cur => (h, cur)).

(** The text ["abcd\nabc"] laid out without chunking, the cursor on the
    last cell of the first line (three right-arrows from the start). *)
Definition shorter_last_line : World :=
  mkWorld [PartialString.init 8] (str_of "abcd" ++ [LF] ++ str_of "abc")
    0%nat [str_of "abcd"; str_of "abc"] 3 0 (4, 6) [] [].

(** The text ["\nabcd"] laid out, the cursor on the last cell of the second
    line (down-arrow and three right-arrows from the start). *)
Definition below_empty_line : World :=
  mkWorld [PartialString.init 5] ([LF] ++ str_of "abcd") 0%nat
    [[]; str_of "abcd"] 3 1 (4, 6) [] [].

(** The buffer the widget edits. *)
Definition buffer (w : World) : option (list (option N)) :=
  _value <$> heap w !! value w.

(** * Properties *)

(** ** Python list indexing *)

Lemma index_in_range n i :
  0 <= i < n -> Py.index n i = Ok (Z.to_nat i).
Proof.
  intros H. unfold Py.index.
  destruct (Z.leb_spec 0 i); [|lia].
  destruct (Z.ltb_spec i n); [|lia]. reflexivity.
Qed.

Lemma index_negative n i :
  - n <= i < 0 -> Py.index n i = Ok (Z.to_nat (n + i)).
Proof.
  intros H. unfold Py.index.
  destruct (Z.leb_spec 0 i); [lia|]. cbn [andb].
  destruct (Z.leb_spec (- n) i); [|lia].
  destruct (Z.ltb_spec i 0); [|lia]. reflexivity.
Qed.

Lemma index_outside n i :
  n <= i \/ i < - n -> 0 <= n -> Py.index n i = Raise IndexError.
Proof.
  intros H Hn. unfold Py.index.
  destruct (Z.leb_spec 0 i), (Z.ltb_spec i n), (Z.leb_spec (- n) i),
    (Z.ltb_spec i 0); cbn [andb]; try reflexivity; lia.
Qed.

Lemma len_nonneg {A} (l : list A) : 0 <= len l.
Proof. unfold len. lia. Qed.

Lemma getitem_in_range {A} (l : list A) i x :
  0 <= i -> l !! Z.to_nat i = Some x -> Py.getitem l i = Ok x.
Proof.
  intros Hi Hx. unfold Py.getitem.
  rewrite index_in_range.
  - cbn. rewrite Hx. reflexivity.
  - apply lookup_lt_Some in Hx. unfold len. lia.
Qed.

(** ** The buffer accessors (C4) *)

(** C4, as the code has it: an index [i >= n] or [i < -n] makes each of
    [get], [set] and [clear] raise IndexError and nothing is read or written;
    an index in [-n, 0) raises nothing and addresses cell [n + i], as Python
    lists do. *)
Theorem partial_string_access_outside (p : PartialString) (i : Z) (c : cell) :
  let n := len (_value p) in
  ((n <= i \/ i < - n) ->
     PartialString.getitem p i = Raise IndexError /\
     PartialString.setitem p i c = Raise IndexError /\
     PartialString.delitem p i = Raise IndexError) /\
  (- n <= i < 0 ->
     (exists x, _value p !! Z.to_nat (n + i) = Some x /\
                PartialString.getitem p i = Ok x) /\
     PartialString.setitem p i c =
       Ok (mkPartialString (replacement p) (length_ p)
             (<[Z.to_nat (n + i) := c]> (_value p))) /\
     PartialString.delitem p i =
       Ok (mkPartialString (replacement p) (length_ p)
             (<[Z.to_nat (n + i) := None]> (_value p)))).
Proof.
  intros n. split.
  - intros H.
    unfold PartialString.getitem, PartialString.setitem,
      PartialString.delitem, Py.getitem, Py.setitem.
    rewrite index_outside by (auto using len_nonneg). auto.
  - intros H.
    unfold PartialString.getitem, PartialString.setitem,
      PartialString.delitem, Py.getitem, Py.setitem.
    rewrite index_negative by exact H. cbn [result_bind].
    split; [|auto].
    destruct (lookup_lt_is_Some_2 (_value p) (Z.to_nat (n + i))) as [x Hx].
    { subst n. unfold len in *. lia. }
    exists x. fold n. rewrite Hx. auto.
Qed.

Lemma partial_string_access_outside_witness :
  let p := mkPartialString UNKNOWN_CHARACTER 3 [Some 97%N; None; Some 99%N] in
  (PartialString.getitem p 3 = Raise IndexError /\
   PartialString.setitem p 3 None = Raise IndexError /\
   PartialString.delitem p 3 = Raise IndexError) /\
  PartialString.delitem p (-3) =
    Ok (mkPartialString UNKNOWN_CHARACTER 3 [None; None; Some 99%N]).
Proof.
  intros p. split.
  - apply (partial_string_access_outside p 3 None). left.
    unfold p, len. simpl. lia.
  - apply (partial_string_access_outside p (-3) None).
    unfold p, len. simpl. lia.
Defined.

(** C4 as stated fails: [-1] is outside [0, 3), yet reading it returns the
    last cell and writing it overwrites the last cell. *)
Lemma partial_string_negative_index_accepted :
  let p := mkPartialString UNKNOWN_CHARACTER 3 [Some 97%N; None; Some 99%N] in
  ~ (0 <= -1 < len (_value p)) /\
  PartialString.getitem p (-1) = Ok (Some 99%N) /\
  PartialString.setitem p (-1) (Some 88%N) =
    Ok (mkPartialString UNKNOWN_CHARACTER 3 [Some 97%N; None; Some 88%N]) /\
  PartialString.delitem p (-1) =
    Ok (mkPartialString UNKNOWN_CHARACTER 3 [Some 97%N; None; None]).
Proof. cbv zeta. split; [lia|]. repeat split. Qed.

(** ** Recomputing the layout (C7, C8) *)


(** C7 at its failing input: the widget built for ["ABCD"] and laid out at
    width 100 holds the one line ["ABCD"]; a resize to width 1 leaves
    ["ABCD"; "AB"; "CD"], the old list followed by the new wrap, whereas the
    wrap of the text at width 1 is ["AB"; "CD"]. *)
Theorem resize_extends_previous_lines :
  let fresh := CribDragger.compose (str_of "ABCD") None in
  (exists w1 w2 w3,
     exec (TextArea.update_lines 100) fresh = Ok w1 /\
     lines w1 = [str_of "ABCD"] /\
     exec (TextArea.on_resize 1) w1 = Ok w2 /\
     lines w2 = [str_of "ABCD"; str_of "AB"; str_of "CD"] /\
     exec (TextArea.update_lines 1) fresh = Ok w3 /\
     lines w3 = [str_of "AB"; str_of "CD"]).
Proof.
  cbv zeta. eexists _, _, _.
  split; [vm_compute; reflexivity|].
  split; [reflexivity|].
  split; [vm_compute; reflexivity|].
  split; [reflexivity|].
  split; [vm_compute; reflexivity|reflexivity].
Qed.

(** C8 at its failing inputs: on a newly composed widget, [update_lines(0)]
    raises ValueError for every text ([range] refuses the zero step on the
    first raw line; a text without lines reaches [max] of an empty list). *)
Theorem update_lines_zero_width_raises (t : str) (on_change : option Callback) :
  TextArea.update_lines 0 (CribDragger.compose t on_change) = Raise ValueError.
Proof.
  unfold TextArea.update_lines, CribDragger.compose.
  unfold bind at 1. unfold gets at 1. cbn [text].
  destruct (Py.splitlines t) as [|x r].
  - reflexivity.
  - cbn [for_each]. unfold bind at 1 2.
    replace (len x >=? 0 * 2) with true
      by (symmetry; apply Z.geb_le; pose proof (len_nonneg x); lia).
    reflexivity.
Qed.

(** ** The monad *)

Lemma bind_gets {A B} (g : World -> A) (f : A -> M B) w :
  bind (gets g) f w = f (g w) w.
Proof. reflexivity. Qed.

Lemma bind_ret {A B} (a : A) (f : A -> M B) w : bind (ret a) f w = f a w.
Proof. reflexivity. Qed.

Lemma bind_ok {A B} (m : M A) (f : A -> M B) w a w' :
  m w = Ok (a, w') -> bind m f w = f a w'.
Proof. intros H. unfold bind. rewrite H. reflexivity. Qed.

Lemma bind_assoc {A B C} (m : M A) (f : A -> M B) (g : B -> M C) w :
  bind (bind m f) g w = bind m (fun a => bind (f a) g) w.
Proof. unfold bind. destruct (m w) as [[a w']|e]; reflexivity. Qed.

(** Case analysis on the next integer comparison of the goal. *)
Ltac zcase :=
  match goal with
  | |- context [?a <? ?b] => destruct (Z.ltb_spec a b)
  | |- context [?a >? ?b] => rewrite (Z.gtb_ltb a b); destruct (Z.ltb_spec b a)
  | |- context [?a >=? ?b] => rewrite (Z.geb_leb a b); destruct (Z.leb_spec b a)
  | |- context [?a =? ?b] => destruct (Z.eqb_spec a b)
  end.

(** ** The cursor on a layout without empty lines

    The validators and the two reactive setters in closed form. *)

Lemma at_cursor_id w : at_cursor (cursor_x w) (cursor_y w) w = w.
Proof. destruct w. reflexivity. Qed.

Lemma at_cursor_x w x : with_cursor_x x w = at_cursor x (cursor_y w) w.
Proof. destruct w. reflexivity. Qed.

Lemma line_at_ok w i :
  0 <= i < len (lines w) ->
  exists l, lines w !! Z.to_nat i = Some l /\
            TextArea.line_at i w = Ok (l, w) /\
            len l = line_length w i.
Proof.
  intros Hi.
  destruct (lookup_lt_is_Some_2 (lines w) (Z.to_nat i)) as [l Hl].
  { unfold len in Hi. lia. }
  exists l. split; [exact Hl|]. split.
  - unfold TextArea.line_at. rewrite bind_gets. unfold lift.
    rewrite (getitem_in_range _ _ l) by (lia || exact Hl). reflexivity.
  - unfold line_length. rewrite Hl. reflexivity.
Qed.

Lemma line_length_ok w :
  row_in_text w -> TextArea._line_length w = Ok (line_length w (cursor_y w), w).
Proof.
  intros H. destruct (line_at_ok w (cursor_y w) H) as (l & _ & Hl & Hlen).
  unfold TextArea._line_length. rewrite bind_gets.
  rewrite (bind_ok _ _ _ _ _ Hl). rewrite <- Hlen. reflexivity.
Qed.

(** A column of the current line passes [validate_cursor_x] unchanged. *)
Lemma validate_cursor_x_interior set_y w x :
  row_in_text w -> 0 <= x <= line_length w (cursor_y w) - 1 ->
  TextArea.validate_cursor_x set_y x w = Ok (x, w).
Proof.
  intros Hr Hx. unfold TextArea.validate_cursor_x.
  zcase; [lia|]. rewrite bind_ret, !bind_gets.
  zcase.
  - rewrite bind_assoc, (bind_ok _ _ _ _ _ (line_length_ok w Hr)).
    zcase; [lia|]. rewrite bind_ret.
    rewrite (bind_ok _ _ _ _ _ (line_length_ok w Hr)).
    zcase; [lia|]. reflexivity.
  - rewrite bind_ret. rewrite (bind_ok _ _ _ _ _ (line_length_ok w Hr)).
    zcase; [lia|]. reflexivity.
Qed.

Lemma line_length_pos w i :
  no_empty_line w -> 0 <= i < len (lines w) -> 0 < line_length w i.
Proof.
  intros Hne Hi. destruct (line_at_ok w i Hi) as (l & Hl & _ & <-).
  unfold no_empty_line in Hne. rewrite Forall_forall in Hne.
  apply Hne. eapply list_elem_of_lookup_2. exact Hl.
Qed.

Lemma clamp_row_range w y :
  0 < len (lines w) -> 0 <= clamp_row w y < len (lines w).
Proof. intros H. unfold clamp_row. cbv zeta. repeat zcase; lia. Qed.

Lemma clamp_row_id w y :
  0 <= y < len (lines w) -> clamp_row w y = y.
Proof. intros H. unfold clamp_row. cbv zeta. repeat zcase; lia. Qed.

Lemma set_cursor_x_interior f w x :
  row_in_text w -> 0 <= x <= line_length w (cursor_y w) - 1 ->
  TextArea.set_cursor_x (S f) x w = Ok (tt, at_cursor x (cursor_y w) w).
Proof.
  intros Hr Hx. cbn [TextArea.set_cursor_x]. unfold TextArea.reactive_set.
  rewrite bind_gets.
  rewrite (bind_ok _ _ _ _ _ (validate_cursor_x_interior _ w x Hr Hx)).
  zcase.
  - unfold ret. rewrite <- e. rewrite at_cursor_id. reflexivity.
  - unfold modify. rewrite at_cursor_x. reflexivity.
Qed.

(** [validate_cursor_y] clamps the row and pulls the column back onto the
    new row's line. *)
Lemma validate_cursor_y_ok f w y :
  well_placed w ->
  TextArea.validate_cursor_y (TextArea.set_cursor_x (S f)) y w =
    Ok (clamp_row w y,
        at_cursor (column_on_row w (clamp_row w y)) (cursor_y w) w).
Proof.
  intros (Hne & Hr & Hx). unfold TextArea.validate_cursor_y. cbv zeta.
  rewrite bind_gets. fold (clamp_row w y).
  assert (Hc : 0 <= clamp_row w y < len (lines w))
    by (apply clamp_row_range; unfold row_in_text in Hr; lia).
  destruct (line_at_ok w _ Hc) as (l & _ & Hl & Hlen).
  pose proof (line_length_pos w _ Hne Hc) as Hpos.
  rewrite (bind_ok _ _ _ _ _ Hl), !bind_gets.
  unfold column_on_row. rewrite Hlen.
  destruct (Z.eqb_spec (line_length w (clamp_row w y)) 0) as [?|_]; [lia|].
  rewrite (Z.gtb_ltb (cursor_x w)).
  destruct (Z.ltb_spec (line_length w (clamp_row w y)) (cursor_x w)).
  - rewrite (bind_ok _ _ _ tt
               (at_cursor (line_length w (clamp_row w y) - 1) (cursor_y w) w)).
    + reflexivity.
    + apply set_cursor_x_interior; [exact Hr|lia].
  - rewrite bind_ret. rewrite at_cursor_id. reflexivity.
Qed.

Lemma set_cursor_y_ok f w y :
  well_placed w ->
  TextArea.set_cursor_y (S (S f)) y w =
    Ok (tt, at_cursor (column_on_row w (clamp_row w y)) (clamp_row w y) w).
Proof.
  intros H. cbn [TextArea.set_cursor_y]. unfold TextArea.reactive_set.
  rewrite bind_gets.
  rewrite (bind_ok _ _ _ _ _ (validate_cursor_y_ok f w y H)).
  zcase.
  - unfold ret. rewrite <- e. reflexivity.
  - unfold modify. reflexivity.
Qed.

Lemma column_on_row_here w :
  cursor_x w <= line_length w (cursor_y w) ->
  column_on_row w (cursor_y w) = cursor_x w.
Proof. intros H. unfold column_on_row. zcase; [lia|reflexivity]. Qed.

Lemma line_length_at w x y :
  0 <= y < len (lines w) ->
  TextArea._line_length (at_cursor x y w) =
    Ok (line_length w y, at_cursor x y w).
Proof. intros H. exact (line_length_ok (at_cursor x y w) H). Qed.

(** [validate_cursor_x] follows [column_result]. *)
Lemma validate_cursor_x_ok f w x :
  well_placed w ->
  TextArea.validate_cursor_x (TextArea.set_cursor_y (S (S f))) x w =
    Ok (column_result w x).
Proof.
  intros Hw. pose proof Hw as (Hne & Hr & Hx).
  pose proof (line_length_pos w _ Hne Hr) as Hpos.
  unfold row_in_text in Hr.
  unfold TextArea.validate_cursor_x, column_result. cbv zeta.
  destruct (Z.ltb_spec x 0) as [Hneg|Hnn].
  - rewrite bind_assoc, bind_gets, bind_assoc.
    rewrite (bind_ok _ _ _ _ _ (set_cursor_y_ok f w _ Hw)).
    rewrite bind_assoc, bind_gets.
    cbn [cursor_y at_cursor with_cursor_x with_cursor_y].
    destruct (Z.eqb_spec (cursor_y w) 0) as [H0|H0].
    + assert (Hc : clamp_row w (cursor_y w - 1) = cursor_y w)
        by (unfold clamp_row; cbv zeta; repeat zcase; lia).
      rewrite Hc, Z.eqb_refl, bind_ret, !bind_gets.
      rewrite column_on_row_here by exact Hx. rewrite at_cursor_id.
      zcase.
      * rewrite bind_assoc, (bind_ok _ _ _ _ _ (line_length_ok w Hr)).
        zcase; [lia|]. rewrite bind_ret.
        rewrite (bind_ok _ _ _ _ _ (line_length_ok w Hr)).
        zcase; [lia|]. reflexivity.
      * rewrite bind_ret, (bind_ok _ _ _ _ _ (line_length_ok w Hr)).
        zcase; [lia|]. reflexivity.
    + rewrite (clamp_row_id w (cursor_y w - 1)) by lia.
      assert (Hp : 0 <= cursor_y w - 1 < len (lines w)) by lia.
      pose proof (line_length_pos w _ Hne Hp).
      destruct (Z.eqb_spec (cursor_y w) (cursor_y w - 1)); [lia|].
      rewrite bind_assoc, (bind_ok _ _ _ _ _ (line_length_at w _ _ Hp)).
      rewrite bind_ret, !bind_gets.
      cbn [cursor_y lines at_cursor with_cursor_x with_cursor_y].
      zcase; [lia|]. rewrite bind_ret.
      rewrite (bind_ok _ _ _ _ _ (line_length_at w _ _ Hp)).
      zcase; [lia|]. reflexivity.
  - rewrite bind_ret, !bind_gets.
    destruct (Z.eqb_spec (cursor_y w + 1) (len (lines w))) as [Hl|Hl].
    + rewrite bind_assoc, (bind_ok _ _ _ _ _ (line_length_ok w Hr)).
      rewrite (Z.geb_leb x).
      destruct (Z.leb_spec (line_length w (cursor_y w)) x) as [Hge|Hlt].
      * rewrite bind_ret, (bind_ok _ _ _ _ _ (line_length_ok w Hr)).
        destruct (Z.ltb_spec x (line_length w (cursor_y w))); [lia|].
        rewrite (Z.gtb_ltb (x - 1)).
        destruct (Z.eqb_spec x (line_length w (cursor_y w))) as [->|Hn].
        -- zcase; [lia|]. reflexivity.
        -- zcase; [|lia]. rewrite bind_gets.
           rewrite (bind_ok _ _ _ _ _ (set_cursor_y_ok f w _ Hw)).
           assert (Hc : clamp_row w (cursor_y w + 1) = cursor_y w)
             by (unfold clamp_row; cbv zeta; repeat zcase; lia).
           rewrite Hc, column_on_row_here by exact Hx.
           rewrite at_cursor_id. reflexivity.
      * rewrite bind_ret, (bind_ok _ _ _ _ _ (line_length_ok w Hr)).
        destruct (Z.ltb_spec x (line_length w (cursor_y w))); [|lia].
        zcase; [lia|]. reflexivity.
    + rewrite bind_ret, (bind_ok _ _ _ _ _ (line_length_ok w Hr)).
      rewrite (Z.gtb_ltb x).
      destruct (Z.ltb_spec x (line_length w (cursor_y w))).
      * zcase; [lia|]. reflexivity.
      * zcase; [|lia]. rewrite bind_gets.
        rewrite (bind_ok _ _ _ _ _ (set_cursor_y_ok f w _ Hw)).
        rewrite (clamp_row_id w (cursor_y w + 1)) by lia. reflexivity.
Qed.

Lemma column_on_row_le w c :
  0 < line_length w c -> column_on_row w c <= line_length w c.
Proof. intros H. unfold column_on_row. zcase; lia. Qed.

Lemma column_on_row_le_x w c :
  column_on_row w c <= cursor_x w.
Proof. unfold column_on_row. zcase; lia. Qed.

Lemma column_on_row_nonneg w c :
  0 < line_length w c -> 0 <= cursor_x w -> 0 <= column_on_row w c.
Proof. intros H H'. unfold column_on_row. zcase; lia. Qed.

Lemma column_on_row_fixed w c :
  cursor_x w <= line_length w c -> column_on_row w c = cursor_x w.
Proof. intros H. unfold column_on_row. zcase; lia. Qed.

(** What [column_result] leaves: a row of the text and a column on it. *)

Lemma column_result_placed w x :
  well_placed w ->
  let r := column_result w x in
  well_placed (snd r) /\
  0 <= fst r /\
  fst r < line_length w (cursor_y (snd r)) /\
  (cursor_x w = fst r -> cursor_x (snd r) = fst r) /\
  lines (snd r) = lines w.
Proof.
  intros Hw. pose proof Hw as (Hne & Hr & Hx).
  pose proof (line_length_pos w _ Hne Hr) as Hpos.
  unfold row_in_text in Hr. unfold column_result. cbv zeta.
  destruct (Z.ltb_spec x 0).
  - destruct (Z.eqb_spec (cursor_y w) 0); cbn [fst snd].
    + repeat split; auto; lia.
    + assert (Hp : 0 <= cursor_y w - 1 < len (lines w)) by lia.
      pose proof (line_length_pos w _ Hne Hp).
      pose proof (column_on_row_le w _ H0).
      repeat split; auto; try (cbn; lia).
      intros E. cbn. rewrite <- E. apply column_on_row_fixed. lia.
  - destruct (Z.eqb_spec (cursor_y w + 1) (len (lines w))).
    + destruct (Z.ltb_spec x (line_length w (cursor_y w))); cbn [fst snd];
        [repeat split; auto; lia|].
      destruct (Z.eqb_spec x (line_length w (cursor_y w))); cbn [fst snd];
        repeat split; auto; lia.
    + destruct (Z.ltb_spec x (line_length w (cursor_y w))); cbn [fst snd];
        [repeat split; auto; lia|].
      assert (Hp : 0 <= cursor_y w + 1 < len (lines w)) by lia.
      pose proof (line_length_pos w _ Hne Hp).
      pose proof (column_on_row_le w _ H1).
      repeat split; auto; try (cbn; lia).
      intros E. cbn. rewrite <- E. apply column_on_row_fixed. lia.
Qed.

Lemma column_result_frame w x :
  exists cx cy, snd (column_result w x) = at_cursor cx cy w.
Proof.
  unfold column_result. cbv zeta.
  repeat match goal with
  | |- context [if ?b then _ else _] => destruct b
  end; cbn [snd]; eauto using eq_sym, at_cursor_id.
Qed.

Lemma set_cursor_x_ok f w x :
  well_placed w ->
  TextArea.set_cursor_x (S (S (S f))) x w = Ok (tt, move_column w x).
Proof.
  intros Hw. cbn [TextArea.set_cursor_x]. unfold TextArea.reactive_set.
  rewrite bind_gets.
  pose proof (validate_cursor_x_ok f w x Hw) as Hv.
  destruct (column_result_placed w x Hw) as (_ & _ & _ & Heq & _).
  destruct (column_result_frame w x) as (cx & cy & Hf).
  unfold move_column. cbv zeta.
  destruct (column_result w x) as [x1 w1]. cbn [fst snd] in *. subst w1.
  rewrite (bind_ok _ _ _ _ _ Hv).
  zcase.
  - unfold ret. specialize (Heq e). cbn in Heq. subst cx. reflexivity.
  - unfold modify. reflexivity.
Qed.

Lemma move_column_placed w x :
  well_placed w ->
  well_placed (move_column w x) /\
  0 <= cursor_x (move_column w x) /\
  cursor_x (move_column w x) < line_length w (cursor_y (move_column w x)).
Proof.
  intros Hw.
  destruct (column_result_placed w x Hw)
    as ((Hne & Hr & Hx) & H0 & Hlt & _ & Hl).
  unfold move_column. cbv zeta.
  destruct (column_result_frame w x) as (cx & cy & Hf).
  destruct (column_result w x) as [x1 w1]. cbn [fst snd] in *. subst w1.
  split; [|split; [exact H0|exact Hlt]].
  split; [exact Hne|]. split; [exact Hr|].
  change (x1 <= line_length w cy). change (x1 < line_length w cy) in Hlt. lia.
Qed.

Lemma set_row_placed w y :
  well_placed w ->
  let c := clamp_row w y in
  well_placed (at_cursor (column_on_row w c) c w) /\
  (0 <= cursor_x w -> 0 <= column_on_row w c).
Proof.
  intros (Hne & Hr & Hx) c.
  assert (Hc : 0 <= c < len (lines w))
    by (apply clamp_row_range; unfold row_in_text in Hr; lia).
  pose proof (line_length_pos w _ Hne Hc) as Hpos.
  split.
  - split; [exact Hne|]. split; [exact Hc|].
    cbn. apply (column_on_row_le w c Hpos).
  - intros. apply column_on_row_nonneg; auto.
Qed.

Lemma column_result_interior w x :
  0 <= x < line_length w (cursor_y w) -> column_result w x = (x, w).
Proof.
  intros H. unfold column_result. cbv zeta.
  destruct (Z.ltb_spec x 0); [lia|].
  destruct (Z.ltb_spec x (line_length w (cursor_y w))); [|lia].
  destruct (cursor_y w + 1 =? len (lines w)); reflexivity.
Qed.

Lemma move_column_interior w x :
  0 <= x < line_length w (cursor_y w) ->
  move_column w x = at_cursor x (cursor_y w) w.
Proof.
  intros H. unfold move_column. rewrite column_result_interior by exact H.
  reflexivity.
Qed.

(** ** The validators applied twice (C9) *)

(** C9, as the code has it: on a layout without empty lines, with the cursor
    on a row of the layout and at a column not beyond that row's length,
    each validator returns, and applied again to its own result in the state
    it left it returns the same value and changes nothing; the same holds
    for the reactive assignments built on them (assigning the attribute its
    own value again is a no-op). *)
Theorem validators_idempotent_without_empty_lines
    (fuel : nat) (w : World) (v : Z) :
  (3 <= fuel)%nat -> well_placed w ->
  (exists y1 w1,
     TextArea.validate_cursor_y (TextArea.set_cursor_x fuel) v w
       = Ok (y1, w1) /\
     TextArea.validate_cursor_y (TextArea.set_cursor_x fuel) y1 w1
       = Ok (y1, w1)) /\
  (exists x1 w1,
     TextArea.validate_cursor_x (TextArea.set_cursor_y fuel) v w
       = Ok (x1, w1) /\
     TextArea.validate_cursor_x (TextArea.set_cursor_y fuel) x1 w1
       = Ok (x1, w1)) /\
  (exists w1,
     TextArea.set_cursor_y fuel v w = Ok (tt, w1) /\
     TextArea.set_cursor_y fuel (cursor_y w1) w1 = Ok (tt, w1)) /\
  (exists w1,
     TextArea.set_cursor_x fuel v w = Ok (tt, w1) /\
     TextArea.set_cursor_x fuel (cursor_x w1) w1 = Ok (tt, w1)).
Proof.
  intros Hfuel Hw.
  destruct fuel as [|[|[|f]]]; try lia.
  pose proof Hw as (Hne & Hr & Hx).
  assert (Hc : 0 <= clamp_row w v < len (lines w))
    by (apply clamp_row_range; unfold row_in_text in Hr; lia).
  pose proof (line_length_pos w _ Hne Hc) as Hpos.
  pose proof (column_on_row_le w _ Hpos) as Hle.
  pose proof (column_on_row_le_x w (clamp_row w v)) as Hlex.
  split; [|split; [|split]].
  - eexists _, _. split; [apply validate_cursor_y_ok; exact Hw|].
    set (w1 := at_cursor _ (cursor_y w) w).
    assert (Hw1 : well_placed w1).
    { split; [exact Hne|]. split; [exact Hr|].
      change (column_on_row w (clamp_row w v) <= line_length w (cursor_y w)).
      lia. }
    rewrite (validate_cursor_y_ok _ w1 _ Hw1).
    change (clamp_row w1 (clamp_row w v)) with (clamp_row w (clamp_row w v)).
    rewrite (clamp_row_id w (clamp_row w v)) by exact Hc.
    rewrite (column_on_row_fixed w1) by exact Hle.
    rewrite at_cursor_id. reflexivity.
  - destruct (column_result_placed w v Hw) as (Hw1 & H0 & Hlt & _ & Hl).
    pose proof (validate_cursor_x_ok (S f) w v Hw) as Hv.
    destruct (column_result_frame w v) as (cx & cy & Hf).
    destruct (column_result w v) as [x1 w1]. cbn [fst snd] in *.
    exists x1, w1. split; [exact Hv|].
    rewrite (validate_cursor_x_ok (S f) w1 x1 Hw1).
    rewrite column_result_interior; [reflexivity|].
    subst w1. split; [exact H0|exact Hlt].
  - eexists. split; [apply set_cursor_y_ok; exact Hw|].
    destruct (set_row_placed w v Hw) as [Hw1 _].
    rewrite (set_cursor_y_ok _ _ _ Hw1).
    set (w1 := at_cursor _ (clamp_row w v) w).
    change (clamp_row w1 (cursor_y w1)) with (clamp_row w (clamp_row w v)).
    rewrite (clamp_row_id w (clamp_row w v)) by exact Hc.
    rewrite (column_on_row_fixed w1) by exact Hle.
    reflexivity.
  - eexists. split; [apply set_cursor_x_ok; exact Hw|].
    destruct (move_column_placed w v Hw) as (Hw1 & H0 & Hlt).
    rewrite (set_cursor_x_ok _ _ _ Hw1).
    rewrite move_column_interior by (split; [exact H0|exact Hlt]).
    rewrite at_cursor_id. reflexivity.
Qed.

Lemma scenario_1_placed : well_placed scenario_1.
Proof.
  split; [|split].
  - unfold no_empty_line, scenario_1. cbn [lines].
    repeat constructor.
  - unfold row_in_text, scenario_1, len. cbn. lia.
  - apply Z.leb_le. reflexivity.
Qed.

Lemma validators_idempotent_without_empty_lines_witness :
  (3 <= 3)%nat /\ well_placed scenario_1 /\
  (exists w1,
     TextArea.set_cursor_x 3 4 scenario_1 = Ok (tt, w1) /\
     TextArea.set_cursor_x 3 (cursor_x w1) w1 = Ok (tt, w1)).
Proof.
  split; [lia|]. split; [exact scenario_1_placed|].
  apply (validators_idempotent_without_empty_lines 3 scenario_1 4);
    [lia|exact scenario_1_placed].
Defined.

(** C9 as stated fails on layouts with an empty line. With the lines
    ["a"; "x"; []; "b"] (the third one empty) and the cursor at (0,0),
    [validate_cursor_y(2)] returns 4 and [validate_cursor_y(4)] returns 3;
    assigning [cursor_y = 2]
    stores 4, and assigning the row its own value again stores 3. With the
    lines [[]; []; "ab"] and the cursor at (0,2), [validate_cursor_x(-1)]
    returns -1 and moves to row 0, and applied to -1 again it returns 0 and
    moves to row 2. *)
Lemma validators_not_idempotent_with_empty_lines :
  (exists w,
     laid_out (str_of "a" ++ [LF] ++ str_of "x" ++ [LF; LF] ++ str_of "b") 100
       = Ok w /\
     lines w = [str_of "a"; str_of "x"; []; str_of "b"] /\
     (cursor_x w, cursor_y w) = (0, 0) /\
     TextArea.validate_cursor_y (TextArea.set_cursor_x 10) 2 w = Ok (4, w) /\
     TextArea.validate_cursor_y (TextArea.set_cursor_x 10) 4 w = Ok (3, w) /\
     TextArea.set_cursor_y 10 2 w = Ok (tt, with_cursor_y 4 w) /\
     TextArea.set_cursor_y 10 4 (with_cursor_y 4 w)
       = Ok (tt, with_cursor_y 3 w)) /\
  (exists w0 w,
     laid_out ([LF; LF] ++ str_of "ab") 100 = Ok w0 /\
     lines w0 = [[]; []; str_of "ab"] /\
     exec (on_key 10 KDown) w0 = Ok w /\
     (cursor_x w, cursor_y w) = (0, 2) /\
     TextArea.validate_cursor_x (TextArea.set_cursor_y 10) (-1) w
       = Ok (-1, with_cursor_y 0 w) /\
     TextArea.validate_cursor_x (TextArea.set_cursor_y 10) (-1)
         (with_cursor_y 0 w)
       = Ok (0, w)).
Proof.
  split.
  - eexists. split; [vm_compute; reflexivity|]. repeat split.
  - eexists _, _. split; [vm_compute; reflexivity|].
    split; [reflexivity|]. split; [vm_compute; reflexivity|]. repeat split.
Qed.

(** ** [update_lines] in closed form *)

Lemma range_positive n m :
  0 < m ->
  Py.range 0 n m =
    Ok (map (fun k => 0 + Z.of_nat k * m)
            (seq 0 (Z.to_nat ((n - 0 + m - 1) / m)))).
Proof.
  intros Hm. unfold Py.range.
  destruct (Z.eqb_spec m 0); [lia|].
  destruct (Z.ltb_spec 0 m); [reflexivity|lia].
Qed.

Lemma update_lines_loop (m : Z) (ls : list (list N)) (w : World) :
  0 < m ->
  for_each ls (fun x =>
      if len x >=? m then
        r <- lift (Py.range 0 (len x) m) ;;
        modify (fun w => with_lines
          (lines w ++ map (fun i => Py.slice x i (i + m)) r) w)
      else
        modify (fun w => with_lines (lines w ++ [x]) w)) w
  = Ok (tt, with_lines (lines w ++ concat (map (chunks m) ls)) w).
Proof.
  intros Hm. revert w. induction ls as [|x ls IH]; intros w.
  - cbn. rewrite app_nil_r. destruct w; reflexivity.
  - cbn [for_each map concat]. unfold bind at 1.
    unfold chunks at 1.
    destruct (len x >=? m).
    + unfold bind at 1. unfold lift. rewrite range_positive by exact Hm.
      unfold modify at 1. rewrite IH. cbn [lines with_lines].
      rewrite <- app_assoc. reflexivity.
    + unfold modify at 1. rewrite IH. cbn [lines with_lines].
      rewrite <- app_assoc. reflexivity.
Qed.

Lemma update_lines_ok (width : Z) (w : World) :
  0 < width ->
  TextArea.update_lines width w =
    let ls := lines w ++ wrap (text w) width in
    match Py.max (map len ls) with
    | Ok m =>
        Ok (tt, with_virtual_size (m, len ls * TextArea.NUM_LINES)
                  (with_lines ls w))
    | Raise e => Raise e
    end.
Proof.
  intros Hw. unfold TextArea.update_lines. cbv zeta.
  rewrite bind_gets. unfold bind at 1.
  rewrite update_lines_loop by lia.
  rewrite bind_gets. cbn [lines with_lines]. fold (wrap (text w) width).
  unfold bind, lift.
  destruct (Py.max _); reflexivity.
Qed.

(** Every call extends the list it finds: the lines after a resize are the
    lines before it followed by the wrap at the new width. *)
Lemma on_resize_appends (width : Z) (w w' : World) :
  0 < width -> exec (TextArea.on_resize width) w = Ok w' ->
  lines w' = lines w ++ wrap (text w) width.
Proof.
  intros Hw. unfold exec, TextArea.on_resize.
  rewrite update_lines_ok by exact Hw. cbv zeta.
  destruct (Py.max _); [|discriminate].
  intros H. injection H as <-. reflexivity.
Qed.

Lemma chunks_short m x : len x < m -> chunks m x = [x].
Proof.
  intros H. unfold chunks. rewrite Z.geb_leb.
  destruct (Z.leb_spec m (len x)); [lia|reflexivity].
Qed.

Lemma wrap_without_chunking t width :
  Forall (fun x : list N => len x < width * 2) (Py.splitlines t) ->
  wrap t width = Py.splitlines t.
Proof.
  unfold wrap. induction 1 as [|x ls Hx _ IH]; [reflexivity|].
  cbn [map concat]. rewrite IH, chunks_short by exact Hx. reflexivity.
Qed.

(** Scenario 1: at any width from 3 on no line of [main_text] is chunked,
    and the first layout gives the three lines of lengths 4, 4 and 5 with the
    cursor at (0,0). *)
Lemma laid_out_main_text width :
  3 <= width -> laid_out main_text width = Ok scenario_1.
Proof.
  intros Hw. unfold laid_out, exec.
  rewrite update_lines_ok by lia. cbv zeta.
  rewrite wrap_without_chunking.
  - reflexivity.
  - change (Py.splitlines (text (CribDragger.compose main_text None)))
      with [str_of "Test"; str_of "Test"; str_of "TEsst"].
    repeat constructor; unfold len;
      cbn [length str_of map list_ascii_of_string]; lia.
Qed.

(** ** Scenario 2 (C1) *)

(** C1, as the code has it: from scenario 1, four right-arrows and then
    ['X'] write ['X'] into the cell at linear index 5 (the fourth arrow
    wraps the cursor to column 0 of row 1, whose cells start after the
    terminator slot 4), every other cell stays unknown, and the cursor ends
    at column 1, row 1. *)
Theorem scenario_2_writes_cell_5 (width : Z) (fuel : nat) :
  3 <= width -> (2 <= fuel)%nat ->
  exists w0 w,
    laid_out main_text width = Ok w0 /\
    map len (lines w0) = [4; 4; 5] /\
    (cursor_x w0, cursor_y w0) = (0, 0) /\
    buffer w0 = Some (replicate 15 None) /\
    exec (on_keys fuel [KRight; KRight; KRight; KRight; KChar 88%N]) w0
      = Ok w /\
    buffer w = Some (<[5%nat := Some 88%N]> (replicate 15 None)) /\
    (cursor_x w, cursor_y w) = (1, 1).
Proof.
  intros Hw Hf. destruct fuel as [|[|f]]; try lia.
  exists scenario_1. eexists.
  split; [apply laid_out_main_text; exact Hw|].
  split; [reflexivity|]. split; [reflexivity|]. split; [reflexivity|].
  split; [vm_compute; reflexivity|].
  split; reflexivity.
Qed.

Lemma scenario_2_writes_cell_5_witness :
  3 <= 100 /\ (2 <= 2)%nat /\
  exists w0 w,
    laid_out main_text 100 = Ok w0 /\
    map len (lines w0) = [4; 4; 5] /\
    (cursor_x w0, cursor_y w0) = (0, 0) /\
    buffer w0 = Some (replicate 15 None) /\
    exec (on_keys 2 [KRight; KRight; KRight; KRight; KChar 88%N]) w0
      = Ok w /\
    buffer w = Some (<[5%nat := Some 88%N]> (replicate 15 None)) /\
    (cursor_x w, cursor_y w) = (1, 1).
Proof.
  split; [lia|]. split; [lia|].
  apply (scenario_2_writes_cell_5 100 2); lia.
Defined.

(** C1 as stated fails: after the five keys the cell at linear index 4 is
    still unknown; the ['X'] is in cell 5. *)
Lemma scenario_2_cell_4_stays_unknown :
  exists w0 w p,
    laid_out main_text 100 = Ok w0 /\
    exec (on_keys 10 [KRight; KRight; KRight; KRight; KChar 88%N]) w0
      = Ok w /\
    heap w !! value w = Some p /\
    PartialString.getitem p 4 = Ok None /\
    PartialString.getitem p 4 <> Ok (Some 88%N) /\
    PartialString.getitem p 5 = Ok (Some 88%N).
Proof.
  eexists _, _, _.
  split; [vm_compute; reflexivity|].
  split; [vm_compute; reflexivity|].
  split; [reflexivity|].
  split; [reflexivity|]. split; [discriminate|reflexivity].
Qed.

(** ** The cursor invariant (C2) *)

(** C2 at its failing inputs. The text ["a\n\n"] is laid out as the lines
    ["a"; []]; from (0,0) the down-arrow lands on the empty last line,
    [validate_cursor_y] steps once more and the stored row is 2, the number
    of lines; the next right-arrow then indexes [lines] out of range. The
    text ["\n\nab"] is laid out as [[]; []; "ab"]; from (0,0) the down-arrow
    and then the left-arrow leave the cursor at column -1 of row 0. *)
Theorem cursor_down_leaves_the_lines (fuel : nat) :
  (exists w0 w,
     laid_out (str_of "a" ++ [LF; LF]) 100 = Ok w0 /\
     lines w0 = [str_of "a"; []] /\
     (cursor_x w0, cursor_y w0) = (0, 0) /\
     exec (on_key (S fuel) KDown) w0 = Ok w /\
     cursor_y w = 2 /\ len (lines w) = 2 /\
     ~ cursor_invariant w /\
     exec (on_key (S fuel) KRight) w = Raise IndexError) /\
  (exists w0 w,
     laid_out ([LF; LF] ++ str_of "ab") 100 = Ok w0 /\
     lines w0 = [[]; []; str_of "ab"] /\
     (cursor_x w0, cursor_y w0) = (0, 0) /\
     exec (on_keys (S (S (S fuel))) [KDown; KLeft]) w0 = Ok w /\
     (cursor_x w, cursor_y w) = (-1, 0) /\
     ~ cursor_invariant w).
Proof.
  split.
  - eexists _, _.
    split; [vm_compute; reflexivity|].
    split; [reflexivity|]. split; [reflexivity|].
    split; [vm_compute; reflexivity|].
    split; [reflexivity|]. split; [reflexivity|].
    split; [|vm_compute; reflexivity].
    intros [[_ H] _]. revert H. apply Z.le_ngt, Z.leb_le. reflexivity.
  - eexists _, _.
    split; [vm_compute; reflexivity|].
    split; [reflexivity|]. split; [reflexivity|].
    split; [vm_compute; reflexivity|].
    split; [reflexivity|].
    intros [_ [H _]]. revert H. apply Z.lt_nge, Z.ltb_lt. reflexivity.
Qed.

Lemma navigation_step (f : nat) (k : Key) (w : World) :
  navigation k = true -> well_placed w -> 0 <= cursor_x w ->
  exists w', on_key (S (S (S f))) k w = Ok (tt, w') /\
             well_placed w' /\ 0 <= cursor_x w' /\ lines w' = lines w.
Proof.
  intros Hk Hw H0.
  destruct k; try discriminate Hk; cbn [on_key];
    unfold TextArea.action_cursor_left, TextArea.action_cursor_right,
      TextArea.action_cursor_up, TextArea.action_cursor_down;
    rewrite bind_gets.
  - rewrite set_cursor_x_ok by exact Hw. eexists. split; [reflexivity|].
    destruct (move_column_placed w (cursor_x w - 1) Hw) as (? & ? & _). auto.
  - rewrite set_cursor_x_ok by exact Hw. eexists. split; [reflexivity|].
    destruct (move_column_placed w (cursor_x w + 1) Hw) as (? & ? & _). auto.
  - rewrite set_cursor_y_ok by exact Hw. eexists. split; [reflexivity|].
    destruct (set_row_placed w (cursor_y w - 1) Hw) as (? & ?). auto.
  - rewrite set_cursor_y_ok by exact Hw. eexists. split; [reflexivity|].
    destruct (set_row_placed w (cursor_y w + 1) Hw) as (? & ?). auto.
Qed.

(** On a layout without empty lines the navigation keys keep the cursor
    invariant, whatever their sequence, and never raise. *)
Lemma navigation_keeps_cursor_without_empty_lines
    (fuel : nat) (ks : list Key) (w : World) :
  (3 <= fuel)%nat -> forallb navigation ks = true ->
  no_empty_line w -> cursor_invariant w ->
  exists w', exec (on_keys fuel ks) w = Ok w' /\
             cursor_invariant w' /\ lines w' = lines w.
Proof.
  intros Hf Hks Hne [Hr Hx].
  destruct fuel as [|[|[|f]]]; try lia.
  assert (Hw : well_placed w) by (split; [|split]; [exact Hne|exact Hr|lia]).
  assert (H0 : 0 <= cursor_x w) by lia.
  clear Hne Hr Hx Hf.
  revert w Hw H0. induction ks as [|k ks IH]; intros w Hw H0.
  - exists w. split; [reflexivity|]. destruct Hw as (_ & Hr & Hx).
    split; [split; [exact Hr|lia]|reflexivity].
  - cbn [forallb] in Hks. apply andb_prop in Hks as [Hk Hks].
    destruct (navigation_step f k w Hk Hw H0) as (w1 & E & Hw1 & H1 & Hl).
    destruct (IH Hks w1 Hw1 H1) as (w' & E' & Hinv & Hl').
    exists w'. split; [|split; [exact Hinv|congruence]].
    unfold on_keys, exec in *. cbn [for_each]. unfold bind. rewrite E.
    exact E'.
Qed.

(** A second way out of the invariant: with the lines [[]; "abcd"] and the
    cursor at (3,1), the up-arrow makes the two validators assign to each
    other's attribute without end, in the same state; whatever the recursion
    limit, the key press ends in RecursionError. *)
Lemma cursor_up_onto_empty_line_recurses (fuel : nat) :
  exists w0 w,
    laid_out ([LF] ++ str_of "abcd") 100 = Ok w0 /\
    lines w0 = [[]; str_of "abcd"] /\
    exec (on_keys 3 [KDown; KRight; KRight; KRight]) w0 = Ok w /\
    (cursor_x w, cursor_y w) = (3, 1) /\
    on_key fuel KUp w = Raise RecursionError.
Proof.
  eexists _, _. split; [vm_compute; reflexivity|].
  split; [reflexivity|]. split; [vm_compute; reflexivity|].
  split; [reflexivity|].
  match goal with |- on_key _ _ ?w0 = _ => set (w := w0) end.
  assert (Hy : forall sx, sx (-1) w = Raise RecursionError ->
             TextArea.validate_cursor_y sx 0 w = Raise RecursionError).
  { intros sx H. vm_compute. vm_compute in H. rewrite H. reflexivity. }
  assert (Hxv : forall sy, sy 0 w = Raise RecursionError ->
             TextArea.validate_cursor_x sy (-1) w = Raise RecursionError).
  { intros sy H. vm_compute. vm_compute in H. rewrite H. reflexivity. }
  assert (H : TextArea.set_cursor_y fuel 0 w = Raise RecursionError /\
              TextArea.set_cursor_x fuel (-1) w = Raise RecursionError).
  { induction fuel as [|f [IHy IHx]]; [split; reflexivity|].
    split.
    - cbn [TextArea.set_cursor_y]. unfold TextArea.reactive_set.
      rewrite bind_gets. unfold bind. rewrite (Hy _ IHx). reflexivity.
    - cbn [TextArea.set_cursor_x]. unfold TextArea.reactive_set.
      rewrite bind_gets. unfold bind. rewrite (Hxv _ IHy). reflexivity. }
  cbn [on_key]. unfold TextArea.action_cursor_up. rewrite bind_gets.
  apply H.
Qed.

(** ** The edit (C5, C10) *)

Lemma copy_eq (p : PartialString) :
  mkPartialString (replacement p) (length_ p) (_value p) = p.
Proof. destruct p. reflexivity. Qed.

(** What a call of [replace_char_at_cursor] that writes at position [k]
    leaves. *)
Lemma replace_char_at_cursor_ok (w : World) (char : option N)
    (p : PartialString) (k : nat) :
  heap w !! value w = Some p ->
  Py.index (len (_value p)) (linear_index w) = Ok k ->
  TextArea.replace_char_at_cursor char w =
    Ok (tt,
        with_posted (posted w ++ [mkChanged (length (heap w)) (value w)])
          (with_heap
             (<[value w := mkPartialString (replacement p) (length_ p)
                             (<[k := char]> (_value p))]>
                (heap w ++ [p])) w)).
Proof.
  intros Hp Hk. unfold TextArea.replace_char_at_cursor.
  rewrite !bind_gets. cbv zeta.
  unfold TextArea.deepcopy. rewrite bind_assoc, bind_gets, Hp.
  rewrite copy_eq. unfold bind at 1 2. unfold modify at 1. unfold ret at 1.
  rewrite !bind_gets. cbn [value cursor_x with_heap].
  unfold TextArea.value_setitem. rewrite bind_assoc, bind_gets.
  cbn [heap with_heap].
  rewrite (lookup_app_l_Some _ _ _ _ Hp).
  unfold PartialString.setitem, Py.setitem.
  fold (linear_index w). rewrite Hk. cbn [result_bind].
  unfold bind at 1 2. unfold lift, modify at 1.
  rewrite bind_gets. unfold TextArea.post_message, modify.
  reflexivity.
Qed.

Lemma replace_char_at_cursor_raises (w : World) (char : option N)
    (p : PartialString) :
  heap w !! value w = Some p ->
  Py.index (len (_value p)) (linear_index w) = Raise IndexError ->
  TextArea.replace_char_at_cursor char w = Raise IndexError.
Proof.
  intros Hp Hk. unfold TextArea.replace_char_at_cursor.
  rewrite !bind_gets. cbv zeta.
  unfold TextArea.deepcopy. rewrite bind_assoc, bind_gets, Hp.
  unfold bind at 1 2. unfold modify at 1. unfold ret at 1.
  rewrite !bind_gets. cbn [value cursor_x with_heap].
  unfold TextArea.value_setitem. rewrite bind_assoc, bind_gets.
  cbn [heap with_heap].
  rewrite (lookup_app_l_Some _ _ _ _ Hp).
  unfold PartialString.setitem, Py.setitem.
  fold (linear_index w). rewrite Hk. reflexivity.
Qed.

(** C5: with the cursor's linear index [i] inside the buffer, the edit
    returns; in the live buffer the cell [i] holds the new value and every
    other cell (and the length) is as before; the one message posted carries
    as [current] the live buffer and as [previous] another object, whose
    value is the buffer's value before the edit; a later write through the
    live reference leaves [previous] as it is; the other objects, the lines
    and the cursor are untouched. *)
Theorem replace_char_at_cursor_frame (w : World) (char : option N)
    (p : PartialString) :
  heap w !! value w = Some p ->
  0 <= linear_index w < len (_value p) ->
  let i := Z.to_nat (linear_index w) in
  exists w' e,
    TextArea.replace_char_at_cursor char w = Ok (tt, w') /\
    value w' = value w /\
    buffer w' = Some (<[i := char]> (_value p)) /\
    (<[i := char]> (_value p)) !! i = Some char /\
    (forall j, j <> i -> (<[i := char]> (_value p)) !! j = _value p !! j) /\
    length (<[i := char]> (_value p)) = length (_value p) /\
    posted w' = posted w ++ [e] /\
    current e = value w /\
    previous e <> current e /\
    heap w' !! previous e = Some p /\
    (forall key c w'',
       TextArea.value_setitem (current e) key c w' = Ok (tt, w'') ->
       heap w'' !! previous e = Some p) /\
    (forall l, l <> value w -> (l < length (heap w))%nat ->
       heap w' !! l = heap w !! l) /\
    lines w' = lines w /\
    (cursor_x w', cursor_y w') = (cursor_x w, cursor_y w).
Proof.
  intros Hp Hi i.
  pose proof (lookup_lt_Some _ _ _ Hp) as Hlt.
  assert (Hii : (i < length (_value p))%nat) by (unfold len in Hi; lia).
  eexists _, (mkChanged (length (heap w)) (value w)).
  split.
  { apply (replace_char_at_cursor_ok w char p i Hp).
    apply index_in_range. exact Hi. }
  cbn [value with_posted with_heap heap posted lines cursor_x cursor_y
       previous current].
  split; [reflexivity|].
  split.
  { unfold buffer. cbn [value with_posted with_heap heap].
    rewrite list_lookup_insert_eq by (rewrite length_app; lia).
    reflexivity. }
  split; [apply list_lookup_insert_eq; exact Hii|].
  split; [intros j Hj; apply list_lookup_insert_ne; congruence|].
  split; [apply length_insert|].
  split; [reflexivity|]. split; [reflexivity|].
  split; [lia|].
  assert (Hprev : forall q,
             <[value w := q]> (heap w ++ [p]) !! length (heap w) = Some p).
  { intros q. rewrite list_lookup_insert_ne by lia.
    rewrite lookup_app_r by lia. rewrite Nat.sub_diag. reflexivity. }
  split; [apply Hprev|].
  split.
  { intros key c w'' H. unfold TextArea.value_setitem in H.
    rewrite bind_gets in H. cbn [heap with_posted with_heap] in H.
    rewrite list_lookup_insert_eq in H by (rewrite length_app; lia).
    unfold bind, lift in H.
    destruct (PartialString.setitem _ key c) as [q|]; [|discriminate H].
    unfold modify in H. injection H as <-.
    cbn [heap with_posted with_heap].
    rewrite list_insert_insert_eq. apply Hprev. }
  split.
  { intros l Hl Hll. rewrite list_lookup_insert_ne by congruence.
    apply lookup_app_l. exact Hll. }
  split; reflexivity.
Qed.

Lemma replace_char_at_cursor_frame_witness :
  heap scenario_1 !! value scenario_1 = Some (PartialString.init 15) /\
  0 <= linear_index scenario_1 < len (_value (PartialString.init 15)) /\
  exists w' e,
    TextArea.replace_char_at_cursor (Some 88%N) scenario_1 = Ok (tt, w') /\
    buffer w' = Some (<[0%nat := Some 88%N]> (replicate 15 None)) /\
    posted w' = [e] /\
    heap w' !! previous e = Some (PartialString.init 15).
Proof.
  assert (H1 : heap scenario_1 !! value scenario_1
               = Some (PartialString.init 15)) by reflexivity.
  assert (H2 : 0 <= linear_index scenario_1
               < len (_value (PartialString.init 15)))
    by (split; [apply Z.leb_le|apply Z.ltb_lt]; reflexivity).
  split; [exact H1|]. split; [exact H2|].
  destruct (replace_char_at_cursor_frame scenario_1 (Some 88%N) _ H1 H2)
    as (w' & e & E & _ & Hb & _ & _ & _ & Hposted & _ & _ & Hprev & _).
  exists w', e. auto.
Defined.

Lemma slice_to_take {A} (l : list A) (k : Z) :
  0 <= k <= len l -> Py.slice_to l k = take (Z.to_nat k) l.
Proof.
  intros H. unfold Py.slice_to, Py.slice, Py.bound.
  destruct (Z.ltb_spec 0 0); [lia|].
  destruct (Z.ltb_spec k 0); [lia|].
  rewrite (Z.min_l 0) by lia. rewrite (Z.min_l k) by lia.
  rewrite Z.sub_0_r. reflexivity.
Qed.

(** At (0,0) on a first line that is not empty, the move to the left that
    backspace starts with changes nothing. *)
Lemma set_cursor_x_at_start (f : nat) (w : World) :
  (cursor_x w, cursor_y w) = (0, 0) -> 0 < line_length w 0 ->
  TextArea.set_cursor_x (S (S f)) (-1) w = Ok (tt, w).
Proof.
  intros H HL. injection H as Hx Hy.
  assert (Hn : 0 < len (lines w)).
  { unfold line_length in HL. destruct (lines w !! Z.to_nat 0) eqn:E; [|lia].
    apply lookup_lt_Some in E. unfold len. lia. }
  assert (Hr : row_in_text w) by (unfold row_in_text; lia).
  assert (HL' : 0 < line_length w (cursor_y w)) by (rewrite Hy; exact HL).
  destruct (line_at_ok w 0 ltac:(lia)) as (l & _ & Hl & Hlen).
  assert (Hvy : TextArea.validate_cursor_y (TextArea.set_cursor_x f) (-1) w
                = Ok (0, w)).
  { unfold TextArea.validate_cursor_y. cbv zeta.
    change (if -1 <? 0 then 0 else -1) with 0.
    rewrite bind_gets. zcase; [lia|].
    rewrite (bind_ok _ _ _ _ _ Hl), !bind_gets. rewrite Hx, Hy.
    zcase; [lia|]. rewrite bind_ret. zcase; reflexivity. }
  assert (Hsy : TextArea.set_cursor_y (S f) (-1) w = Ok (tt, w)).
  { cbn [TextArea.set_cursor_y]. unfold TextArea.reactive_set.
    rewrite bind_gets, (bind_ok _ _ _ _ _ Hvy), Hy. reflexivity. }
  assert (Hvx : TextArea.validate_cursor_x (TextArea.set_cursor_y (S f)) (-1) w
                = Ok (0, w)).
  { unfold TextArea.validate_cursor_x.
    change (-1 <? 0) with true. cbv iota.
    rewrite bind_assoc, bind_gets, bind_assoc.
    rewrite Hy. change (0 - 1) with (-1).
    rewrite (bind_ok _ _ _ _ _ Hsy).
    rewrite bind_assoc, bind_gets, Hy.
    change (0 =? 0) with true. cbv iota.
    rewrite bind_ret, !bind_gets.
    zcase.
    - rewrite bind_assoc, (bind_ok _ _ _ _ _ (line_length_ok w Hr)).
      zcase; [lia|]. rewrite bind_ret.
      rewrite (bind_ok _ _ _ _ _ (line_length_ok w Hr)).
      zcase; [lia|]. reflexivity.
    - rewrite bind_ret, (bind_ok _ _ _ _ _ (line_length_ok w Hr)).
      zcase; [lia|]. reflexivity. }
  cbn [TextArea.set_cursor_x]. unfold TextArea.reactive_set.
  rewrite bind_gets, (bind_ok _ _ _ _ _ Hvx), Hx. reflexivity.
Qed.

(** C10: every call of [replace_char_at_cursor] either writes or raises. A
    call whose linear index the buffer accepts writes the cell and posts
    exactly one [Changed] message, whatever the value written and the value
    in the cell: [previous] holds the cells as they were, [current] the cells
    as they are, and the two are equal exactly when the cell already held the
    value written; the handler calls the callback once for the message, and
    the pump calls it exactly once when nothing else was pending. A call
    whose linear index the buffer refuses raises IndexError, before anything
    is posted. Backspace at (0,0), when the first line of the layout is not
    empty and the buffer has a cell, leaves the cursor at (0,0), writes
    unknown into cell 0 and posts one message, whose [previous] equals its
    [current] when cell 0 was unknown already. *)
Theorem replace_char_at_cursor_posts_once (w : World) (char : option N)
    (p : PartialString) (f : Callback) :
  heap w !! value w = Some p ->
  (forall k, Py.index (len (_value p)) (linear_index w) = Ok k ->
   exists w' e,
     TextArea.replace_char_at_cursor char w = Ok (tt, w') /\
     buffer w' = Some (<[k := char]> (_value p)) /\
     posted w' = posted w ++ [e] /\
     callback_log w' = callback_log w /\
     (exists q1 q2,
        heap w' !! previous e = Some q1 /\ _value q1 = _value p /\
        heap w' !! current e = Some q2 /\
        _value q2 = <[k := char]> (_value p) /\
        (PartialString.eq q1 q2 = true <-> _value p !! k = Some char)) /\
     (exists w'',
        CribDragger.on_text_area_changed (Some f) e w' = Ok (tt, w'') /\
        callback_log w'' = callback_log w ++ [(previous e, current e)] /\
        (heap w'', value w'') = changed f (heap w') (previous e) (current e)) /\
     (posted w = [] ->
      exists w'',
        CribDragger.dispatch (Some f) w' = Ok (tt, w'') /\
        callback_log w'' = callback_log w ++ [(previous e, current e)] /\
        posted w'' = [])) /\
  (Py.index (len (_value p)) (linear_index w) = Raise IndexError ->
   TextArea.replace_char_at_cursor char w = Raise IndexError) /\
  (forall fuel, (2 <= fuel)%nat ->
   (cursor_x w, cursor_y w) = (0, 0) -> 0 < line_length w 0 ->
   0 < len (_value p) ->
   exists w1 e,
     on_key fuel KBackspace w = Ok (tt, w1) /\
     (cursor_x w1, cursor_y w1) = (0, 0) /\
     buffer w1 = Some (<[0%nat := None]> (_value p)) /\
     posted w1 = posted w ++ [e] /\
     (_value p !! 0%nat = Some None ->
      exists q1 q2, heap w1 !! previous e = Some q1 /\
                    heap w1 !! current e = Some q2 /\
                    PartialString.eq q1 q2 = true) /\
     (posted w = [] ->
      exists w2,
        CribDragger.dispatch (Some f) w1 = Ok (tt, w2) /\
        callback_log w2 = callback_log w ++ [(previous e, current e)])).
Proof.
  intros Hp.
  pose proof (lookup_lt_Some _ _ _ Hp) as Hlt.
  assert (Hwrite : forall k c,
    Py.index (len (_value p)) (linear_index w) = Ok k ->
    exists w' e,
     TextArea.replace_char_at_cursor c w = Ok (tt, w') /\
     (cursor_x w', cursor_y w') = (cursor_x w, cursor_y w) /\
     buffer w' = Some (<[k := c]> (_value p)) /\
     posted w' = posted w ++ [e] /\
     callback_log w' = callback_log w /\
     (exists q1 q2,
        heap w' !! previous e = Some q1 /\ _value q1 = _value p /\
        heap w' !! current e = Some q2 /\
        _value q2 = <[k := c]> (_value p) /\
        (PartialString.eq q1 q2 = true <-> _value p !! k = Some c)) /\
     (exists w'',
        CribDragger.on_text_area_changed (Some f) e w' = Ok (tt, w'') /\
        callback_log w'' = callback_log w ++ [(previous e, current e)] /\
        (heap w'', value w'') = changed f (heap w') (previous e) (current e)) /\
     (posted w = [] ->
      exists w'',
        CribDragger.dispatch (Some f) w' = Ok (tt, w'') /\
        callback_log w'' = callback_log w ++ [(previous e, current e)] /\
        posted w'' = [])).
  { intros k c Hk.
    assert (Hkl : (k < length (_value p))%nat).
    { revert Hk. unfold Py.index, len.
      destruct (Z.leb_spec 0 (linear_index w)),
        (Z.ltb_spec (linear_index w) (Z.of_nat (length (_value p)))),
        (Z.leb_spec (- Z.of_nat (length (_value p))) (linear_index w)),
        (Z.ltb_spec (linear_index w) 0);
        cbn [andb]; intros [=]; subst k; lia. }
    eexists _, (mkChanged (length (heap w)) (value w)).
    split; [apply (replace_char_at_cursor_ok w c p k Hp Hk)|].
    cbn [value with_posted with_heap heap posted callback_log previous current
         cursor_x cursor_y].
    split; [reflexivity|].
    split.
    { unfold buffer. cbn [heap value with_posted with_heap].
      rewrite list_lookup_insert_eq by (rewrite length_app; lia).
      reflexivity. }
    split; [reflexivity|]. split; [reflexivity|].
    split.
    { eexists _, _.
      split; [rewrite list_lookup_insert_ne by lia;
              rewrite lookup_app_r by lia; rewrite Nat.sub_diag; reflexivity|].
      split; [reflexivity|].
      split; [apply list_lookup_insert_eq; rewrite length_app; lia|].
      split; [reflexivity|].
      unfold PartialString.eq. cbn [_value].
      rewrite bool_decide_eq_true. split.
      - intros E. rewrite <- E at 1. apply list_lookup_insert_eq, Hkl.
      - apply list_insert_id. }
    split.
    { eexists. split.
      { unfold CribDragger.on_text_area_changed. rewrite bind_gets.
        unfold bind, modify. cbv zeta. reflexivity. }
      cbn [value with_posted with_heap with_value with_callback_log heap
           posted callback_log previous current].
      split; [reflexivity|].
      destruct (changed f _ _ _); reflexivity. }
    intros Hnone. rewrite Hnone. eexists. split.
    { unfold CribDragger.dispatch. rewrite bind_gets.
      unfold bind at 1. unfold modify at 1.
      cbn [posted with_posted app for_each].
      unfold CribDragger.on_text_area_changed. rewrite bind_assoc, bind_gets.
      unfold bind, modify, ret. cbv zeta. reflexivity. }
    split; reflexivity. }
  split; [|split].
  - intros k Hk.
    destruct (Hwrite k char Hk)
      as (w' & e & E & _ & Hb & Hposted & Hlog & Hq & Hh & Hd).
    exists w', e. auto 10.
  - apply replace_char_at_cursor_raises, Hp.
  - intros fuel Hf Hc HL Hn. destruct fuel as [|[|fuel]]; try lia.
    pose proof Hc as Hc'. injection Hc' as Hx Hy.
    assert (Hk : Py.index (len (_value p)) (linear_index w) = Ok 0%nat).
    { unfold linear_index. rewrite Hx, Hy.
      rewrite slice_to_take by (pose proof (len_nonneg (lines w)); lia).
      change (Z.to_nat 0) with 0%nat. rewrite take_0.
      cbn [map]. unfold Py.sum. cbn [foldr].
      rewrite index_in_range by lia. reflexivity. }
    destruct (Hwrite 0%nat None Hk)
      as (w1 & e & E & Hcur & Hb & Hposted & _ & Hq & _ & Hd).
    exists w1, e.
    split.
    { cbn [on_key]. unfold TextArea.action_delete_left.
      rewrite bind_gets, Hx. change (0 - 1) with (-1).
      rewrite (bind_ok _ _ _ _ _ (set_cursor_x_at_start fuel w Hc HL)).
      exact E. }
    split; [rewrite Hcur; exact Hc|].
    split; [exact Hb|]. split; [exact Hposted|]. split.
    + intros Hsame. destruct Hq as (q1 & q2 & H1 & _ & H2 & _ & Heq).
      exists q1, q2. split; [exact H1|]. split; [exact H2|].
      apply Heq, Hsame.
    + intros Hnone. destruct (Hd Hnone) as (w2 & E2 & Hlog & _).
      exists w2. auto.
Qed.

Lemma replace_char_at_cursor_posts_once_witness :
  heap scenario_1 !! value scenario_1 = Some (PartialString.init 15) /\
  Py.index (len (_value (PartialString.init 15))) (linear_index scenario_1)
    = Ok 0%nat /\
  exists w' e,
    TextArea.replace_char_at_cursor None scenario_1 = Ok (tt, w') /\
    posted w' = posted scenario_1 ++ [e] /\
    exists w'',
      CribDragger.dispatch (Some keep_current) w' = Ok (tt, w'') /\
      callback_log w'' = callback_log scenario_1 ++ [(previous e, current e)].
Proof.
  assert (H1 : heap scenario_1 !! value scenario_1
               = Some (PartialString.init 15)) by reflexivity.
  assert (H2 : Py.index (len (_value (PartialString.init 15)))
                 (linear_index scenario_1) = Ok 0%nat) by reflexivity.
  split; [exact H1|]. split; [exact H2|].
  destruct (replace_char_at_cursor_posts_once scenario_1 None _
              keep_current H1)
    as (Hw & _ & _).
  destruct (Hw _ H2) as (w' & e & E & _ & Hposted & _ & _ & _ & Hpump).
  exists w', e. split; [exact E|]. split; [exact Hposted|].
  destruct (Hpump eq_refl) as (w'' & E' & Hlog & _).
  exists w''. auto.
Defined.

(** C10 as stated fails twice. The text ["abcd\nabc"] is laid out as
    ["abcd"; "abc"]; three right-arrows and a down-arrow from (0,0) leave the
    cursor at (3,1), one past the last line, where the linear index is 8, the
    number of cells: the call of [replace_char_at_cursor] raises IndexError
    and no message is posted. The text ["\nabc"] is laid out as [[]; "abc"];
    backspace at (0,0) first moves the cursor to (0,1) and then clears
    cell 1, the known cell of the buffer, not cell 0. *)
Lemma replace_char_at_cursor_may_raise :
  (exists w0 w,
     laid_out (str_of "abcd" ++ [LF] ++ str_of "abc") 100 = Ok w0 /\
     lines w0 = [str_of "abcd"; str_of "abc"] /\
     exec (on_keys 3 [KRight; KRight; KRight; KDown]) w0 = Ok w /\
     (cursor_x w, cursor_y w) = (3, 1) /\
     buffer w = Some (replicate 8 None) /\
     linear_index w = 8 /\
     forall char, TextArea.replace_char_at_cursor char w = Raise IndexError) /\
  (exists w0 w1 e,
     exec (TextArea.update_lines 100)
          (CribDragger.compose ([LF] ++ str_of "abc")
             (Some second_cell_known)) = Ok w0 /\
     lines w0 = [[]; str_of "abc"] /\
     (cursor_x w0, cursor_y w0) = (0, 0) /\
     buffer w0 = Some [None; Some 97%N; None; None] /\
     exec (on_key 3 KBackspace) w0 = Ok w1 /\
     (cursor_x w1, cursor_y w1) = (0, 1) /\
     buffer w1 = Some [None; None; None; None] /\
     posted w1 = [e]).
Proof.
  split.
  - eexists _, _.
    split; [vm_compute; reflexivity|]. split; [reflexivity|].
    split; [vm_compute; reflexivity|]. split; [reflexivity|].
    split; [reflexivity|]. split; [reflexivity|].
    intros char. eapply replace_char_at_cursor_raises; reflexivity.
  - eexists _, _, _.
    split; [vm_compute; reflexivity|]. split; [reflexivity|].
    split; [reflexivity|]. split; [reflexivity|].
    split; [vm_compute; reflexivity|]. split; [reflexivity|].
    split; reflexivity.
Qed.

(** ** Backspace and delete (C6) *)

Lemma sum_nonneg (l : list Z) : Forall (fun z => 0 <= z) l -> 0 <= Py.sum l.
Proof.
  induction 1 as [|z l Hz _ IH]; [cbn; lia|].
  change (0 <= z + Py.sum l). lia.
Qed.

Lemma row_start_nonneg (ls : list (list N)) :
  0 <= Py.sum (map (fun x => len x + 1) ls).
Proof.
  apply sum_nonneg. apply Forall_map, Forall_true.
  intros x. cbn. pose proof (len_nonneg x). lia.
Qed.

Lemma row_start_bound (ls : list (list N)) (i : nat) (l : list N) :
  ls !! i = Some l ->
  Py.sum (map (fun x => len x + 1) (take i ls)) + len l + 1
    <= Py.sum (map (fun x => len x + 1) ls).
Proof.
  revert i. induction ls as [|x ls IH]; intros i H; [discriminate H|].
  destruct i as [|i].
  - injection H as ->. cbn [take map]. pose proof (row_start_nonneg ls).
    unfold Py.sum in *. cbn [foldr]. lia.
  - cbn in H. apply IH in H. cbn [take map]. unfold Py.sum in *.
    cbn [foldr]. lia.
Qed.

(** A cursor on a column of its line has its linear index in the buffer. *)
Lemma linear_index_in_buffer (w : World) (p : PartialString) :
  row_in_text w -> layout_fits w p ->
  0 <= cursor_x w < line_length w (cursor_y w) ->
  0 <= linear_index w < len (_value p).
Proof.
  intros Hr Hfit Hx. unfold row_in_text in Hr.
  destruct (line_at_ok w _ Hr) as (l & Hl & _ & Hlen).
  unfold linear_index. rewrite slice_to_take by lia.
  pose proof (row_start_bound _ _ _ Hl) as Hb.
  pose proof (row_start_nonneg (take (Z.to_nat (cursor_y w)) (lines w))).
  unfold layout_fits in Hfit. lia.
Qed.



Lemma scenario_1_invariant : cursor_invariant scenario_1.
Proof.
  split; split; try (apply Z.leb_le; reflexivity).
  apply Z.ltb_lt. reflexivity.
Qed.

Lemma scenario_1_no_empty_line : no_empty_line scenario_1.
Proof. apply scenario_1_placed. Qed.

Lemma scenario_1_fits : layout_fits scenario_1 (PartialString.init 15).
Proof. apply Z.leb_le. reflexivity. Qed.



(** ** The round trip of the wrap (C3) *)

Lemma splitlines_from_nonempty (cur s : list N) :
  cur <> [] \/ s <> [] -> Py.splitlines_from cur s <> [].
Proof.
  revert cur. induction s as [|c rest IH]; intros cur H.
  - cbn. destruct cur; [destruct H; congruence|discriminate].
  - cbn [Py.splitlines_from].
    destruct (Py.is_linebreak c).
    + destruct (c =? CR)%N; [destruct rest as [|c' rest']|];
        try destruct (c' =? LF)%N; discriminate.
    + apply IH. left. destruct cur; discriminate.
Qed.

Lemma join_cons (sep x : list N) (r : list (list N)) :
  r <> [] -> Py.join sep (x :: r) = x ++ sep ++ Py.join sep r.
Proof. intros H. destruct r; [congruence|reflexivity]. Qed.

Lemma ends_with_LF_snoc (l : list N) (c : N) :
  ends_with_LF (l ++ [c]) = (c =? LF)%N.
Proof. unfold ends_with_LF. rewrite last_snoc. reflexivity. Qed.

Lemma ends_with_LF_app (l1 l2 : list N) :
  l2 <> [] -> ends_with_LF (l1 ++ l2) = ends_with_LF l2.
Proof.
  intros H. unfold ends_with_LF. rewrite last_app.
  destruct (last l2) eqn:E; [reflexivity|].
  apply last_None in E. congruence.
Qed.

Lemma is_linebreak_LF : Py.is_linebreak LF = true.
Proof. reflexivity. Qed.

Lemma join_splitlines_from (cur s : list N) :
  only_LF s -> Forall (fun c => Py.is_linebreak c = false) cur ->
  Py.join [LF] (Py.splitlines_from cur s)
    ++ (if ends_with_LF (cur ++ s) then [LF] else [])
  = cur ++ s.
Proof.
  intros Hs. revert cur. induction Hs as [|c rest Hc Hrest IH]; intros cur Hcur.
  - rewrite app_nil_r. cbn [Py.splitlines_from].
    destruct (decide (cur = [])) as [->|Hne]; [reflexivity|].
    replace (ends_with_LF cur) with false.
    + destruct cur; [congruence|]. cbn [Py.join]. apply app_nil_r.
    + unfold ends_with_LF. destruct (last cur) as [c|] eqn:E; [|reflexivity].
      apply last_Some_elem_of in E.
      rewrite Forall_forall in Hcur. specialize (Hcur _ E).
      destruct (N.eqb_spec c LF) as [->|]; [|reflexivity].
      rewrite is_linebreak_LF in Hcur. discriminate Hcur.
  - cbn [Py.splitlines_from].
    destruct (Py.is_linebreak c) eqn:Hlb.
    + specialize (Hc eq_refl). subst c.
      change (LF =? CR)%N with false. cbv iota.
      destruct (decide (rest = [])) as [->|Hne].
      * cbn [Py.splitlines_from Py.join].
        rewrite ends_with_LF_snoc. reflexivity.
      * rewrite join_cons by (apply splitlines_from_nonempty; auto).
        rewrite (ends_with_LF_app cur (LF :: rest)) by discriminate.
        change (LF :: rest) with ([LF] ++ rest).
        rewrite (ends_with_LF_app [LF] rest) by exact Hne.
        specialize (IH [] (Forall_nil_2 _)). cbn [app] in IH.
        rewrite <- !app_assoc. rewrite IH. reflexivity.
    + specialize (IH (cur ++ [c])).
      rewrite <- app_assoc in IH. cbn [app] in IH. apply IH.
      apply Forall_app. split; [exact Hcur|].
      constructor; [exact Hlb|constructor].
Qed.

(** Joining the raw lines with one line feed gives the text back, up to one
    trailing line feed, which [splitlines] drops. *)
Lemma join_splitlines (t : list N) :
  only_LF t ->
  Py.join [LF] (Py.splitlines t) ++ (if ends_with_LF t then [LF] else []) = t.
Proof.
  intros H. apply (join_splitlines_from [] t H). constructor.
Qed.

Lemma slice_chunk (x : list N) (i m : Z) :
  0 <= i -> 0 < m ->
  Py.slice x i (i + m) = take (Z.to_nat m) (drop (Z.to_nat i) x).
Proof.
  intros Hi Hm. unfold Py.slice, Py.bound.
  destruct (Z.ltb_spec i 0); [lia|].
  destruct (Z.ltb_spec (i + m) 0); [lia|].
  destruct (Z_lt_le_dec i (len x)) as [Hlt|Hge].
  - rewrite (Z.min_l i) by lia.
    destruct (Z_le_gt_dec (i + m) (len x)).
    + rewrite Z.min_l by lia. f_equal. lia.
    + rewrite Z.min_r by lia.
      rewrite !take_ge; [reflexivity| |];
        rewrite length_drop; unfold len in *; lia.
  - rewrite !Z.min_r by lia. rewrite Z.sub_diag.
    rewrite !drop_ge by (unfold len in *; lia).
    rewrite !take_nil. reflexivity.
Qed.

Lemma concat_slices (x : list N) (m : Z) (n : nat) :
  0 < m ->
  concat (map (fun i => Py.slice x i (i + m))
              (map (fun k => 0 + Z.of_nat k * m) (seq 0 n)))
  = take (n * Z.to_nat m) x.
Proof.
  intros Hm. induction n as [|n IH]; [reflexivity|].
  rewrite seq_S, !map_app, concat_app, IH. cbn [map concat].
  rewrite app_nil_r, slice_chunk by lia.
  replace (Z.to_nat (0 + Z.of_nat (0 + n) * m)) with (n * Z.to_nat m)%nat
    by lia.
  rewrite take_take_drop. f_equal. lia.
Qed.

(** The chunks of a raw line, concatenated, are the raw line. *)
Lemma concat_chunks (m : Z) (x : list N) : 0 < m -> concat (chunks m x) = x.
Proof.
  intros Hm. unfold chunks. rewrite Z.geb_leb.
  destruct (Z.leb_spec m (len x)); [|apply app_nil_r].
  rewrite concat_slices by exact Hm. apply take_ge.
  pose proof (len_nonneg x) as Hx.
  assert (len x <= (len x - 0 + m - 1) / m * m).
  { pose proof (Z.div_mod (len x - 0 + m - 1) m ltac:(lia)).
    pose proof (Z.mod_pos_bound (len x - 0 + m - 1) m Hm). lia. }
  assert (0 <= (len x - 0 + m - 1) / m) by (apply Z.div_pos; lia).
  unfold len in *. nia.
Qed.

(** No chunk is longer than [m], and a raw line gives at least one line. *)
Lemma chunks_bounded (m : Z) (x : list N) :
  0 < m ->
  Forall (fun c : list N => len c <= m) (chunks m x) /\ chunks m x <> [].
Proof.
  intros Hm. unfold chunks. rewrite Z.geb_leb.
  destruct (Z.leb_spec m (len x)) as [Hge|Hlt].
  - split.
    + rewrite Forall_map, Forall_map. apply Forall_true. intros k. cbn.
      rewrite slice_chunk by lia. unfold len. rewrite length_take. lia.
    + assert (1 <= (len x - 0 + m - 1) / m).
      { apply Z.div_le_lower_bound; lia. }
      destruct (Z.to_nat ((len x - 0 + m - 1) / m)) eqn:E; [lia|].
      discriminate.
  - split; [|discriminate]. constructor; [lia|constructor].
Qed.

Lemma wrap_nonempty (t : list N) (width : Z) :
  0 < width -> t <> [] -> wrap t width <> [].
Proof.
  intros Hw Ht. unfold wrap, Py.splitlines.
  pose proof (splitlines_from_nonempty [] t (or_intror Ht)) as Hs.
  destruct (Py.splitlines_from [] t) as [|x r]; [congruence|].
  cbn [map concat].
  destruct (chunks_bounded (width * 2) x ltac:(lia)) as [_ Hc].
  destruct (chunks (width * 2) x); [congruence|discriminate].
Qed.

(** C3, as the code has it: for a non-empty text whose only line boundary
    is the line feed and a positive width, the first layout returns; the
    display lines are the raw lines of the text in order, each cut into
    successive chunks of at most 2*width characters that concatenate back to
    the raw line; joining the raw lines with one line feed reproduces the
    text except for one trailing line feed, which is dropped; and when no
    raw line reaches 2*width characters, the display lines joined with one
    line feed do so themselves. *)
Theorem wrap_round_trip (t : list N) (width : Z) :
  0 < width -> t <> [] -> only_LF t ->
  let trailing := if ends_with_LF t then [LF] else [] in
  exists w,
    laid_out t width = Ok w /\
    lines w = concat (map (chunks (width * 2)) (Py.splitlines t)) /\
    Forall (fun x => concat (chunks (width * 2) x) = x /\
                     Forall (fun c : list N => len c <= width * 2)
                            (chunks (width * 2) x))
           (Py.splitlines t) /\
    Py.join [LF] (map (fun x => concat (chunks (width * 2) x))
                      (Py.splitlines t)) ++ trailing = t /\
    (Forall (fun x : list N => len x < width * 2) (Py.splitlines t) ->
     Py.join [LF] (lines w) ++ trailing = t).
Proof.
  intros Hw Ht Hlf trailing.
  pose proof (wrap_nonempty t width Hw Ht) as Hne.
  unfold laid_out, exec. rewrite update_lines_ok by exact Hw. cbv zeta.
  cbn [lines text CribDragger.compose app].
  destruct (wrap t width) as [|l ls] eqn:E; [congruence|].
  cbn [map Py.max]. eexists. split; [reflexivity|].
  cbn [lines with_virtual_size with_lines]. rewrite <- E.
  split; [reflexivity|]. split.
  { apply Forall_true. intros x. split; [apply concat_chunks; lia|].
    apply chunks_bounded. lia. }
  split.
  { rewrite (map_ext _ id) by (intros x; apply concat_chunks; lia).
    rewrite map_id. apply join_splitlines. exact Hlf. }
  intros Hshort. rewrite wrap_without_chunking by exact Hshort.
  apply join_splitlines. exact Hlf.
Qed.

Lemma main_text_only_LF : only_LF main_text.
Proof.
  unfold only_LF. vm_compute.
  repeat constructor; intros H; (reflexivity || discriminate H).
Qed.

Lemma wrap_round_trip_witness :
  0 < 100 /\ main_text <> [] /\ only_LF main_text /\
  exists w,
    laid_out main_text 100 = Ok w /\
    lines w = concat (map (chunks (100 * 2)) (Py.splitlines main_text)) /\
    Py.join [LF] (lines w) ++ (if ends_with_LF main_text then [LF] else [])
      = main_text.
Proof.
  split; [lia|]. split; [discriminate|]. split; [exact main_text_only_LF|].
  destruct (wrap_round_trip main_text 100 ltac:(lia) ltac:(discriminate)
              main_text_only_LF) as (w & E & Hl & _ & _ & Hj).
  exists w. split; [exact E|]. split; [exact Hl|].
  apply Hj. vm_compute. repeat constructor.
Defined.

(** C3 as stated fails. The text ["a\n"] is laid out as the one line ["a"]:
    the trailing terminator is lost. ["AAAA"] at width 1 is laid out as
    ["AA"; "AA"], and a terminator between the two lines gives ["AA\nAA"].
    ["a\r\nb"] is laid out as ["a"; "b"], and no single character between
    them gives the text back. The empty text has no layout: [update_lines]
    raises ValueError. *)
Lemma wrap_round_trip_fails :
  (exists w,
     laid_out (str_of "a" ++ [LF]) 100 = Ok w /\
     lines w = [str_of "a"] /\
     Py.join [LF] (lines w) <> str_of "a" ++ [LF]) /\
  (exists w,
     laid_out (str_of "AAAA") 1 = Ok w /\
     lines w = [str_of "AA"; str_of "AA"] /\
     Py.join [LF] (lines w) = str_of "AA" ++ [LF] ++ str_of "AA" /\
     Py.join [LF] (lines w) <> str_of "AAAA") /\
  (exists w,
     laid_out (str_of "a" ++ [CR; LF] ++ str_of "b") 100 = Ok w /\
     lines w = [str_of "a"; str_of "b"] /\
     forall c, Py.join [c] (lines w) <> str_of "a" ++ [CR; LF] ++ str_of "b") /\
  laid_out [] 100 = Raise ValueError.
Proof.
  split; [|split; [|split]].
  - eexists. split; [vm_compute; reflexivity|].
    split; [reflexivity|]. discriminate.
  - eexists. split; [vm_compute; reflexivity|].
    split; [reflexivity|]. split; [reflexivity|]. discriminate.
  - eexists. split; [vm_compute; reflexivity|].
    split; [reflexivity|]. intros c. discriminate.
  - reflexivity.
Qed.

(** * Further properties of the code *)

(** ** PartialString: reading back what was written *)

Lemma index_valid n i :
  - n <= i < n -> Py.index n i = Ok (Z.to_nat (i mod n)).
Proof.
  intros H. destruct (Z_lt_le_dec i 0) as [Hneg|Hpos].
  - rewrite index_negative by lia. f_equal. f_equal.
    apply Z.mod_unique with (q := -1); lia.
  - rewrite index_in_range by lia. f_equal. f_equal.
    symmetry. apply Z.mod_small. lia.
Qed.

Lemma mod_position n i : - n <= i < n -> 0 <= i mod n < n.
Proof. intros H. apply Z.mod_pos_bound. lia. Qed.



(** X2. A new buffer of length [n] has [max(n, 0)] cells, all unknown: every
    index in range reads the unknown marker and its display is that many
    placeholder characters; for [n <= 0] there is no cell and every read
    raises IndexError. *)
Theorem init_all_unknown (n : Z) :
  len (_value (PartialString.init n)) = Z.max n 0 /\
  (forall i, - Z.max n 0 <= i < Z.max n 0 ->
     PartialString.getitem (PartialString.init n) i = Ok None) /\
  PartialString.repr (PartialString.init n)
    = replicate (Z.to_nat n) UNKNOWN_CHARACTER /\
  (n <= 0 -> forall i,
     PartialString.getitem (PartialString.init n) i = Raise IndexError).
Proof.
  assert (Hlen : len (_value (PartialString.init n)) = Z.max n 0).
  { unfold len. cbn [PartialString.init _value]. rewrite length_replicate. lia. }
  split; [exact Hlen|]. split; [|split].
  - intros i Hi. unfold PartialString.getitem, Py.getitem.
    rewrite Hlen, (index_valid _ i Hi). cbn [result_bind].
    pose proof (mod_position _ i Hi).
    cbn [PartialString.init _value].
    rewrite lookup_replicate_2 by lia. reflexivity.
  - unfold PartialString.repr, PartialString.stringify.
    cbn [PartialString.init _value replacement].
    induction (Z.to_nat n) as [|k IH]; [reflexivity|].
    cbn [replicate map]. rewrite IH. reflexivity.
  - intros Hn i. unfold PartialString.getitem, Py.getitem.
    rewrite Hlen, index_outside by lia. reflexivity.
Qed.

Lemma init_all_unknown_witness :
  - Z.max 3 0 <= -3 < Z.max 3 0 /\
  PartialString.getitem (PartialString.init 3) (-3) = Ok None /\
  0 <= 0 /\
  PartialString.getitem (PartialString.init 0) 0 = Raise IndexError.
Proof.
  split; [lia|].
  split; [apply (init_all_unknown 3); lia|].
  split; [lia|]. apply (init_all_unknown 0). lia.
Defined.

Lemma display_injective (r : N) (u v : list (option N)) :
  Forall (fun x => x <> Some r) u -> Forall (fun x => x <> Some r) v ->
  map (fun x => match x with Some c => c | None => r end) u
  = map (fun x => match x with Some c => c | None => r end) v ->
  u = v.
Proof.
  intros Hu. revert v. induction Hu as [|x u Hx Hu IH]; intros v Hv E.
  - destruct v; [reflexivity|discriminate E].
  - destruct Hv as [|y v Hy Hv]; [discriminate E|].
    cbn [map] in E. injection E as Exy E.
    rewrite (IH v Hv E). f_equal.
    destruct x as [a|], y as [b|]; congruence.
Qed.

(** X3. The display of a buffer has one character per cell. A known cell
    that holds the placeholder character displays exactly like an unknown
    cell; when no known cell of two buffers with the same placeholder holds
    it, equal displays mean equal buffers. *)
Theorem repr_determines_buffer (p q : PartialString) :
  length (PartialString.repr p) = length (_value p) /\
  (forall k, PartialString.stringify p (<[k := Some (replacement p)]> (_value p))
             = PartialString.stringify p (<[k := None]> (_value p))) /\
  (replacement p = replacement q ->
   Forall (fun x => x <> Some (replacement p)) (_value p) ->
   Forall (fun x => x <> Some (replacement p)) (_value q) ->
   PartialString.repr p = PartialString.repr q ->
   PartialString.eq p q = true).
Proof.
  unfold PartialString.repr, PartialString.stringify, PartialString.eq.
  split; [apply length_map|]. split.
  - intros k. rewrite !list_fmap_insert. reflexivity.
  - intros Hr Hp Hq E. rewrite <- Hr in E.
    apply bool_decide_eq_true. symmetry.
    exact (display_injective _ _ _ Hp Hq E).
Qed.

Lemma repr_determines_buffer_witness :
  let p := mkPartialString UNKNOWN_CHARACTER 2 [Some 97%N; None] in
  let q := mkPartialString UNKNOWN_CHARACTER 7 [Some 97%N; None] in
  replacement p = replacement q /\
  Forall (fun x => x <> Some (replacement p)) (_value p) /\
  Forall (fun x => x <> Some (replacement p)) (_value q) /\
  PartialString.repr p = PartialString.repr q /\
  PartialString.eq p q = true.
Proof.
  intros p q.
  assert (H : Forall (fun x => x <> Some (replacement p)) (_value p))
    by (repeat constructor; discriminate).
  split; [reflexivity|]. split; [exact H|]. split; [exact H|].
  split; [reflexivity|].
  apply (repr_determines_buffer p q); [reflexivity|exact H|exact H|reflexivity].
Defined.

(** ** PartialString.split_lines *)








(** ** The line wrapper: when it returns and what it returns *)

Lemma range_negative_step n m :
  0 <= n -> m < 0 -> Py.range 0 n m = Ok [].
Proof.
  intros Hn Hm. unfold Py.range.
  destruct (Z.eqb_spec m 0); [lia|].
  destruct (Z.ltb_spec 0 m); [lia|].
  replace (Z.to_nat ((0 - n - m - 1) / - m)) with 0%nat; [reflexivity|].
  assert ((0 - n - m - 1) / - m <= 0); [|lia].
  apply Z.lt_succ_r. apply Z.div_lt_upper_bound; lia.
Qed.

Lemma update_lines_loop_negative (m : Z) (ls : list (list N)) (w : World) :
  m < 0 ->
  for_each ls (fun x =>
      if len x >=? m then
        r <- lift (Py.range 0 (len x) m) ;;
        modify (fun w => with_lines
          (lines w ++ map (fun i => Py.slice x i (i + m)) r) w)
      else
        modify (fun w => with_lines (lines w ++ [x]) w)) w
  = Ok (tt, w).
Proof.
  intros Hm. induction ls as [|x ls IH]; [reflexivity|].
  cbn [for_each]. unfold bind at 1.
  pose proof (len_nonneg x) as Hx.
  rewrite Z.geb_leb. destruct (Z.leb_spec m (len x)); [|lia].
  unfold bind at 1. unfold lift. rewrite range_negative_step by lia.
  unfold modify at 1. cbn [map lines]. rewrite app_nil_r.
  replace (with_lines (lines w) w) with w by (destruct w; reflexivity).
  exact IH.
Qed.

(** X5. The first layout of a newly composed widget returns exactly when
    the width is positive and the text is not empty; for a width of zero or
    below, and for the empty text at any width, [update_lines] raises
    ValueError. *)
Theorem first_layout_returns_iff (t : list N) (width : Z)
    (on_change : option Callback) :
  (0 < width /\ t <> [] ->
   exists w, TextArea.update_lines width (CribDragger.compose t on_change)
             = Ok (tt, w) /\ lines w = wrap t width) /\
  (width <= 0 \/ t = [] ->
   TextArea.update_lines width (CribDragger.compose t on_change)
   = Raise ValueError).
Proof.
  split.
  - intros [Hw Ht]. rewrite update_lines_ok by exact Hw. cbv zeta.
    cbn [lines text CribDragger.compose app].
    pose proof (wrap_nonempty t width Hw Ht) as Hne.
    destruct (wrap t width) as [|l ls] eqn:E; [congruence|].
    cbn [map Py.max]. eexists. split; reflexivity.
  - intros H.
    destruct (Z_lt_le_dec 0 width) as [Hpos|Hle].
    + destruct H as [H | ->]; [lia|].
      rewrite update_lines_ok by exact Hpos. reflexivity.
    + unfold TextArea.update_lines. cbv zeta. rewrite bind_gets.
      destruct (Z.eq_dec width 0) as [-> | Hne].
      * cbn [text CribDragger.compose].
        destruct (Py.splitlines t) as [|x r]; [reflexivity|].
        cbn [for_each]. unfold bind at 1 2.
        replace (len x >=? 0 * 2) with true
          by (symmetry; apply Z.geb_le; pose proof (len_nonneg x); lia).
        reflexivity.
      * unfold bind at 1. rewrite update_lines_loop_negative by lia.
        reflexivity.
Qed.

Lemma first_layout_returns_iff_witness :
  (0 < 100 /\ main_text <> []) /\
  (exists w, TextArea.update_lines 100 (CribDragger.compose main_text None)
             = Ok (tt, w) /\ lines w = wrap main_text 100) /\
  (-1 <= 0 \/ main_text = []) /\
  TextArea.update_lines (-1) (CribDragger.compose main_text None)
  = Raise ValueError.
Proof.
  assert (H1 : 0 < 100 /\ main_text <> []) by (split; [lia|discriminate]).
  assert (H2 : -1 <= 0 \/ main_text = []) by (left; lia).
  split; [exact H1|].
  split; [apply (first_layout_returns_iff main_text 100 None); exact H1|].
  split; [exact H2|].
  apply (first_layout_returns_iff main_text (-1) None). exact H2.
Defined.

Lemma splitlines_from_no_linebreak (cur s : list N) :
  Forall (fun c => Py.is_linebreak c = false) cur ->
  Forall (Forall (fun c => Py.is_linebreak c = false))
         (Py.splitlines_from cur s).
Proof.
  remember (length s) as n eqn:Hn.
  assert (Hle : (length s <= n)%nat) by lia. clear Hn.
  revert s cur Hle. induction n as [|n IH]; intros s cur Hle Hcur.
  - destruct s; [|cbn in Hle; lia].
    cbn. destruct cur; repeat constructor; inversion Hcur; assumption.
  - destruct s as [|c rest].
    + cbn. destruct cur; repeat constructor; inversion Hcur; assumption.
    + cbn [Py.splitlines_from]. cbn [length] in Hle.
      assert (Hrest : Forall (Forall (fun c => Py.is_linebreak c = false))
                        (Py.splitlines_from [] rest))
        by (apply IH; [lia|constructor]).
      destruct (Py.is_linebreak c) eqn:Hlb.
      * destruct (c =? CR)%N; [|constructor; assumption].
        destruct rest as [|c' rest']; [constructor; assumption|].
        destruct (c' =? LF)%N; [|constructor; assumption].
        constructor; [assumption|].
        apply IH; [cbn [length] in Hle; lia|constructor].
      * apply IH; [lia|].
        apply Forall_app. split; [assumption|].
        constructor; [exact Hlb|constructor].
Qed.

Lemma chunks_members (m : Z) (x c : list N) :
  0 < m -> c ∈ chunks m x ->
  exists k : nat, c = take (Z.to_nat m) (drop (k * Z.to_nat m) x) /\
                  (x <> [] -> (k * Z.to_nat m < length x)%nat).
Proof.
  intros Hm. unfold chunks. rewrite Z.geb_leb.
  destruct (Z.leb_spec m (len x)) as [Hge|Hlt].
  - intros H. apply list_elem_of_fmap in H as (i & -> & H).
    apply list_elem_of_fmap in H as (k & -> & H).
    apply elem_of_seq in H. exists k.
    rewrite slice_chunk by lia. split; [f_equal; f_equal; lia|].
    intros _. pose proof (len_nonneg x).
    assert (Z.of_nat k < (len x - 0 + m - 1) / m) by lia.
    assert (Z.of_nat k * m < len x).
    { pose proof (Z.div_mod (len x - 0 + m - 1) m ltac:(lia)).
      pose proof (Z.mod_pos_bound (len x - 0 + m - 1) m Hm). nia. }
    unfold len in *. nia.
  - intros H. apply list_elem_of_singleton in H. subst c. exists 0%nat.
    split.
    + cbn [Nat.mul drop]. symmetry. apply take_ge. unfold len in *. lia.
    + intros Hx. destruct x; [congruence|cbn; lia].
Qed.

Lemma chunks_empty_member (m : Z) (x : list N) :
  0 < m -> [] ∈ chunks m x <-> x = [].
Proof.
  intros Hm. split.
  - intros H. apply chunks_members in H as (k & Hk & Hlt); [|exact Hm].
    destruct (decide (x = [])) as [|Hne]; [assumption|].
    specialize (Hlt Hne). exfalso.
    assert (Hlen : length (take (Z.to_nat m) (drop (k * Z.to_nat m) x)) = 0%nat)
      by (rewrite <- Hk; reflexivity).
    rewrite length_take, length_drop in Hlen. lia.
  - intros ->. rewrite chunks_short by (unfold len; cbn; lia).
    apply list_elem_of_singleton. reflexivity.
Qed.

Lemma elem_of_concat {A} (x : A) (ls : list (list A)) :
  x ∈ concat ls <-> exists l, x ∈ l /\ l ∈ ls.
Proof.
  induction ls as [|l ls IH]; cbn [concat].
  - split; [intros H; apply elem_of_nil in H; contradiction|].
    intros (l & _ & H). apply elem_of_nil in H. contradiction.
  - rewrite elem_of_app, IH. split.
    + intros [H|(l' & H1 & H2)]; [exists l|exists l']; split;
        auto using list_elem_of_here, list_elem_of_further.
    + intros (l' & H1 & H2). apply elem_of_cons in H2 as [->|H2]; eauto.
Qed.

(** X6. After a layout at a positive width on a new widget, no line holds a
    line-boundary character and none is longer than [2 * width]; the lines
    concatenated are the raw lines concatenated (no character is lost or
    reordered by the chunking), and a line is empty only where a raw line of
    the text is empty. *)
Theorem layout_lines_shape (t : list N) (width : Z) (w : World) :
  0 < width -> laid_out t width = Ok w ->
  Forall (fun l : list N =>
            len l <= width * 2 /\
            Forall (fun c => Py.is_linebreak c = false) l) (lines w) /\
  concat (lines w) = concat (Py.splitlines t) /\
  ([] ∈ lines w <-> [] ∈ Py.splitlines t).
Proof.
  intros Hw E. unfold laid_out, exec in E.
  rewrite update_lines_ok in E by exact Hw. cbv zeta in E.
  cbn [lines text CribDragger.compose app] in E.
  destruct (Py.max _); [|discriminate E]. injection E as <-.
  cbn [lines with_virtual_size with_lines]. unfold wrap.
  assert (Hm : 0 < width * 2) by lia.
  pose proof (splitlines_from_no_linebreak [] t (Forall_nil_2 _)) as Hlb.
  fold (Py.splitlines t) in Hlb.
  split; [|split].
  - apply Forall_concat, Forall_fmap. 
    eapply Forall_impl; [exact Hlb|]. intros x Hx. cbn.
    apply Forall_forall. intros c Hc. split.
    + destruct (chunks_bounded (width * 2) x Hm) as [Hb _].
      rewrite Forall_forall in Hb. apply Hb, Hc.
    + apply chunks_members in Hc as (k & -> & _); [|exact Hm].
      apply Forall_take, Forall_drop, Hx.
  - induction (Py.splitlines t) as [|x r IH]; [reflexivity|].
    cbn [map concat]. rewrite concat_app, concat_chunks by exact Hm.
    rewrite IH; [reflexivity|]. inversion Hlb; assumption.
  - rewrite elem_of_concat. split.
    + intros (g & Hin & Hg). apply list_elem_of_fmap in Hg as (x & -> & Hx).
      apply chunks_empty_member in Hin; [|exact Hm]. subst x. exact Hx.
    + intros H. exists (chunks (width * 2) []). split.
      * apply chunks_empty_member; [exact Hm|reflexivity].
      * apply list_elem_of_fmap. exists []. split; [reflexivity|exact H].
Qed.

Lemma layout_lines_shape_witness :
  0 < 100 /\ laid_out main_text 100 = Ok scenario_1 /\
  concat (lines scenario_1) = concat (Py.splitlines main_text) /\
  ([] ∈ lines scenario_1 <-> [] ∈ Py.splitlines main_text).
Proof.
  assert (H : laid_out main_text 100 = Ok scenario_1)
    by (apply laid_out_main_text; lia).
  split; [lia|]. split; [exact H|].
  apply (layout_lines_shape main_text 100 scenario_1); [lia|exact H].
Defined.

Lemma foldl_max_spec (x : Z) (r : list Z) :
  Forall (fun y => y <= foldl Z.max x r) (x :: r) /\ foldl Z.max x r ∈ x :: r.
Proof.
  revert x. induction r as [|y r IH]; intros x.
  - cbn. split; [repeat constructor; lia|apply list_elem_of_here].
  - cbn [foldl]. destruct (IH (Z.max x y)) as [Hall Hin].
    inversion Hall as [|? ? Hxy Hr]; subst. split.
    + constructor; [lia|]. constructor; [lia|exact Hr].
    + apply elem_of_cons in Hin as [Hin|Hin].
      * rewrite Hin. destruct (Z.max_spec x y) as [[_ ->]|[_ ->]].
        -- apply list_elem_of_further, list_elem_of_here.
        -- apply list_elem_of_here.
      * apply list_elem_of_further, list_elem_of_further, Hin.
Qed.

(** X7. When [update_lines] returns at a positive width, the virtual size
    it stores is (length of the longest line, 3 times the number of lines):
    no line is longer than the virtual width and some line has exactly that
    length. The call touches nothing else: the cursor in particular stays
    where it was, whatever the new lines are. *)
Theorem update_lines_virtual_size (width : Z) (w w' : World) :
  0 < width -> TextArea.update_lines width w = Ok (tt, w') ->
  snd (virtual_size w') = len (lines w') * 3 /\
  Forall (fun l : list N => len l <= fst (virtual_size w')) (lines w') /\
  (exists l, l ∈ lines w' /\ len l = fst (virtual_size w')) /\
  (cursor_x w', cursor_y w') = (cursor_x w, cursor_y w) /\
  (heap w', value w', posted w') = (heap w, value w, posted w).
Proof.
  intros Hw E. rewrite update_lines_ok in E by exact Hw. cbv zeta in E.
  destruct (lines w ++ wrap (text w) width) as [|l ls] eqn:El;
    [discriminate E|].
  cbn [map Py.max] in E. injection E as <-.
  cbn [virtual_size lines with_virtual_size with_lines fst snd cursor_x
       cursor_y heap value posted].
  destruct (foldl_max_spec (len l) (map len ls)) as [Hall Hin].
  split; [reflexivity|]. split; [|split; [|split; reflexivity]].
  - change (len l :: map len ls) with (map len (l :: ls)) in Hall.
    rewrite Forall_forall in Hall. apply Forall_forall. intros l' Hl'.
    apply Hall, list_elem_of_fmap. eauto.
  - change (len l :: map len ls) with (map len (l :: ls)) in Hin.
    apply list_elem_of_fmap in Hin as (l' & E & Hl'). eauto.
Qed.

Lemma update_lines_virtual_size_witness :
  0 < 100 /\
  TextArea.update_lines 100 (CribDragger.compose main_text None)
    = Ok (tt, scenario_1) /\
  snd (virtual_size scenario_1) = len (lines scenario_1) * 3 /\
  exists l, l ∈ lines scenario_1 /\ len l = fst (virtual_size scenario_1).
Proof.
  assert (H : TextArea.update_lines 100 (CribDragger.compose main_text None)
              = Ok (tt, scenario_1)) by (vm_compute; reflexivity).
  split; [lia|]. split; [exact H|].
  destruct (update_lines_virtual_size 100 _ _ ltac:(lia) H)
    as (H1 & _ & H2 & _).
  split; [exact H1|exact H2].
Defined.

(** ** The cursor keys on a layout without empty lines *)

Lemma cursor_invariant_placed (w : World) :
  no_empty_line w -> cursor_invariant w -> well_placed w /\ 0 <= cursor_x w.
Proof.
  intros Hne [Hr Hx]. split; [|lia].
  split; [exact Hne|]. split; [exact Hr|lia].
Qed.

Lemma move_column_cases (w : World) (x : Z) :
  move_column w x =
    if x <? 0 then
      if cursor_y w =? 0 then at_cursor 0 (cursor_y w) w
      else at_cursor (line_length w (cursor_y w - 1) - 1) (cursor_y w - 1) w
    else if cursor_y w + 1 =? len (lines w) then
      if x <? line_length w (cursor_y w) then at_cursor x (cursor_y w) w
      else if x =? line_length w (cursor_y w)
           then at_cursor (line_length w (cursor_y w) - 1) (cursor_y w) w
           else at_cursor 0 (cursor_y w) w
    else if x <? line_length w (cursor_y w) then at_cursor x (cursor_y w) w
    else at_cursor 0 (cursor_y w + 1) w.
Proof.
  unfold move_column, column_result. cbv zeta.
  repeat match goal with
  | |- context [if ?b then _ else _] => destruct b
  end; reflexivity.
Qed.

Lemma key_left (f : nat) (w : World) :
  well_placed w ->
  on_key (S (S (S f))) KLeft w = Ok (tt, move_column w (cursor_x w - 1)).
Proof.
  intros Hw. cbn [on_key]. unfold TextArea.action_cursor_left.
  rewrite bind_gets. apply set_cursor_x_ok, Hw.
Qed.

Lemma key_right (f : nat) (w : World) :
  well_placed w ->
  on_key (S (S (S f))) KRight w = Ok (tt, move_column w (cursor_x w + 1)).
Proof.
  intros Hw. cbn [on_key]. unfold TextArea.action_cursor_right.
  rewrite bind_gets. apply set_cursor_x_ok, Hw.
Qed.

Lemma key_up (f : nat) (w : World) :
  well_placed w ->
  on_key (S (S f)) KUp w =
    Ok (tt, at_cursor (column_on_row w (clamp_row w (cursor_y w - 1)))
              (clamp_row w (cursor_y w - 1)) w).
Proof.
  intros Hw. cbn [on_key]. unfold TextArea.action_cursor_up.
  rewrite bind_gets. apply set_cursor_y_ok, Hw.
Qed.

Lemma key_down (f : nat) (w : World) :
  well_placed w ->
  on_key (S (S f)) KDown w =
    Ok (tt, at_cursor (column_on_row w (clamp_row w (cursor_y w + 1)))
              (clamp_row w (cursor_y w + 1)) w).
Proof.
  intros Hw. cbn [on_key]. unfold TextArea.action_cursor_down.
  rewrite bind_gets. apply set_cursor_y_ok, Hw.
Qed.

Lemma at_cursor_same (w : World) (x y : Z) :
  x = cursor_x w -> y = cursor_y w -> at_cursor x y w = w.
Proof. intros -> ->. apply at_cursor_id. Qed.

Lemma navigation_step_frame (f : nat) (k : Key) (w : World) :
  navigation k = true -> well_placed w -> 0 <= cursor_x w ->
  exists x y, on_key (S (S (S f))) k w = Ok (tt, at_cursor x y w) /\
              well_placed (at_cursor x y w) /\ 0 <= x.
Proof.
  intros Hk Hw H0.
  destruct k; try discriminate Hk; cbn [on_key];
    unfold TextArea.action_cursor_left, TextArea.action_cursor_right,
      TextArea.action_cursor_up, TextArea.action_cursor_down;
    rewrite bind_gets.
  - rewrite set_cursor_x_ok by exact Hw.
    destruct (move_column_placed w (cursor_x w - 1) Hw) as (? & ? & _).
    eexists _, _. split; [reflexivity|]. split; assumption.
  - rewrite set_cursor_x_ok by exact Hw.
    destruct (move_column_placed w (cursor_x w + 1) Hw) as (? & ? & _).
    eexists _, _. split; [reflexivity|]. split; assumption.
  - rewrite set_cursor_y_ok by exact Hw.
    destruct (set_row_placed w (cursor_y w - 1) Hw) as (? & ?).
    eexists _, _. split; [reflexivity|]. split; auto.
  - rewrite set_cursor_y_ok by exact Hw.
    destruct (set_row_placed w (cursor_y w + 1) Hw) as (? & ?).
    eexists _, _. split; [reflexivity|]. split; auto.
Qed.

Lemma navigation_frame (f : nat) (ks : list Key) (w : World) :
  forallb navigation ks = true ->
  forall x0 y0, well_placed (at_cursor x0 y0 w) -> 0 <= x0 ->
  exists x y,
    exec (on_keys (S (S (S f))) ks) (at_cursor x0 y0 w)
    = Ok (at_cursor x y w) /\
    0 <= y < len (lines w) /\ 0 <= x <= line_length w y.
Proof.
  induction ks as [|k ks IH]; intros Hks x0 y0 Hw H0.
  - exists x0, y0. split; [reflexivity|].
    destruct Hw as (_ & Hr' & Hx'). split; [exact Hr'|].
    split; [exact H0|exact Hx'].
  - cbn [forallb] in Hks. apply andb_prop in Hks as [Hk Hks].
    destruct (navigation_step_frame f k _ Hk Hw H0)
      as (x1 & y1 & E & Hw1 & H1).
    change (at_cursor x1 y1 (at_cursor x0 y0 w)) with (at_cursor x1 y1 w)
      in E, Hw1.
    destruct (IH Hks x1 y1 Hw1 H1) as (x & y & E' & Hy & Hxy).
    exists x, y. split; [|split; [exact Hy|exact Hxy]].
    unfold on_keys, exec in *. cbn [for_each]. unfold bind. rewrite E.
    exact E'.
Qed.

(** X8. On a layout without empty lines, with the cursor on a row of the
    text and at a column from 0 to the length of that row's line, any
    sequence of arrow keys returns; the cursor is again on a row of the text
    and within its line, and nothing but the cursor has changed: the lines,
    the text, the buffer and the message queue are the same. *)
Theorem arrow_keys_only_move_the_cursor (fuel : nat) (ks : list Key)
    (w : World) :
  (3 <= fuel)%nat -> forallb navigation ks = true ->
  no_empty_line w -> cursor_invariant w ->
  exists x y,
    exec (on_keys fuel ks) w = Ok (at_cursor x y w) /\
    0 <= y < len (lines w) /\ 0 <= x <= line_length w y.
Proof.
  intros Hf Hks Hne [Hr Hx].
  destruct fuel as [|[|[|f]]]; try lia.
  assert (Hw : well_placed w) by (split; [|split]; [exact Hne|exact Hr|lia]).
  pose proof (navigation_frame f ks w Hks (cursor_x w) (cursor_y w)) as H.
  rewrite at_cursor_id in H. apply H; [exact Hw|lia].
Qed.

Lemma arrow_keys_only_move_the_cursor_witness :
  (3 <= 3)%nat /\ forallb navigation [KDown; KRight; KUp; KLeft] = true /\
  no_empty_line scenario_1 /\ cursor_invariant scenario_1 /\
  exists x y,
    exec (on_keys 3 [KDown; KRight; KUp; KLeft]) scenario_1
    = Ok (at_cursor x y scenario_1).
Proof.
  split; [lia|]. split; [reflexivity|].
  split; [exact scenario_1_no_empty_line|].
  split; [exact scenario_1_invariant|].
  destruct (arrow_keys_only_move_the_cursor 3
              [KDown; KRight; KUp; KLeft] scenario_1 ltac:(lia) eq_refl
              scenario_1_no_empty_line scenario_1_invariant)
    as (x & y & E & _).
  exists x, y. exact E.
Defined.

(** X9. On a layout without empty lines, with the cursor on a row of the
    text and at a column from 0 to the length of that row's line, the arrow
    keys change nothing and raise nothing at the edges of the text: left at
    (0,0), up on the first row, down on the last row, and right on the last
    cell of the last line all leave the state as it is. *)
Theorem arrows_at_the_edges (fuel : nat) (w : World) :
  (3 <= fuel)%nat -> no_empty_line w -> cursor_invariant w ->
  (cursor_x w = 0 -> cursor_y w = 0 -> on_key fuel KLeft w = Ok (tt, w)) /\
  (cursor_y w = 0 -> on_key fuel KUp w = Ok (tt, w)) /\
  (cursor_y w + 1 = len (lines w) -> on_key fuel KDown w = Ok (tt, w)) /\
  (cursor_y w + 1 = len (lines w) ->
   cursor_x w + 1 = line_length w (cursor_y w) ->
   on_key fuel KRight w = Ok (tt, w)).
Proof.
  intros Hf Hne Hinv. destruct fuel as [|[|[|f]]]; try lia.
  destruct (cursor_invariant_placed w Hne Hinv) as [Hw H0].
  destruct Hinv as [Hr Hx].
  split; [|split; [|split]].
  - intros Ex Ey. rewrite key_left by exact Hw. rewrite move_column_cases.
    destruct (Z.ltb_spec (cursor_x w - 1) 0); [|lia].
    rewrite Ey at 1. cbn [Z.eqb]. rewrite at_cursor_same; auto.
  - intros Ey. rewrite key_up by exact Hw.
    assert (Hc : clamp_row w (cursor_y w - 1) = cursor_y w)
      by (unfold clamp_row; cbv zeta; repeat zcase; lia).
    rewrite Hc, column_on_row_fixed by lia. rewrite at_cursor_id. reflexivity.
  - intros Ey. rewrite key_down by exact Hw.
    assert (Hc : clamp_row w (cursor_y w + 1) = cursor_y w)
      by (unfold clamp_row; cbv zeta; repeat zcase; lia).
    rewrite Hc, column_on_row_fixed by lia. rewrite at_cursor_id. reflexivity.
  - intros Ey Ex. rewrite key_right by exact Hw. rewrite move_column_cases.
    destruct (Z.ltb_spec (cursor_x w + 1) 0); [lia|].
    destruct (Z.eqb_spec (cursor_y w + 1) (len (lines w))); [|lia].
    destruct (Z.ltb_spec (cursor_x w + 1) (line_length w (cursor_y w))); [lia|].
    destruct (Z.eqb_spec (cursor_x w + 1) (line_length w (cursor_y w))); [|lia].
    rewrite at_cursor_same; [reflexivity|lia|reflexivity].
Qed.

Lemma arrows_at_the_edges_witness :
  (3 <= 3)%nat /\ no_empty_line scenario_1 /\ cursor_invariant scenario_1 /\
  cursor_x scenario_1 = 0 /\ cursor_y scenario_1 = 0 /\
  on_key 3 KLeft scenario_1 = Ok (tt, scenario_1) /\
  on_key 3 KUp scenario_1 = Ok (tt, scenario_1).
Proof.
  split; [lia|]. split; [exact scenario_1_no_empty_line|].
  split; [exact scenario_1_invariant|]. split; [reflexivity|].
  split; [reflexivity|].
  destruct (arrows_at_the_edges 3 scenario_1 ltac:(lia)
              scenario_1_no_empty_line scenario_1_invariant)
    as (H1 & H2 & _).
  split; [apply H1; reflexivity|apply H2; reflexivity].
Defined.

Lemma at_cursor_placed (w : World) (x y : Z) :
  no_empty_line w -> 0 <= y < len (lines w) -> x <= line_length w y ->
  well_placed (at_cursor x y w).
Proof. intros Hne Hy Hx. split; [exact Hne|]. split; [exact Hy|exact Hx]. Qed.

Lemma line_length_at_cursor (w : World) (x y i : Z) :
  line_length (at_cursor x y w) i = line_length w i.
Proof. reflexivity. Qed.

(** Project the cursor and the lines out of a moved state. *)
Ltac cursor_simpl :=
  rewrite ?line_length_at_cursor;
  cbn [cursor_x cursor_y lines at_cursor with_cursor_x with_cursor_y].

Lemma on_keys_two (fuel : nat) (k1 k2 : Key) (w w1 w2 : World) :
  on_key fuel k1 w = Ok (tt, w1) -> on_key fuel k2 w1 = Ok (tt, w2) ->
  exec (on_keys fuel [k1; k2]) w = Ok w2.
Proof.
  intros E1 E2. unfold exec, on_keys. cbn [for_each]. unfold bind.
  rewrite E1, E2. reflexivity.
Qed.

(** X10. With the cursor on a cell of a layout without empty lines, right
    followed by left brings the state back, except on the last cell of the
    last line (where right does not move); left followed by right brings it
    back, except at (0,0) (where left does not move). Moving across a line
    end and back returns to the same cell. *)
Theorem left_and_right_are_inverse (fuel : nat) (w : World) :
  (3 <= fuel)%nat -> no_empty_line w -> row_in_text w ->
  0 <= cursor_x w < line_length w (cursor_y w) ->
  (~ (cursor_y w + 1 = len (lines w) /\
      cursor_x w + 1 = line_length w (cursor_y w)) ->
   exec (on_keys fuel [KRight; KLeft]) w = Ok w) /\
  (~ (cursor_x w = 0 /\ cursor_y w = 0) ->
   exec (on_keys fuel [KLeft; KRight]) w = Ok w).
Proof.
  intros Hf Hne Hr Hx. destruct fuel as [|[|[|f]]]; try lia.
  unfold row_in_text in Hr.
  assert (Hw : well_placed w) by (apply cursor_invariant_placed;
    [exact Hne|split; [exact Hr|lia]]).
  assert (Hid : at_cursor (cursor_x w) (cursor_y w) w = w)
    by apply at_cursor_id.
  split.
  - intros Hnot.
    destruct (Z_lt_le_dec (cursor_x w + 1) (line_length w (cursor_y w)))
      as [Hin|Hend].
    + (* the next cell of the same line *)
      eapply on_keys_two; [apply key_right, Hw|].
      rewrite move_column_interior by lia.
      rewrite key_left
        by (apply at_cursor_placed; [exact Hne|exact Hr|lia]).
      rewrite move_column_interior by (cursor_simpl; lia).
      cbn [cursor_x cursor_y at_cursor with_cursor_x with_cursor_y].
      replace (cursor_x w + 1 - 1) with (cursor_x w) by lia.
      exact (f_equal (fun s => Ok (tt, s)) Hid).
    + (* across the end of a line that is not the last *)
      assert (Hrow : cursor_y w + 1 <> len (lines w)) by lia.
      assert (Hr' : 0 <= cursor_y w + 1 < len (lines w)) by lia.
      pose proof (line_length_pos w _ Hne Hr') as Hpos.
      eapply on_keys_two; [apply key_right, Hw|].
      rewrite move_column_cases.
      destruct (Z.ltb_spec (cursor_x w + 1) 0); [lia|].
      destruct (Z.eqb_spec (cursor_y w + 1) (len (lines w))); [lia|].
      destruct (Z.ltb_spec (cursor_x w + 1) (line_length w (cursor_y w)));
        [lia|].
      rewrite key_left
        by (apply at_cursor_placed; [exact Hne|exact Hr'|lia]).
      rewrite move_column_cases.
      cbn [cursor_x cursor_y lines at_cursor with_cursor_x with_cursor_y].
      destruct (Z.ltb_spec (0 - 1) 0); [|lia].
      destruct (Z.eqb_spec (cursor_y w + 1) 0); [lia|].
      replace (cursor_y w + 1 - 1) with (cursor_y w) by lia.
      change (line_length (at_cursor 0 (cursor_y w + 1) w) (cursor_y w))
        with (line_length w (cursor_y w)).
      replace (line_length w (cursor_y w) - 1) with (cursor_x w) by lia.
      exact (f_equal (fun s => Ok (tt, s)) Hid).
  - intros Hnot.
    destruct (Z_lt_le_dec 0 (cursor_x w)) as [Hin|Hstart].
    + (* the previous cell of the same line *)
      eapply on_keys_two; [apply key_left, Hw|].
      rewrite move_column_interior by lia.
      rewrite key_right
        by (apply at_cursor_placed; [exact Hne|exact Hr|lia]).
      rewrite move_column_interior by (cursor_simpl; lia).
      cbn [cursor_x cursor_y at_cursor with_cursor_x with_cursor_y].
      replace (cursor_x w - 1 + 1) with (cursor_x w) by lia.
      exact (f_equal (fun s => Ok (tt, s)) Hid).
    + (* across the start of a line that is not the first *)
      assert (Hcx : cursor_x w = 0) by lia.
      assert (Hrow : cursor_y w <> 0) by lia.
      assert (Hr' : 0 <= cursor_y w - 1 < len (lines w)) by lia.
      pose proof (line_length_pos w _ Hne Hr') as Hpos.
      eapply on_keys_two; [apply key_left, Hw|].
      rewrite move_column_cases.
      destruct (Z.ltb_spec (cursor_x w - 1) 0); [|lia].
      destruct (Z.eqb_spec (cursor_y w) 0); [lia|].
      rewrite key_right
        by (apply at_cursor_placed; [exact Hne|exact Hr'|lia]).
      rewrite move_column_cases.
      cbn [cursor_x cursor_y lines at_cursor with_cursor_x with_cursor_y].
      change (line_length (at_cursor (line_length w (cursor_y w - 1) - 1)
                             (cursor_y w - 1) w) (cursor_y w - 1))
        with (line_length w (cursor_y w - 1)).
      destruct (Z.ltb_spec (line_length w (cursor_y w - 1) - 1 + 1) 0); [lia|].
      destruct (Z.eqb_spec (cursor_y w - 1 + 1) (len (lines w))); [lia|].
      destruct (Z.ltb_spec (line_length w (cursor_y w - 1) - 1 + 1)
                  (line_length w (cursor_y w - 1))); [lia|].
      replace (cursor_y w - 1 + 1) with (cursor_y w) by lia.
      rewrite <- Hcx. exact (f_equal (fun s => Ok (tt, s)) Hid).
Qed.

Lemma scenario_1_row : row_in_text scenario_1.
Proof. apply scenario_1_invariant. Qed.

Lemma scenario_1_on_cell :
  0 <= cursor_x scenario_1 < line_length scenario_1 (cursor_y scenario_1).
Proof. split; [apply Z.leb_le|apply Z.ltb_lt]; reflexivity. Qed.

Lemma left_and_right_are_inverse_witness :
  (3 <= 3)%nat /\ no_empty_line scenario_1 /\ row_in_text scenario_1 /\
  0 <= cursor_x scenario_1 < line_length scenario_1 (cursor_y scenario_1) /\
  ~ (cursor_y scenario_1 + 1 = len (lines scenario_1) /\
     cursor_x scenario_1 + 1 = line_length scenario_1 (cursor_y scenario_1)) /\
  exec (on_keys 3 [KRight; KLeft]) scenario_1 = Ok scenario_1.
Proof.
  assert (H : ~ (cursor_y scenario_1 + 1 = len (lines scenario_1) /\
     cursor_x scenario_1 + 1 = line_length scenario_1 (cursor_y scenario_1)))
    by (intros [H _]; vm_compute in H; discriminate H).
  split; [lia|]. split; [exact scenario_1_no_empty_line|].
  split; [exact scenario_1_row|]. split; [exact scenario_1_on_cell|].
  split; [exact H|].
  apply (left_and_right_are_inverse 3 scenario_1 ltac:(lia)
           scenario_1_no_empty_line scenario_1_row scenario_1_on_cell).
  exact H.
Defined.

(** X11. On a layout without empty lines, down and up move one row (no
    further than the last and the first row) and return; the column is kept
    whenever it is at most the length of the destination line, so it may end
    one past that line's last cell, and becomes the last column otherwise.
    Lines, buffer and messages are untouched. *)
Theorem up_and_down_keep_the_column (fuel : nat) (w : World) :
  (3 <= fuel)%nat -> no_empty_line w -> cursor_invariant w ->
  exists wd wu,
    on_key fuel KDown w = Ok (tt, wd) /\
    cursor_y wd = Z.min (cursor_y w + 1) (len (lines w) - 1) /\
    cursor_x wd = (if cursor_x w <=? line_length w (cursor_y wd)
                   then cursor_x w else line_length w (cursor_y wd) - 1) /\
    on_key fuel KUp w = Ok (tt, wu) /\
    cursor_y wu = Z.max (cursor_y w - 1) 0 /\
    cursor_x wu = (if cursor_x w <=? line_length w (cursor_y wu)
                   then cursor_x w else line_length w (cursor_y wu) - 1) /\
    wd = at_cursor (cursor_x wd) (cursor_y wd) w /\
    wu = at_cursor (cursor_x wu) (cursor_y wu) w.
Proof.
  intros Hf Hne Hinv. destruct fuel as [|[|[|f]]]; try lia.
  destruct (cursor_invariant_placed w Hne Hinv) as [Hw H0].
  destruct Hinv as [Hr Hx].
  eexists _, _.
  split; [apply key_down, Hw|]. cursor_simpl.
  assert (Hd : clamp_row w (cursor_y w + 1)
               = Z.min (cursor_y w + 1) (len (lines w) - 1))
    by (unfold clamp_row; cbv zeta; repeat zcase; lia).
  assert (Hu : clamp_row w (cursor_y w - 1) = Z.max (cursor_y w - 1) 0)
    by (unfold clamp_row; cbv zeta; repeat zcase; lia).
  assert (Hcol : forall c, column_on_row w c =
                   if cursor_x w <=? line_length w c
                   then cursor_x w else line_length w c - 1).
  { intros c. unfold column_on_row. rewrite Z.gtb_ltb.
    destruct (Z.ltb_spec (line_length w c) (cursor_x w)),
      (Z.leb_spec (cursor_x w) (line_length w c)); lia || reflexivity. }
  split; [exact Hd|]. split; [rewrite Hd; apply Hcol|].
  split; [apply key_up, Hw|]. cursor_simpl.
  split; [exact Hu|]. split; [rewrite Hu; apply Hcol|].
  split; reflexivity.
Qed.

Lemma up_and_down_keep_the_column_witness :
  (3 <= 3)%nat /\ no_empty_line scenario_1 /\ cursor_invariant scenario_1 /\
  exists wd,
    on_key 3 KDown scenario_1 = Ok (tt, wd) /\
    cursor_y wd = Z.min (cursor_y scenario_1 + 1)
                        (len (lines scenario_1) - 1).
Proof.
  split; [lia|]. split; [exact scenario_1_no_empty_line|].
  split; [exact scenario_1_invariant|].
  destruct (up_and_down_keep_the_column 3 scenario_1 ltac:(lia)
              scenario_1_no_empty_line scenario_1_invariant)
    as (wd & _ & E & Hy & _).
  exists wd. split; [exact E|exact Hy].
Defined.

Lemma row_start_last (ls : list (list N)) (i : nat) (l : list N) :
  ls !! i = Some l -> S i = length ls ->
  Py.sum (map (fun x => len x + 1) (take i ls)) + len l + 1
  = Py.sum (map (fun x => len x + 1) ls).
Proof.
  revert i. induction ls as [|x ls IH]; intros i H Hlast; [discriminate H|].
  destruct i as [|i].
  - injection H as ->. destruct ls; [|cbn in Hlast; lia].
    cbn [take map]. unfold Py.sum. cbn [foldr]. lia.
  - cbn in H. cbn [length] in Hlast.
    specialize (IH i H ltac:(lia)). cbn [take map]. unfold Py.sum in *.
    cbn [foldr]. lia.
Qed.

(** X12. A crash the arrow keys reach on a layout without empty lines: with
    the buffer exactly as long as the layout needs, the cursor on the row
    before the last and at the column equal to the length of the last line,
    the down-arrow puts the cursor one past the last cell of the last line
    and the next printable key raises IndexError (the write is at the index
    equal to the buffer's length). *)
Theorem typing_past_the_last_line_raises (fuel : nat) (w : World)
    (p : PartialString) (c : N) :
  (3 <= fuel)%nat -> no_empty_line w -> cursor_invariant w ->
  heap w !! value w = Some p ->
  Py.sum (map (fun x => len x + 1) (lines w)) = len (_value p) + 1 ->
  cursor_y w + 2 = len (lines w) ->
  cursor_x w = line_length w (cursor_y w + 1) ->
  exists w1,
    on_key fuel KDown w = Ok (tt, w1) /\
    (cursor_x w1, cursor_y w1) = (cursor_x w, cursor_y w + 1) /\
    linear_index w1 = len (_value p) /\
    on_key fuel (KChar c) w1 = Raise IndexError /\
    exec (on_keys fuel [KDown; KChar c]) w = Raise IndexError.
Proof.
  intros Hf Hne Hinv Hp Hfit Hrow Hcol.
  destruct fuel as [|[|[|f]]]; try lia.
  destruct (cursor_invariant_placed w Hne Hinv) as [Hw H0].
  destruct Hinv as [Hr Hx].
  assert (Hc : clamp_row w (cursor_y w + 1) = cursor_y w + 1)
    by (apply clamp_row_id; lia).
  assert (Hr1 : 0 <= cursor_y w + 1 < len (lines w)) by lia.
  destruct (line_at_ok w _ Hr1) as (l & Hl & _ & Hlen).
  pose proof (key_down (S f) w Hw) as Ed.
  rewrite Hc, column_on_row_fixed in Ed by lia.
  set (w1 := at_cursor (cursor_x w) (cursor_y w + 1) w) in *.
  assert (Hidx : linear_index w1 = len (_value p)).
  { unfold linear_index, w1. cursor_simpl. rewrite slice_to_take by lia.
    pose proof (row_start_last _ _ _ Hl
                  ltac:(unfold len in *; lia)) as Hs.
    lia. }
  assert (Et : on_key (S (S (S f))) (KChar c) w1 = Raise IndexError).
  { cbn [on_key]. unfold TextArea.on_printable, bind.
    rewrite (replace_char_at_cursor_raises w1 (Some c) p Hp); [reflexivity|].
    rewrite Hidx. apply index_outside; [left; lia|apply len_nonneg]. }
  exists w1. split; [exact Ed|]. split; [reflexivity|].
  split; [exact Hidx|]. split; [exact Et|].
  unfold exec, on_keys. cbn [for_each]. unfold bind at 1. rewrite Ed.
  unfold bind. rewrite Et. reflexivity.
Qed.

Lemma shorter_last_line_reached :
  exists w0,
    laid_out (str_of "abcd" ++ [LF] ++ str_of "abc") 100 = Ok w0 /\
    exec (on_keys 3 [KRight; KRight; KRight]) w0 = Ok shorter_last_line.
Proof. eexists. split; vm_compute; reflexivity. Qed.

Lemma shorter_last_line_no_empty_line : no_empty_line shorter_last_line.
Proof. repeat constructor. Qed.

Lemma shorter_last_line_invariant : cursor_invariant shorter_last_line.
Proof.
  split; split; try (apply Z.leb_le; reflexivity).
  apply Z.ltb_lt. reflexivity.
Qed.

Lemma typing_past_the_last_line_raises_witness :
  (3 <= 3)%nat /\ no_empty_line shorter_last_line /\
  cursor_invariant shorter_last_line /\
  heap shorter_last_line !! value shorter_last_line
    = Some (PartialString.init 8) /\
  Py.sum (map (fun x => len x + 1) (lines shorter_last_line))
    = len (_value (PartialString.init 8)) + 1 /\
  cursor_y shorter_last_line + 2 = len (lines shorter_last_line) /\
  cursor_x shorter_last_line
    = line_length shorter_last_line (cursor_y shorter_last_line + 1) /\
  exec (on_keys 3 [KDown; KChar 88%N]) shorter_last_line = Raise IndexError.
Proof.
  split; [lia|]. split; [exact shorter_last_line_no_empty_line|].
  split; [exact shorter_last_line_invariant|].
  split; [reflexivity|]. split; [reflexivity|]. split; [reflexivity|].
  split; [reflexivity|].
  destruct (typing_past_the_last_line_raises 3 shorter_last_line
              (PartialString.init 8) 88%N ltac:(lia)
              shorter_last_line_no_empty_line shorter_last_line_invariant
              eq_refl eq_refl eq_refl eq_refl)
    as (w1 & _ & _ & _ & _ & E).
  exact E.
Defined.

(** X13. The up-arrow towards an empty line with the cursor at a column
    above 0 never returns: [validate_cursor_y] assigns [cursor_x = -1],
    [validate_cursor_x] answers by assigning the same row again, and so on in
    an unchanged state; whatever the recursion limit, the key press ends in
    RecursionError. *)
Theorem up_onto_empty_line_recurses (fuel : nat) (w : World) :
  0 <= cursor_y w - 1 < len (lines w) ->
  lines w !! Z.to_nat (cursor_y w - 1) = Some [] ->
  0 < cursor_x w ->
  on_key fuel KUp w = Raise RecursionError.
Proof.
  intros Hr Hl Hx.
  assert (Hline : TextArea.line_at (cursor_y w - 1) w = Ok ([], w)).
  { unfold TextArea.line_at. rewrite bind_gets. unfold lift.
    rewrite (getitem_in_range _ _ []) by (lia || exact Hl). reflexivity. }
  assert (Hy : forall sx, sx (-1) w = Raise RecursionError ->
             TextArea.validate_cursor_y sx (cursor_y w - 1) w
             = Raise RecursionError).
  { intros sx H. unfold TextArea.validate_cursor_y. cbv zeta.
    rewrite bind_gets.
    destruct (Z.ltb_spec (cursor_y w - 1) 0); [lia|].
    rewrite Z.geb_leb.
    destruct (Z.leb_spec (len (lines w)) (cursor_y w - 1)); [lia|].
    rewrite (bind_ok _ _ _ _ _ Hline), !bind_gets.
    change (len []) with 0. rewrite Z.gtb_ltb.
    destruct (Z.ltb_spec 0 (cursor_x w)); [|lia].
    unfold bind. change (0 - 1) with (-1). rewrite H. reflexivity. }
  assert (Hxv : forall sy, sy (cursor_y w - 1) w = Raise RecursionError ->
             TextArea.validate_cursor_x sy (-1) w = Raise RecursionError).
  { intros sy H. unfold TextArea.validate_cursor_x.
    change (-1 <? 0) with true. cbv iota.
    rewrite bind_assoc, bind_gets, bind_assoc. unfold bind at 1.
    rewrite H. reflexivity. }
  assert (H : TextArea.set_cursor_y fuel (cursor_y w - 1) w
              = Raise RecursionError /\
              TextArea.set_cursor_x fuel (-1) w = Raise RecursionError).
  { induction fuel as [|f [IHy IHx]]; [split; reflexivity|].
    split.
    - cbn [TextArea.set_cursor_y]. unfold TextArea.reactive_set.
      rewrite bind_gets. unfold bind. rewrite (Hy _ IHx). reflexivity.
    - cbn [TextArea.set_cursor_x]. unfold TextArea.reactive_set.
      rewrite bind_gets. unfold bind. rewrite (Hxv _ IHy). reflexivity. }
  cbn [on_key]. unfold TextArea.action_cursor_up. rewrite bind_gets.
  apply H.
Qed.

Lemma up_onto_empty_line_recurses_witness :
  0 <= cursor_y below_empty_line - 1 < len (lines below_empty_line) /\
  lines below_empty_line !! Z.to_nat (cursor_y below_empty_line - 1)
    = Some [] /\
  0 < cursor_x below_empty_line /\
  (exists w0,
     laid_out ([LF] ++ str_of "abcd") 100 = Ok w0 /\
     exec (on_keys 3 [KDown; KRight; KRight; KRight]) w0
       = Ok below_empty_line) /\
  on_key 1000 KUp below_empty_line = Raise RecursionError.
Proof.
  assert (H1 : 0 <= cursor_y below_empty_line - 1
               < len (lines below_empty_line))
    by (split; [apply Z.leb_le|apply Z.ltb_lt]; reflexivity).
  assert (H3 : 0 < cursor_x below_empty_line) by (apply Z.ltb_lt; reflexivity).
  split; [exact H1|]. split; [reflexivity|]. split; [exact H3|].
  split; [eexists; split; vm_compute; reflexivity|].
  exact (up_onto_empty_line_recurses 1000 below_empty_line H1 eq_refl H3).
Defined.

(** ** Editing along the lines *)

Lemma replace_on_cell (w : World) (char : option N) :
  on_cell w ->
  exists w' p,
    TextArea.replace_char_at_cursor char w = Ok (tt, w') /\
    heap w !! value w = Some p /\
    buffer w' = Some (<[Z.to_nat (linear_index w) := char]> (_value p)) /\
    on_cell w' /\
    lines w' = lines w /\ value w' = value w /\
    (cursor_x w', cursor_y w') = (cursor_x w, cursor_y w) /\
    length (posted w') = S (length (posted w)).
Proof.
  intros (Hne & Hr & Hx & p & Hp & Hfit).
  pose proof (linear_index_in_buffer w p Hr Hfit Hx) as Hi.
  pose proof (lookup_lt_Some _ _ _ Hp) as Hlt.
  eexists _, p.
  split; [exact (replace_char_at_cursor_ok w char p _ Hp
                   (index_in_range _ _ Hi))|].
  split; [exact Hp|].
  assert (Hb : forall q, <[value w := q]> (heap w ++ [p]) !! value w = Some q)
    by (intros q; apply list_lookup_insert_eq; rewrite length_app; lia).
  split; [unfold buffer; cbn [value with_posted with_heap heap];
          rewrite Hb; reflexivity|].
  split.
  { split; [exact Hne|]. split; [exact Hr|]. split; [exact Hx|].
    eexists. cbn [value with_posted with_heap heap].
    split; [apply Hb|].
    unfold layout_fits in *. cbn [lines with_posted with_heap _value].
    unfold len in *. rewrite length_insert. exact Hfit. }
  cbn [lines value cursor_x cursor_y posted with_posted with_heap].
  split; [reflexivity|]. split; [reflexivity|]. split; [reflexivity|].
  rewrite length_app. cbn [length]. lia.
Qed.

Lemma on_cell_placed (w : World) : on_cell w -> well_placed w.
Proof.
  intros (Hne & Hr & Hx & _). split; [exact Hne|]. split; [exact Hr|lia].
Qed.

Lemma move_on_cell (w : World) (x : Z) :
  on_cell w ->
  on_cell (move_column w x) /\
  lines (move_column w x) = lines w /\
  value (move_column w x) = value w /\
  heap (move_column w x) = heap w /\
  posted (move_column w x) = posted w.
Proof.
  intros Hc. pose proof (on_cell_placed w Hc) as Hw.
  destruct (move_column_placed w x Hw) as ((Hne & Hr & _) & H0 & Hlt).
  destruct Hc as (_ & _ & _ & p & Hp & Hfit).
  split; [|repeat split].
  split; [exact Hne|]. split; [exact Hr|].
  split; [split; [exact H0|exact Hlt]|].
  exists p. split; [exact Hp|exact Hfit].
Qed.

Lemma horizontal_step (f : nat) (k : Key) (w : World) :
  horizontal k = true -> on_cell w ->
  exists w',
    on_key (S (S (S f))) k w = Ok (tt, w') /\
    on_cell w' /\ lines w' = lines w /\ value w' = value w /\
    length <$> buffer w' = length <$> buffer w /\
    length (posted w') =
      (length (posted w) + (if is_edit k then 1 else 0))%nat.
Proof.
  intros Hk Hc. pose proof (on_cell_placed w Hc) as Hw.
  destruct k; try discriminate Hk; cbn [is_edit].
  - (* left *)
    rewrite key_left by exact Hw. eexists. split; [reflexivity|].
    destruct (move_on_cell w (cursor_x w - 1) Hc) as (H1 & H2 & H3 & H4 & H5).
    split; [exact H1|]. split; [exact H2|]. split; [exact H3|].
    split; [unfold buffer; rewrite H3, H4; reflexivity|]. rewrite H5. lia.
  - (* right *)
    rewrite key_right by exact Hw. eexists. split; [reflexivity|].
    destruct (move_on_cell w (cursor_x w + 1) Hc) as (H1 & H2 & H3 & H4 & H5).
    split; [exact H1|]. split; [exact H2|]. split; [exact H3|].
    split; [unfold buffer; rewrite H3, H4; reflexivity|]. rewrite H5. lia.
  - (* backspace: move, then clear *)
    destruct (move_on_cell w (cursor_x w - 1) Hc) as (H1 & H2 & H3 & H4 & H5).
    destruct (replace_on_cell _ None H1)
      as (w' & p & E & Hp & Hb & Hc' & Hl & Hv & _ & Hposted).
    exists w'. cbn [on_key]. unfold TextArea.action_delete_left.
    rewrite bind_gets. unfold bind at 1.
    rewrite set_cursor_x_ok by exact Hw.
    split; [exact E|]. split; [exact Hc'|]. split; [congruence|].
    split; [congruence|]. split.
    + rewrite Hb. unfold buffer. rewrite <- H3, <- H4, Hp. cbn.
      rewrite length_insert. reflexivity.
    + rewrite Hposted, H5. lia.
  - (* delete: move, then clear *)
    destruct (move_on_cell w (cursor_x w + 1) Hc) as (H1 & H2 & H3 & H4 & H5).
    destruct (replace_on_cell _ None H1)
      as (w' & p & E & Hp & Hb & Hc' & Hl & Hv & _ & Hposted).
    exists w'. cbn [on_key]. unfold TextArea.action_delete_right.
    rewrite bind_gets. unfold bind at 1.
    rewrite set_cursor_x_ok by exact Hw.
    split; [exact E|]. split; [exact Hc'|]. split; [congruence|].
    split; [congruence|]. split.
    + rewrite Hb. unfold buffer. rewrite <- H3, <- H4, Hp. cbn.
      rewrite length_insert. reflexivity.
    + rewrite Hposted, H5. lia.
  - (* a printable key: write, then move *)
    destruct (replace_on_cell w (Some c) Hc)
      as (w1 & p & E & Hp & Hb & Hc1 & Hl & Hv & Hcur & Hposted).
    destruct (move_on_cell w1 (cursor_x w1 + 1) Hc1)
      as (H1 & H2 & H3 & H4 & H5).
    eexists. cbn [on_key]. unfold TextArea.on_printable.
    unfold bind at 1. rewrite E. rewrite bind_gets.
    rewrite set_cursor_x_ok by (apply on_cell_placed, Hc1).
    split; [reflexivity|]. split; [exact H1|]. split; [congruence|].
    split; [congruence|]. split.
    + unfold buffer at 1. rewrite H3, H4. fold (buffer w1). rewrite Hb.
      unfold buffer. rewrite Hp. cbn. rewrite length_insert. reflexivity.
    + rewrite H5, Hposted. lia.
Qed.

(** X14. Starting with the cursor on a cell of a layout without empty lines
    that the buffer covers, no sequence of left, right, backspace, delete and
    printable keys raises; the cursor stays on a cell, the lines and the
    number of cells of the buffer do not change, and exactly one message is
    posted per backspace, delete or printable key. *)
Theorem horizontal_editing_never_raises (fuel : nat) (ks : list Key)
    (w : World) :
  (3 <= fuel)%nat -> forallb horizontal ks = true -> on_cell w ->
  exists w',
    exec (on_keys fuel ks) w = Ok w' /\
    on_cell w' /\ lines w' = lines w /\ value w' = value w /\
    length <$> buffer w' = length <$> buffer w /\
    length (posted w') = (length (posted w) + length (filter is_edit ks))%nat.
Proof.
  intros Hf Hks Hc. destruct fuel as [|[|[|f]]]; try lia. clear Hf.
  revert w Hc. induction ks as [|k ks IH]; intros w Hc.
  - exists w. split; [reflexivity|]. split; [exact Hc|].
    split; [reflexivity|]. split; [reflexivity|]. split; [reflexivity|].
    rewrite filter_nil. cbn [length]. lia.
  - cbn [forallb] in Hks. apply andb_prop in Hks as [Hk Hks].
    destruct (horizontal_step f k w Hk Hc)
      as (w1 & E & Hc1 & Hl1 & Hv1 & Hb1 & Hp1).
    destruct (IH Hks w1 Hc1) as (w' & E' & Hc' & Hl' & Hv' & Hb' & Hp').
    exists w'. split.
    { unfold on_keys, exec in *. cbn [for_each]. unfold bind. rewrite E.
      exact E'. }
    split; [exact Hc'|]. split; [congruence|]. split; [congruence|].
    split; [congruence|].
    rewrite Hp', Hp1. rewrite filter_cons. destruct (is_edit k).
    + rewrite decide_True by exact I. cbn [length]. lia.
    + rewrite decide_False by (intros []). lia.
Qed.

Lemma scenario_1_editable : on_cell scenario_1.
Proof.
  split; [exact scenario_1_no_empty_line|]. split; [exact scenario_1_row|].
  split; [exact scenario_1_on_cell|].
  exists (PartialString.init 15). split; [reflexivity|exact scenario_1_fits].
Qed.

Lemma horizontal_editing_never_raises_witness :
  (3 <= 3)%nat /\
  forallb horizontal [KChar 88%N; KBackspace; KRight; KDelete] = true /\
  on_cell scenario_1 /\
  exists w',
    exec (on_keys 3 [KChar 88%N; KBackspace; KRight; KDelete]) scenario_1
      = Ok w' /\
    length (posted w') = (length (posted scenario_1) + 3)%nat.
Proof.
  split; [lia|]. split; [reflexivity|]. split; [exact scenario_1_editable|].
  destruct (horizontal_editing_never_raises 3
              [KChar 88%N; KBackspace; KRight; KDelete] scenario_1
              ltac:(lia) eq_refl scenario_1_editable)
    as (w' & E & _ & _ & _ & _ & Hp).
  exists w'. split; [exact E|exact Hp].
Defined.

(** X15. On a layout without empty lines, with a buffer that has a cell
    for every column of the layout and for the terminator between two lines,
    and with the cursor on a cell (a row of the layout and a column of that
    row's line), a printable key writes the character into the cell at the
    cursor's linear index and then moves the cursor: to the next column when
    there is one, to column 0 of the next row at the end of a line that is
    not the last, and not at all on the last cell of the last line (further
    typing overwrites that cell). *)
Theorem typing_writes_then_advances (fuel : nat) (w : World) (c : N) :
  (3 <= fuel)%nat -> on_cell w ->
  exists w' p,
    on_key fuel (KChar c) w = Ok (tt, w') /\
    heap w !! value w = Some p /\
    buffer w' = Some (<[Z.to_nat (linear_index w) := Some c]> (_value p)) /\
    (cursor_x w', cursor_y w') =
      (if cursor_x w + 1 <? line_length w (cursor_y w)
       then (cursor_x w + 1, cursor_y w)
       else if cursor_y w + 1 =? len (lines w)
            then (cursor_x w, cursor_y w)
            else (0, cursor_y w + 1)).
Proof.
  intros Hf Hc. destruct fuel as [|[|[|f]]]; try lia.
  destruct (replace_on_cell w (Some c) Hc)
    as (w1 & p & E & Hp & Hb & Hc1 & Hl & Hv & Hcur & _).
  injection Hcur as Hcx Hcy.
  destruct Hc as (_ & _ & Hx & _).
  eexists _, p. cbn [on_key]. unfold TextArea.on_printable.
  split.
  { unfold bind at 1. rewrite E. rewrite bind_gets.
    apply set_cursor_x_ok, on_cell_placed, Hc1. }
  split; [exact Hp|].
  split.
  { rewrite <- Hb. unfold buffer, move_column. reflexivity. }
  rewrite move_column_cases.
  assert (HL : line_length w1 (cursor_y w1) = line_length w (cursor_y w))
    by (unfold line_length; rewrite Hl, Hcy; reflexivity).
  rewrite HL, Hl, Hcx, Hcy.
  destruct (Z.ltb_spec (cursor_x w + 1) 0); [lia|].
  destruct (Z.ltb_spec (cursor_x w + 1) (line_length w (cursor_y w))).
  - destruct (cursor_y w + 1 =? len (lines w)); reflexivity.
  - destruct (Z.eqb_spec (cursor_y w + 1) (len (lines w))); [|reflexivity].
    destruct (Z.eqb_spec (cursor_x w + 1) (line_length w (cursor_y w)));
      [|lia].
    cursor_simpl. f_equal. lia.
Qed.

Lemma typing_writes_then_advances_witness :
  (3 <= 3)%nat /\ on_cell scenario_1 /\
  exists w',
    on_key 3 (KChar 88%N) scenario_1 = Ok (tt, w') /\
    buffer w' = Some (<[0%nat := Some 88%N]> (replicate 15 None)) /\
    (cursor_x w', cursor_y w') = (1, 0).
Proof.
  split; [lia|]. split; [exact scenario_1_editable|].
  destruct (typing_writes_then_advances 3 scenario_1 88%N ltac:(lia)
              scenario_1_editable) as (w' & p & E & Hp & Hb & Hcur).
  exists w'. split; [exact E|].
  assert (p = PartialString.init 15) as -> by (cbn in Hp; congruence).
  split; [exact Hb|exact Hcur].
Defined.

(** X16. What [replace_char_at_cursor] does when the cursor's linear index
    [i] is not a cell position of a buffer of [n] cells: for [i >= n] or
    [i < -n] it raises IndexError; for [-n <= i < 0] it returns, having
    written cell [n + i], counted from the end of the buffer, and posted its
    message. *)
Theorem edit_outside_the_buffer (w : World) (char : option N)
    (p : PartialString) :
  heap w !! value w = Some p ->
  let n := len (_value p) in
  (n <= linear_index w \/ linear_index w < - n ->
   TextArea.replace_char_at_cursor char w = Raise IndexError) /\
  (- n <= linear_index w < 0 ->
   exists w',
     TextArea.replace_char_at_cursor char w = Ok (tt, w') /\
     buffer w' = Some (<[Z.to_nat (n + linear_index w) := char]> (_value p)) /\
     length (posted w') = S (length (posted w))).
Proof.
  intros Hp n. pose proof (lookup_lt_Some _ _ _ Hp) as Hlt. split.
  - intros H. apply (replace_char_at_cursor_raises w char p Hp).
    apply index_outside; [exact H|apply len_nonneg].
  - intros H. eexists.
    split; [exact (replace_char_at_cursor_ok w char p _ Hp
                     (index_negative _ _ H))|].
    split.
    + unfold buffer. cbn [value with_posted with_heap heap].
      rewrite list_lookup_insert_eq by (rewrite length_app; lia).
      reflexivity.
    + cbn [posted with_posted]. rewrite length_app. cbn [length]. lia.
Qed.

Lemma edit_outside_the_buffer_witness :
  let w := at_cursor (-1) 0 scenario_1 in
  heap w !! value w = Some (PartialString.init 15) /\
  - len (_value (PartialString.init 15)) <= linear_index w < 0 /\
  exists w',
    TextArea.replace_char_at_cursor (Some 88%N) w = Ok (tt, w') /\
    buffer w' = Some (<[14%nat := Some 88%N]> (replicate 15 None)).
Proof.
  intros w.
  assert (H : - len (_value (PartialString.init 15)) <= linear_index w < 0)
    by (split; [apply Z.leb_le|apply Z.ltb_lt]; reflexivity).
  split; [reflexivity|]. split; [exact H|].
  destruct (edit_outside_the_buffer w (Some 88%N) (PartialString.init 15)
              eq_refl) as [_ Hneg].
  destruct (Hneg H) as (w' & E & Hb & _).
  exists w'. split; [exact E|exact Hb].
Defined.

(** ** The buffer a new widget gets and the layout of its text *)

Lemma join_length (ls : list (list N)) :
  ls <> [] ->
  len (Py.join [LF] ls) + 1 = Py.sum (map (fun x => len x + 1) ls).
Proof.
  induction ls as [|x ls IH]; [congruence|]. intros _.
  destruct ls as [|y ls].
  - cbn [Py.join map]. unfold Py.sum. cbn [foldr]. lia.
  - rewrite join_cons by discriminate.
    specialize (IH ltac:(discriminate)).
    change (map (fun x => len x + 1) (x :: y :: ls))
      with ((len x + 1) :: map (fun x => len x + 1) (y :: ls)).
    unfold Py.sum in *. cbn [foldr].
    unfold len in *. rewrite !length_app. cbn [length] in *. lia.
Qed.

(** X17. For a non-empty text whose only line boundary is the line feed, laid
    out at a width that chunks no line, the buffer of a widget composed
    without a callback has one cell per character of the text and covers the
    layout: the line lengths plus one terminator per line add up to the
    buffer's length plus one (or to its length, when the text ends with a
    line feed). When no raw line is empty the cursor starts on a cell. *)
Theorem new_widget_buffer_covers_layout (t : list N) (width : Z) :
  0 < width -> t <> [] -> only_LF t ->
  Forall (fun x : list N => len x < width * 2) (Py.splitlines t) ->
  exists w,
    laid_out t width = Ok w /\
    buffer w = Some (replicate (length t) None) /\
    Py.sum (map (fun x => len x + 1) (lines w))
      = len t + 1 - (if ends_with_LF t then 1 else 0) /\
    layout_fits w (PartialString.init (len t)) /\
    ([] ∉ Py.splitlines t -> on_cell w).
Proof.
  intros Hw Ht Hlf Hshort.
  pose proof (update_lines_ok width (CribDragger.compose t None) Hw) as E0.
  cbv zeta in E0. cbn [lines text CribDragger.compose app] in E0.
  rewrite wrap_without_chunking in E0 by exact Hshort.
  pose proof (splitlines_from_nonempty [] t (or_intror Ht)) as Hne.
  fold (Py.splitlines t) in Hne.
  destruct (Py.splitlines t) as [|l ls] eqn:E; [congruence|].
  cbn [map Py.max] in E0. eexists.
  split; [unfold laid_out, exec; rewrite E0; reflexivity|].
  assert (Hbuf : replicate (Z.to_nat (len t)) (None : option N)
                 = replicate (length t) None)
    by (unfold len; rewrite Nat2Z.id; reflexivity).
  assert (Hsum : Py.sum (map (fun x => len x + 1) (l :: ls))
                 = len t + 1 - (if ends_with_LF t then 1 else 0)).
  { rewrite <- join_length by discriminate.
    pose proof (join_splitlines t Hlf) as Hj. rewrite E in Hj.
    apply (f_equal len) in Hj. unfold len in *.
    rewrite length_app in Hj. destruct (ends_with_LF t); cbn [length] in Hj;
      lia. }
  assert (Hfit : Py.sum (map (fun x => len x + 1) (l :: ls))
                 <= len (_value (PartialString.init (len t))) + 1).
  { rewrite Hsum. cbn [PartialString.init _value]. rewrite Hbuf.
    unfold len. rewrite length_replicate.
    destruct (ends_with_LF t); lia. }
  split; [unfold buffer; cbn; rewrite Hbuf; reflexivity|].
  split; [exact Hsum|]. split; [exact Hfit|].
  intros Hnoempty.
  assert (Hall : Forall (fun x : list N => 0 < len x) (l :: ls)).
  { apply Forall_forall. intros x Hx. destruct x as [|c x].
    - contradiction.
    - unfold len. cbn [length]. lia. }
  split; [exact Hall|]. split; [unfold row_in_text, len; cbn; lia|].
  split.
  - inversion Hall as [|? ? Hl0 _]; subst.
    unfold line_length. cbn. split; [lia|exact Hl0].
  - eexists. split; [reflexivity|exact Hfit].
Qed.

Lemma new_widget_buffer_covers_layout_witness :
  0 < 100 /\ main_text <> [] /\ only_LF main_text /\
  Forall (fun x : list N => len x < 100 * 2) (Py.splitlines main_text) /\
  exists w,
    laid_out main_text 100 = Ok w /\
    buffer w = Some (replicate (length main_text) None) /\
    layout_fits w (PartialString.init (len main_text)).
Proof.
  assert (H : Forall (fun x : list N => len x < 100 * 2)
                (Py.splitlines main_text))
    by (vm_compute; repeat constructor).
  split; [lia|]. split; [discriminate|]. split; [exact main_text_only_LF|].
  split; [exact H|].
  destruct (new_widget_buffer_covers_layout main_text 100 ltac:(lia)
              ltac:(discriminate) main_text_only_LF H)
    as (w & E & Hb & _ & Hfit & _).
  exists w. split; [exact E|]. split; [exact Hb|exact Hfit].
Defined.

(** ** Clicks *)

Lemma click_scan_spec (cell_size : N -> Z) (click_x : Z) (s : list N)
    (cell_offset index : Z) :
  match TextArea.click_scan cell_size click_x cell_offset index s with
  | Some r =>
      exists i : nat,
        r = index + Z.of_nat i /\ (i < length s)%nat /\
        click_x <= cell_offset + Py.sum (map cell_size (take i s)) /\
        forall j : nat, (j < i)%nat ->
          cell_offset + Py.sum (map cell_size (take j s)) < click_x
  | None =>
      forall j : nat, (j < length s)%nat ->
        cell_offset + Py.sum (map cell_size (take j s)) < click_x
  end.
Proof.
  revert cell_offset index. induction s as [|c s IH]; intros off idx.
  - cbn. intros j Hj. lia.
  - cbn [TextArea.click_scan]. rewrite Z.geb_leb.
    destruct (Z.leb_spec click_x off) as [Hge|Hlt].
    + exists 0%nat. cbn [take map length]. unfold Py.sum. cbn [foldr].
      split; [lia|]. split; [lia|]. split; [lia|]. intros j Hj. lia.
    + specialize (IH (off + cell_size c) (idx + 1)).
      destruct (TextArea.click_scan cell_size click_x (off + cell_size c)
                  (idx + 1) s) as [r|].
      * destruct IH as (i & -> & Hi & Hw & Hbefore).
        exists (S i). cbn [take map length]. unfold Py.sum in *.
        cbn [foldr]. split; [lia|]. split; [lia|]. split; [lia|].
        intros [|j] Hj; cbn [take map foldr]; [lia|].
        specialize (Hbefore j ltac:(lia)). lia.
      * intros [|j] Hj; cbn [take map]; unfold Py.sum in *; cbn [foldr];
          [lia|].
        cbn [length] in Hj. specialize (IH j ltac:(lia)). lia.
Qed.

(** X18. The column scan of a click: over the display of the buffer, the
    loop breaks at the first index whose preceding characters have a total
    cell width of at least [click_x]; when no index of the display has, it
    runs to the end (and the click falls back to the buffer's [length]). *)
Theorem click_scan_first_index (cell_size : N -> Z) (click_x : Z)
    (s : list N) :
  match TextArea.click_scan cell_size click_x 0 0 s with
  | Some r =>
      exists i : nat,
        r = Z.of_nat i /\ (i < length s)%nat /\
        click_x <= Py.sum (map cell_size (take i s)) /\
        forall j : nat, (j < i)%nat ->
          Py.sum (map cell_size (take j s)) < click_x
  | None =>
      forall j : nat, (j < length s)%nat ->
        Py.sum (map cell_size (take j s)) < click_x
  end.
Proof.
  pose proof (click_scan_spec cell_size click_x s 0 0) as H.
  destruct (TextArea.click_scan cell_size click_x 0 0 s) as [r|].
  - destruct H as (i & -> & Hi & Hw & Hb). exists i.
    split; [lia|]. split; [exact Hi|]. split; [lia|].
    intros j Hj. specialize (Hb j Hj). lia.
  - intros j Hj. specialize (H j Hj). lia.
Qed.

(** X19. On a layout without empty lines, a click never raises, whatever
    its coordinates, the scroll offset and the cell widths. A click without
    content offset, or not on the editable sub-row of a line (content row
    not 1 modulo 3), changes nothing; any other click leaves the cursor on a
    cell of the layout. Lines, buffer and messages are untouched. *)
Theorem click_lands_on_a_cell (fuel : nat) (cell_size : N -> Z)
    (scroll_offset : Z * Z) (offset : option (Z * Z)) (w : World)
    (p : PartialString) :
  (3 <= fuel)%nat -> no_empty_line w -> cursor_invariant w ->
  heap w !! value w = Some p ->
  exists w',
    TextArea.on_click fuel cell_size scroll_offset offset w = Ok (tt, w') /\
    (lines w', heap w', value w', posted w')
      = (lines w, heap w, value w, posted w) /\
    match offset with
    | None => w' = w
    | Some o =>
        if (snd o + snd scroll_offset) mod 3 =? 1 then
          row_in_text w' /\
          0 <= cursor_x w' < line_length w' (cursor_y w')
        else w' = w
    end.
Proof.
  intros Hf Hne Hinv Hp. destruct fuel as [|[|[|f]]]; try lia.
  destruct (cursor_invariant_placed w Hne Hinv) as [Hw H0].
  destruct offset as [o|]; [|exists w; repeat split].
  unfold TextArea.on_click. cbv zeta.
  change TextArea.NUM_LINES with 3.
  destruct ((snd o + snd scroll_offset) mod 3 =? 1);
    [|exists w; repeat split].
  cbn [negb].
  destruct (set_row_placed w ((snd o + snd scroll_offset) / 3) Hw)
    as [Hw1 _].
  set (w1 := at_cursor _ (clamp_row w ((snd o + snd scroll_offset) / 3)) w)
    in *.
  unfold bind at 1. rewrite (set_cursor_y_ok (S f) w _ Hw). fold w1.
  rewrite !bind_gets.
  change (heap w1 !! value w1) with (heap w !! value w). rewrite Hp.
  assert (Hx : forall x,
    exists w', TextArea.set_cursor_x (S (S (S f))) x w1 = Ok (tt, w') /\
      (lines w', heap w', value w', posted w')
        = (lines w, heap w, value w, posted w) /\
      row_in_text w' /\ 0 <= cursor_x w' < line_length w' (cursor_y w')).
  { intros x. exists (move_column w1 x).
    split; [apply set_cursor_x_ok, Hw1|]. split; [reflexivity|].
    destruct (move_column_placed w1 x Hw1) as ((_ & Hr & _) & Ha & Hb).
    split; [exact Hr|]. split; [exact Ha|exact Hb]. }
  destruct (TextArea.click_scan _ _ _ _ _) as [index|]; apply Hx.
Qed.

Lemma click_lands_on_a_cell_witness :
  (3 <= 3)%nat /\ no_empty_line scenario_1 /\ cursor_invariant scenario_1 /\
  heap scenario_1 !! value scenario_1 = Some (PartialString.init 15) /\
  exists w',
    TextArea.on_click 3 (fun _ => 1) (0, 0) (Some (2, 4)) scenario_1
      = Ok (tt, w') /\
    (cursor_x w', cursor_y w') = (2, 1).
Proof.
  split; [lia|]. split; [exact scenario_1_no_empty_line|].
  split; [exact scenario_1_invariant|]. split; [reflexivity|].
  destruct (click_lands_on_a_cell 3 (fun _ => 1) (0, 0) (Some (2, 4))
              scenario_1 (PartialString.init 15) ltac:(lia)
              scenario_1_no_empty_line scenario_1_invariant eq_refl)
    as (w' & E & _ & _).
  exists w'. split; [exact E|].
  vm_compute in E. injection E as <-. reflexivity.
Defined.

(** ** The callback bridge *)

Lemma handlers_with_callback (f : Callback) (msgs : list Changed) (w : World) :
  exists w',
    for_each msgs (CribDragger.on_text_area_changed (Some f)) w = Ok (tt, w') /\
    callback_log w' =
      callback_log w ++ map (fun e => (previous e, current e)) msgs /\
    (posted w', lines w', cursor_x w', cursor_y w', text w')
      = (posted w, lines w, cursor_x w, cursor_y w, text w) /\
    (forall msgs0 e, msgs = msgs0 ++ [e] ->
       exists h, (heap w', value w') = changed f h (previous e) (current e)).
Proof.
  revert w. induction msgs as [|e msgs IH]; intros w.
  - exists w. split; [reflexivity|].
    split; [symmetry; apply app_nil_r|].
    split; [reflexivity|].
    intros msgs0 e H. destruct msgs0; discriminate H.
  - cbn [for_each]. unfold bind at 1.
    unfold CribDragger.on_text_area_changed at 1.
    rewrite bind_gets. unfold bind at 1 2. unfold modify at 1 2 3.
    cbv zeta.
    match goal with
    | |- context [for_each msgs _ ?w0] => set (w1 := w0)
    end.
    destruct (IH w1) as (w' & E & Hlog & Hframe & Hlast).
    exists w'. split; [exact E|].
    split; [rewrite Hlog; subst w1; cbn [callback_log with_value with_heap
              with_callback_log map]; rewrite <- app_assoc; reflexivity|].
    split; [rewrite Hframe; reflexivity|].
    intros msgs0 e' H. destruct msgs0 as [|e0 msgs0].
    + cbn [app] in H. injection H as <- ->.
      cbn [for_each] in E. injection E as <-.
      exists (heap w). subst w1.
      cbn [heap value with_value with_heap with_callback_log].
      destruct (changed f (heap w) (previous e) (current e)); reflexivity.
    + cbn [app] in H. injection H as _ ->. eapply Hlast. reflexivity.
Qed.

(** X20. The message pump with a callback supplied returns, empties the
    queue and calls the callback exactly once per posted message, in posting
    order, with that message's [previous] and [current]; the buffer on
    display afterwards is the one the last call returned; the cursor and the
    lines are untouched. Without a callback the pump only empties the queue:
    the buffer on display stays the one that was edited. *)
Theorem dispatch_calls_back_in_order (f : Callback) (w : World) :
  (exists w',
     CribDragger.dispatch (Some f) w = Ok (tt, w') /\
     callback_log w' =
       callback_log w ++ map (fun e => (previous e, current e)) (posted w) /\
     posted w' = [] /\
     (lines w', cursor_x w', cursor_y w') = (lines w, cursor_x w, cursor_y w) /\
     (forall msgs e, posted w = msgs ++ [e] ->
        exists h, (heap w', value w') = changed f h (previous e) (current e))) /\
  CribDragger.dispatch None w = Ok (tt, with_posted [] w).
Proof.
  split.
  - unfold CribDragger.dispatch. rewrite bind_gets. unfold bind at 1.
    unfold modify at 1.
    destruct (handlers_with_callback f (posted w) (with_posted [] w))
      as (w' & E & Hlog & Hframe & Hlast).
    exists w'. split; [exact E|]. split; [exact Hlog|].
    injection Hframe as Hp Hl Hx Hy _.
    split; [exact Hp|]. split; [congruence|exact Hlast].
  - unfold CribDragger.dispatch. rewrite bind_gets. unfold bind at 1.
    unfold modify at 1. generalize (with_posted [] w) as w0.
    induction (posted w) as [|e msgs IH]; intros w0; [reflexivity|].
    cbn [for_each]. unfold bind at 1. cbn [CribDragger.on_text_area_changed].
    unfold ret at 1. apply IH.
Qed.

(** ** Scrolling after the cursor *)

(** X21. [watch_cursor] asks for no scrolling while the cursor is strictly
    inside the viewport less its two-cell margin. Otherwise: a cursor at or
    left of the scroll offset scrolls all the way to column 0, and a cursor
    at or beyond the right margin scrolls right by half the width; a cursor
    row at or above the offset scrolls up by half the height, and one at or
    below the bottom margin scrolls down by half the height. *)
Theorem watch_cursor_scrolls (scroll_x scroll_y width height : Z)
    (w : World) :
  let x := cursor_x w in
  let y := cursor_y w * 3 + 1 in
  let target :=
    TextArea.watch_cursor (scroll_x, scroll_y) (width, height) w in
  (scroll_x < x < scroll_x + width - 2 -> fst target = scroll_x) /\
  (x <= scroll_x -> fst target = 0) /\
  (scroll_x < x -> scroll_x + width - 2 <= x ->
   fst target = scroll_x + width / 2) /\
  (scroll_y < y < scroll_y + height - 2 -> snd target = scroll_y) /\
  (y <= scroll_y -> snd target = scroll_y - height / 2) /\
  (scroll_y < y -> scroll_y + height - 2 <= y ->
   snd target = scroll_y + height / 2).
Proof.
  cbv zeta. unfold TextArea.watch_cursor, TextArea._cursor_point.
  change TextArea.NUM_LINES with 3. cbn [fst snd].
  rewrite !Z.geb_leb.
  destruct (Z.leb_spec (scroll_x + width - 2) (cursor_x w)),
    (Z.leb_spec (cursor_x w) scroll_x),
    (Z.leb_spec (cursor_y w * 3 + 1) scroll_y),
    (Z.leb_spec (scroll_y + height - 2) (cursor_y w * 3 + 1));
    cbn [orb]; repeat split; intros; lia.
Qed.

(** ** Reaching a cell, and the cells of a chunked line *)

Lemma exec_on_keys_app (fuel : nat) (ks1 ks2 : list Key) (w w1 : World) :
  exec (on_keys fuel ks1) w = Ok w1 ->
  exec (on_keys fuel (ks1 ++ ks2)) w = exec (on_keys fuel ks2) w1.
Proof.
  unfold exec, on_keys. revert w.
  induction ks1 as [|k ks1 IH]; intros w E.
  - cbn in E. injection E as ->. reflexivity.
  - cbn [app for_each] in *. unfold bind in *.
    destruct (on_key fuel k w) as [[[] w']|e]; [|discriminate E].
    apply IH, E.
Qed.

Lemma downs_reach_row (f : nat) (w : World) (a : nat) (y : Z) :
  no_empty_line w -> 0 <= y -> y + Z.of_nat a < len (lines w) ->
  exec (on_keys (S (S (S f))) (replicate a KDown)) (at_cursor 0 y w)
  = Ok (at_cursor 0 (y + Z.of_nat a) w).
Proof.
  intros Hne. revert y. induction a as [|a IH]; intros y Hy Ha.
  - cbn [replicate]. rewrite Z.add_0_r. reflexivity.
  - change (replicate (S a) KDown) with ([KDown] ++ replicate a KDown).
    assert (Hr : 0 <= y < len (lines w)) by lia.
    assert (Hr1 : 0 <= y + 1 < len (lines w)) by lia.
    pose proof (line_length_pos w _ Hne Hr).
    pose proof (line_length_pos w _ Hne Hr1).
    rewrite (exec_on_keys_app _ _ _ _ (at_cursor 0 (y + 1) w)).
    + rewrite IH by lia. f_equal. f_equal. lia.
    + unfold exec, on_keys. cbn [for_each]. unfold bind.
      rewrite key_down by (apply at_cursor_placed; [exact Hne|exact Hr|lia]).
      cursor_simpl.
      rewrite (clamp_row_id (at_cursor 0 y w) (y + 1)) by exact Hr1.
      rewrite column_on_row_fixed by (cursor_simpl; lia).
      reflexivity.
Qed.

Lemma rights_reach_column (f : nat) (w : World) (b : nat) (x y : Z) :
  no_empty_line w -> 0 <= y < len (lines w) -> 0 <= x ->
  x + Z.of_nat b < line_length w y ->
  exec (on_keys (S (S (S f))) (replicate b KRight)) (at_cursor x y w)
  = Ok (at_cursor (x + Z.of_nat b) y w).
Proof.
  intros Hne Hy. revert x. induction b as [|b IH]; intros x Hx Hb.
  - cbn [replicate]. rewrite Z.add_0_r. reflexivity.
  - change (replicate (S b) KRight) with ([KRight] ++ replicate b KRight).
    rewrite (exec_on_keys_app _ _ _ _ (at_cursor (x + 1) y w)).
    + rewrite IH by lia. f_equal. f_equal. lia.
    + unfold exec, on_keys. cbn [for_each]. unfold bind.
      rewrite key_right by (apply at_cursor_placed; [exact Hne|exact Hy|lia]).
      rewrite move_column_interior by (cursor_simpl; lia).
      reflexivity.
Qed.

(** X22. On a layout without empty lines every cell is reached from (0,0)
    with the arrow keys alone: [a] down-arrows followed by [b] right-arrows
    put the cursor on column [b] of row [a], for every cell (b, a) of the
    layout, and change nothing else. *)
Theorem arrows_reach_every_cell (fuel : nat) (w : World) (a b : nat) :
  (3 <= fuel)%nat -> no_empty_line w ->
  (cursor_x w, cursor_y w) = (0, 0) ->
  Z.of_nat a < len (lines w) ->
  Z.of_nat b < line_length w (Z.of_nat a) ->
  exec (on_keys fuel (replicate a KDown ++ replicate b KRight)) w
  = Ok (at_cursor (Z.of_nat b) (Z.of_nat a) w).
Proof.
  intros Hf Hne Hcur Ha Hb. destruct fuel as [|[|[|f]]]; try lia.
  injection Hcur as Hx Hy.
  rewrite <- (at_cursor_id w) at 1. rewrite Hx, Hy.
  rewrite (exec_on_keys_app _ _ _ _ (at_cursor 0 (Z.of_nat a) w)).
  - rewrite (rights_reach_column f w b 0 (Z.of_nat a)) by (lia || exact Hne).
    reflexivity.
  - rewrite (downs_reach_row f w a 0) by (lia || exact Hne). reflexivity.
Qed.

Lemma arrows_reach_every_cell_witness :
  (3 <= 3)%nat /\ no_empty_line scenario_1 /\
  (cursor_x scenario_1, cursor_y scenario_1) = (0, 0) /\
  Z.of_nat 2 < len (lines scenario_1) /\
  Z.of_nat 4 < line_length scenario_1 (Z.of_nat 2) /\
  exec (on_keys 3 (replicate 2 KDown ++ replicate 4 KRight)) scenario_1
  = Ok (at_cursor (Z.of_nat 4) (Z.of_nat 2) scenario_1).
Proof.
  assert (H1 : Z.of_nat 2 < len (lines scenario_1))
    by (apply Z.ltb_lt; reflexivity).
  assert (H2 : Z.of_nat 4 < line_length scenario_1 (Z.of_nat 2))
    by (apply Z.ltb_lt; reflexivity).
  split; [lia|]. split; [exact scenario_1_no_empty_line|].
  split; [reflexivity|]. split; [exact H1|]. split; [exact H2|].
  exact (arrows_reach_every_cell 3 scenario_1 2 4 ltac:(lia)
           scenario_1_no_empty_line eq_refl H1 H2).
Defined.

Lemma splitlines_from_single (cur s : list N) :
  Forall (fun c => Py.is_linebreak c = false) s -> cur ++ s <> [] ->
  Py.splitlines_from cur s = [cur ++ s].
Proof.
  intros Hs. revert cur. induction Hs as [|c s Hc Hs IH]; intros cur Hne.
  - rewrite app_nil_r in *. cbn. destruct cur; [congruence|reflexivity].
  - cbn [Py.splitlines_from]. rewrite Hc.
    rewrite IH; rewrite <- app_assoc; [reflexivity|].
    destruct cur; discriminate.
Qed.

(** The lines of a text in one raw line of at least [m] characters. *)
Lemma chunks_long (m : Z) (t : list N) :
  0 < m -> m <= len t ->
  chunks m t =
    map (fun k : nat => take (Z.to_nat m) (drop (k * Z.to_nat m) t))
        (seq 0 (Z.to_nat ((len t + m - 1) / m))).
Proof.
  intros Hm Hlen. unfold chunks. rewrite Z.geb_leb.
  destruct (Z.leb_spec m (len t)); [|lia].
  rewrite map_map. replace (len t - 0 + m - 1) with (len t + m - 1) by lia.
  apply map_ext. intros k. rewrite slice_chunk by lia.
  f_equal. f_equal. lia.
Qed.

Lemma chunk_count_bounds (m n : Z) :
  0 < m -> m <= n ->
  1 <= (n + m - 1) / m /\
  ((n + m - 1) / m - 1) * m < n <= (n + m - 1) / m * m /\
  (m < n -> 2 <= (n + m - 1) / m).
Proof.
  intros Hm Hn.
  pose proof (Z.div_mod (n + m - 1) m ltac:(lia)).
  pose proof (Z.mod_pos_bound (n + m - 1) m Hm).
  split; [apply Z.div_le_lower_bound; lia|].
  split; [nia|]. intros H'. apply Z.div_le_lower_bound; lia.
Qed.

Lemma full_chunks_start (m : Z) (t : list N) (y : nat) :
  0 < m -> Z.of_nat y * m < len t ->
  Py.sum (map (fun x : list N => len x + 1)
            (map (fun k : nat => take (Z.to_nat m) (drop (k * Z.to_nat m) t))
                 (seq 0 y)))
  = Z.of_nat y * m + Z.of_nat y.
Proof.
  intros Hm. induction y as [|y IH]; intros Hy; [reflexivity|].
  rewrite seq_S, !map_app. cbn [map Nat.add].
  assert (Hsum : forall l1 l2, Py.sum (l1 ++ l2) = Py.sum l1 + Py.sum l2).
  { intros l1 l2. unfold Py.sum. induction l1 as [|z l1 IHl];
      cbn [app foldr]; [reflexivity|]. rewrite IHl. lia. }
  rewrite Hsum, IH by lia. unfold Py.sum. cbn [foldr].
  unfold len in *. rewrite length_take, length_drop. nia.
Qed.

(** X23. A text in one raw line longer than [2 * width] is laid out in
    chunks, and the rows of the chunks are addressed as if a terminator
    stood between them: the cell at column [x] of row [y] shows character
    [y * 2 * width + x] of the text but has the linear index
    [y * 2 * width + x + y]. The buffer of a new widget has one cell per
    character, so a printable key on the last cell of the last row, reached
    from (0,0) with the arrow keys, raises IndexError. *)
Theorem chunked_rows_are_shifted (t : list N) (width : Z) (c : N) :
  0 < width -> Forall (fun c => Py.is_linebreak c = false) t ->
  width * 2 < len t ->
  exists (w : World) (a b : nat),
    laid_out t width = Ok w /\
    buffer w = Some (replicate (length t) None) /\
    no_empty_line w /\
    (forall x y, 0 <= y < len (lines w) ->
       linear_index (at_cursor x y w) = y * (width * 2) + x + y) /\
    (forall (x y : nat) l ch, lines w !! y = Some l -> l !! x = Some ch ->
       t !! (y * Z.to_nat (width * 2) + x)%nat = Some ch) /\
    Z.of_nat a = len (lines w) - 1 /\
    Z.of_nat b = line_length w (Z.of_nat a) - 1 /\
    forall fuel, (3 <= fuel)%nat ->
      exec (on_keys fuel
              (replicate a KDown ++ replicate b KRight ++ [KChar c])) w
      = Raise IndexError.
Proof.
  intros Hw Hlb Hlen. set (m := width * 2) in *.
  assert (Hm : 0 < m) by (subst m; lia).
  assert (Ht : t <> []) by (intros ->; unfold len in Hlen; cbn in Hlen; lia).
  destruct (chunk_count_bounds m (len t) Hm ltac:(lia)) as (Hc1 & Hc2 & Hc3).
  specialize (Hc3 Hlen).
  set (count := Z.to_nat ((len t + m - 1) / m)) in *.
  set (g := fun k : nat => take (Z.to_nat m) (drop (k * Z.to_nat m) t)).
  assert (Hwrap : wrap t width = map g (seq 0 count)).
  { unfold wrap, Py.splitlines.
    rewrite (splitlines_from_single [] t Hlb) by exact Ht.
    cbn [map concat app]. rewrite app_nil_r. apply chunks_long; lia. }
  pose proof (update_lines_ok width (CribDragger.compose t None) Hw) as E0.
  cbv zeta in E0. cbn [lines text CribDragger.compose app] in E0.
  rewrite Hwrap in E0.
  assert (Hcount : (2 <= count)%nat) by (subst count; lia).
  destruct (map g (seq 0 count)) as [|l ls] eqn:El.
  { apply (f_equal length) in El. rewrite length_map, length_seq in El.
    cbn in El. lia. }
  cbn [map Py.max] in E0. rewrite <- El in *.
  match type of E0 with _ = Ok (tt, ?w0) => set (w := w0) in * end.
  assert (Hlines : lines w = map g (seq 0 count)) by reflexivity.
  assert (Hn : len (lines w) = Z.of_nat count)
    by (rewrite Hlines; unfold len; rewrite length_map, length_seq;
        reflexivity).
  assert (Hrow : forall k : nat, (k < count)%nat ->
            lines w !! k = Some (g k)).
  { intros k Hk. rewrite Hlines, list_lookup_fmap, lookup_seq_lt by exact Hk.
    reflexivity. }
  assert (Hglen : forall k : nat, (k < count)%nat ->
            len (g k) = Z.min m (len t - Z.of_nat k * m)).
  { intros k Hk. unfold g, len in *. rewrite length_take, length_drop. nia. }
  assert (Hll : forall k : nat, (k < count)%nat ->
            line_length w (Z.of_nat k) = Z.min m (len t - Z.of_nat k * m)).
  { intros k Hk. unfold line_length. rewrite Nat2Z.id, (Hrow k Hk).
    apply Hglen, Hk. }
  assert (Hne : no_empty_line w).
  { unfold no_empty_line. rewrite Hlines. apply Forall_forall.
    intros x Hx. apply list_elem_of_fmap in Hx as (k & -> & Hk).
    apply elem_of_seq in Hk. rewrite Hglen by lia. nia. }
  assert (Hidx : forall x y, 0 <= y < len (lines w) ->
            linear_index (at_cursor x y w) = y * m + x + y).
  { intros x y Hy. unfold linear_index. cursor_simpl.
    rewrite slice_to_take by lia. rewrite Hlines.
    rewrite <- fmap_take, take_seq.
    replace (Z.to_nat y `min` count)%nat with (Z.to_nat y) by lia.
    pose proof (full_chunks_start m t (Z.to_nat y) Hm ltac:(nia)) as Hs.
    fold g in Hs. change (fmap g) with (map g). rewrite Hs. lia. }
  exists w, (count - 1)%nat,
    (Z.to_nat (line_length w (Z.of_nat (count - 1)) - 1)).
  assert (HL : line_length w (Z.of_nat (count - 1))
               = len t - Z.of_nat (count - 1) * m)
    by (rewrite Hll by lia; nia).
  assert (HLpos : 0 < line_length w (Z.of_nat (count - 1))) by (rewrite HL; nia).
  split; [unfold laid_out, exec; rewrite E0; reflexivity|].
  split.
  { unfold buffer. cbn. unfold len. rewrite Nat2Z.id. reflexivity. }
  split; [exact Hne|]. split; [exact Hidx|].
  split.
  { intros x y row ch Hy Hx.
    assert (Hyc : (y < count)%nat).
    { apply lookup_lt_Some in Hy. unfold len in Hn. lia. }
    rewrite (Hrow y Hyc) in Hy. injection Hy as <-. unfold g in Hx.
    apply lookup_take_Some in Hx as [Hx _]. rewrite lookup_drop in Hx.
    exact Hx. }
  split; [lia|]. split; [lia|].
  intros fuel Hf. destruct fuel as [|[|[|f]]]; try lia.
  set (a := (count - 1)%nat).
  set (b := Z.to_nat (line_length w (Z.of_nat a) - 1)).
  assert (Hw00 : at_cursor 0 0 w = w) by reflexivity.
  rewrite <- Hw00 at 1.
  rewrite (exec_on_keys_app _ _ _ _ (at_cursor 0 (Z.of_nat a) w))
    by (rewrite (downs_reach_row f w a 0) by (lia || exact Hne);
        reflexivity).
  rewrite (exec_on_keys_app _ _ _ _ (at_cursor (Z.of_nat b) (Z.of_nat a) w))
    by (rewrite (rights_reach_column f w b 0 (Z.of_nat a))
          by (subst a b; lia || exact Hne); reflexivity).
  unfold exec, on_keys. cbn [for_each on_key]. unfold bind at 1.
  unfold TextArea.on_printable. unfold bind at 1.
  rewrite (replace_char_at_cursor_raises _ (Some c)
             (PartialString.init (len t))); [reflexivity|reflexivity|].
  rewrite Hidx by (subst a; lia).
  apply index_outside; [|apply len_nonneg].
  left. cbn [PartialString.init _value]. unfold len at 1.
  rewrite length_replicate. subst a b. unfold len in *. nia.
Qed.

Lemma chunked_rows_are_shifted_witness :
  0 < 1 /\ Forall (fun c => Py.is_linebreak c = false) (str_of "AAAA") /\
  1 * 2 < len (str_of "AAAA") /\
  exists w,
    laid_out (str_of "AAAA") 1 = Ok w /\
    lines w = [str_of "AA"; str_of "AA"] /\
    linear_index (at_cursor 0 1 w) = 3.
Proof.
  assert (H2 : Forall (fun c => Py.is_linebreak c = false) (str_of "AAAA"))
    by (repeat constructor).
  assert (H3 : 1 * 2 < len (str_of "AAAA")) by (apply Z.ltb_lt; reflexivity).
  split; [lia|]. split; [exact H2|]. split; [exact H3|].
  destruct (chunked_rows_are_shifted (str_of "AAAA") 1 88%N ltac:(lia) H2 H3)
    as (w & a & b & E & _ & _ & Hidx & _).
  pose proof E as E'. vm_compute in E'. injection E' as <-.
  eexists. split; [exact E|]. split; [reflexivity|].
  apply (Hidx 0 1). split; [apply Z.leb_le|apply Z.ltb_lt]; reflexivity.
Defined.

(** X24. On a layout without empty lines, with a buffer that has a cell
    for every column of the layout and for the terminator between two lines,
    the deleting keys clear the cell under the cursor at the two ends of the
    text, since the move before the clear does nothing there: backspace at
    (0,0) clears cell 0, and delete on the last cell of the last line clears
    that cell; the cursor stays, and one message is posted. *)
Theorem deleting_at_the_ends (fuel : nat) (w : World) :
  (3 <= fuel)%nat -> on_cell w ->
  exists p,
    heap w !! value w = Some p /\
    (cursor_x w = 0 -> cursor_y w = 0 ->
     exists w',
       on_key fuel KBackspace w = Ok (tt, w') /\
       buffer w' = Some (<[0%nat := None]> (_value p)) /\
       (cursor_x w', cursor_y w') = (0, 0) /\
       length (posted w') = S (length (posted w))) /\
    (cursor_y w + 1 = len (lines w) ->
     cursor_x w + 1 = line_length w (cursor_y w) ->
     exists w',
       on_key fuel KDelete w = Ok (tt, w') /\
       buffer w' = Some (<[Z.to_nat (linear_index w) := None]> (_value p)) /\
       (cursor_x w', cursor_y w') = (cursor_x w, cursor_y w) /\
       length (posted w') = S (length (posted w))).
Proof.
  intros Hf Hc. destruct fuel as [|[|[|f]]]; try lia.
  pose proof (on_cell_placed w Hc) as Hw.
  destruct (replace_on_cell w None Hc)
    as (w' & p & E & Hp & Hb & _ & _ & _ & Hcur & Hposted).
  destruct Hc as (_ & Hr & Hx & _). unfold row_in_text in Hr.
  exists p. split; [exact Hp|]. split.
  - intros Ex Ey. exists w'.
    cbn [on_key]. unfold TextArea.action_delete_left.
    rewrite bind_gets. unfold bind.
    rewrite set_cursor_x_ok by exact Hw. rewrite move_column_cases.
    destruct (Z.ltb_spec (cursor_x w - 1) 0); [|lia].
    destruct (Z.eqb_spec (cursor_y w) 0); [|lia].
    rewrite at_cursor_same by (lia || reflexivity).
    split; [exact E|]. split.
    + rewrite Hb. unfold linear_index. rewrite Ex, Ey.
      rewrite slice_to_take by (pose proof (len_nonneg (lines w)); lia).
      reflexivity.
    + rewrite Hcur, Ex, Ey. split; [reflexivity|exact Hposted].
  - intros Ey Ex. exists w'.
    cbn [on_key]. unfold TextArea.action_delete_right.
    rewrite bind_gets. unfold bind.
    rewrite set_cursor_x_ok by exact Hw. rewrite move_column_cases.
    destruct (Z.ltb_spec (cursor_x w + 1) 0); [lia|].
    destruct (Z.eqb_spec (cursor_y w + 1) (len (lines w))); [|lia].
    destruct (Z.ltb_spec (cursor_x w + 1) (line_length w (cursor_y w)));
      [lia|].
    destruct (Z.eqb_spec (cursor_x w + 1) (line_length w (cursor_y w)));
      [|lia].
    rewrite at_cursor_same by (lia || reflexivity).
    split; [exact E|]. split; [exact Hb|]. split; [exact Hcur|exact Hposted].
Qed.

Lemma deleting_at_the_ends_witness :
  (3 <= 3)%nat /\ on_cell scenario_1 /\
  cursor_x scenario_1 = 0 /\ cursor_y scenario_1 = 0 /\
  exists w',
    on_key 3 KBackspace scenario_1 = Ok (tt, w') /\
    (cursor_x w', cursor_y w') = (0, 0) /\
    length (posted w') = S (length (posted scenario_1)).
Proof.
  split; [lia|]. split; [exact scenario_1_editable|].
  split; [reflexivity|]. split; [reflexivity|].
  destruct (deleting_at_the_ends 3 scenario_1 ltac:(lia) scenario_1_editable)
    as (p & _ & Hback & _).
  destruct (Hback eq_refl eq_refl) as (w' & E & _ & Hcur & Hposted).
  exists w'. split; [exact E|]. split; [exact Hcur|exact Hposted].
Defined.


